(** * Standup 3000: permission, meeting and todo logic of [db.py]

    A shallow embedding of the persistence layer of the standup application.
    Every function of [db.py] opens a connection, runs a few SQL statements
    and commits; here the database is an explicit value of type [db] that is
    passed in and returned.  Tables are lists of rows in rowid order, so
    [fetchone] on a query without [ORDER BY] is the first matching row.

    Conventions taken from the source:
    - SQLite [INTEGER] columns that hold flags ([done], [is_archived],
      [is_primary], [is_special]) are integers; Python truthiness of such a
      value is "different from 0";
    - nullable columns are [option];
    - [datetime.utcnow().isoformat()] is the argument [now];
    - a statement that violates a constraint raises [sqlite3.IntegrityError];
      a function that catches it returns [None] and, having not committed,
      leaves the database as it was;
    - rowids are unbounded integers;
    - the columns of the full-text table [search_index] have no type
      affinity: a value keeps the storage class it was bound with;
    - a row record keeps the columns the modelled functions read or write. *)

From Stdlib Require Import ZArith List String Bool Lia.
From Stdlib Require Import Sorting.Permutation Sorting.Sorted.
From Stdlib Require Import DecimalString DecimalZ DecimalPos.
Import ListNotations.

Local Open Scope string_scope.
Local Open Scope list_scope.
Local Open Scope Z_scope.

(** ** Rows *)

Record user := mk_user {
  u_id : Z;
  u_display_name : string;
  u_role : string
}.

Record department := mk_department {
  d_id : Z;
  d_name : string;
  d_sort_order : Z;
  d_is_special : Z;
  d_is_archived : Z
}.

Record department_reporter := mk_department_reporter {
  dr_department_id : Z;
  dr_user_id : Z;
  dr_is_primary : Z
}.

Record meeting := mk_meeting {
  m_id : Z;
  m_date : string;
  m_created_at : string;
  m_status : string;
  m_locked_by : option Z;
  m_locked_at : option string;
  m_template_id : option Z
}.

Record section := mk_section {
  s_id : Z;
  s_meeting_id : Z;
  s_name : string;
  s_reporter : string;
  s_sort_order : Z;
  s_is_special : Z;
  s_content : string;
  s_updated_at : option string;
  s_department_id : option Z;
  s_reporter_id : option Z
}.

Record todo := mk_todo {
  t_id : Z;
  t_section_id : Z;
  t_text : string;
  t_done : Z;
  t_created_at : string;
  t_assigned_to : option Z;
  t_due_date : option string;
  t_priority : string;
  t_created_by : option Z;
  t_completed_at : option string
}.

Record meeting_template := mk_meeting_template {
  mt_id : Z;
  mt_name : string
}.

Record template_section := mk_template_section {
  ts_template_id : Z;
  ts_department_id : Z;
  ts_sort_order : Z;
  ts_default_content : string
}.

(** A value of a column without type affinity, as the columns of an FTS5
    table are: SQLite keeps the storage class the value was inserted with,
    and an [INTEGER] is never equal to a [TEXT]. *)
Inductive sql_value : Type :=
| SqlInteger (n : Z)
| SqlText (s : string).

(** SQL [=] on two such values. *)
Definition sql_eqb (a b : sql_value) : bool :=
  match a, b with
  | SqlInteger x, SqlInteger y => x =? y
  | SqlText x, SqlText y => String.eqb x y
  | _, _ => false
  end.

(** Python [str] of an integer: its decimal numeral. *)
Definition str (n : Z) : string :=
  NilZero.string_of_int (Z.to_int n).

(** A row of the full-text table [search_index].  The two id columns hold
    what the statement bound to them: the text [str(id)] when written by
    [_update_section_index] and [_update_todo_index], the integer itself when
    written by [rebuild_search_index]. *)
Record search_row := mk_search_row {
  si_type : string;
  si_source_id : sql_value;
  si_meeting_id : sql_value;
  si_meeting_date : string;
  si_section_name : string;
  si_reporter : string;
  si_content : string
}.

(** ** The database *)

(** The three [seq_*] fields are the [sqlite_sequence] entries of the tables
    declared [AUTOINCREMENT] in [init_db]. *)
Record db := mk_db {
  users : list user;
  departments : list department;
  department_reporters : list department_reporter;
  meetings : list meeting;
  sections : list section;
  todos : list todo;
  meeting_templates : list meeting_template;
  template_sections : list template_section;
  search_index : list search_row;
  seq_meeting : Z;
  seq_section : Z;
  seq_todo : Z
}.

Definition empty_db : db :=
  mk_db [] [] [] [] [] [] [] [] [] 0 0 0.

Definition set_department_reporter_rows (l : list department_reporter) (d : db) : db :=
  mk_db (users d) (departments d) l (meetings d) (sections d) (todos d)
        (meeting_templates d) (template_sections d) (search_index d)
        (seq_meeting d) (seq_section d) (seq_todo d).

Definition set_meeting_rows (l : list meeting) (seq : Z) (d : db) : db :=
  mk_db (users d) (departments d) (department_reporters d) l (sections d) (todos d)
        (meeting_templates d) (template_sections d) (search_index d)
        seq (seq_section d) (seq_todo d).

Definition set_section_rows (l : list section) (seq : Z) (d : db) : db :=
  mk_db (users d) (departments d) (department_reporters d) (meetings d) l (todos d)
        (meeting_templates d) (template_sections d) (search_index d)
        (seq_meeting d) seq (seq_todo d).

Definition set_todo_rows (l : list todo) (seq : Z) (d : db) : db :=
  mk_db (users d) (departments d) (department_reporters d) (meetings d) (sections d) l
        (meeting_templates d) (template_sections d) (search_index d)
        (seq_meeting d) (seq_section d) seq.

Definition set_search_rows (l : list search_row) (d : db) : db :=
  mk_db (users d) (departments d) (department_reporters d) (meetings d) (sections d) (todos d)
        (meeting_templates d) (template_sections d) l
        (seq_meeting d) (seq_section d) (seq_todo d).

(** ** Constraints declared outside [db.py]

    [init_db] declares [meeting.date UNIQUE], [section.meeting_id REFERENCES
    meeting(id)] and [todo.section_id REFERENCES section(id)], and [get_db]
    turns foreign keys on.  The columns and tables added later come from the
    SQL files under [migrations/], which [run_migrations] applies.  Whether
    those files declare the columns below with a [REFERENCES] clause, and
    which rows they accept into [department_reporter], is a parameter of the
    embedding: every theorem holds for each choice. *)
Record schema := mk_schema {
  fk_section_department : bool;
  fk_section_reporter : bool;
  fk_todo_assigned_to : bool;
  fk_todo_created_by : bool;
  fk_meeting_template : bool;
  accepts_reporter : db -> department_reporter -> bool
}.

(** ** Statement results *)

(** The exceptions the modelled code can raise: a constraint violation, and
    the [TypeError] of subscripting the [None] that [fetchone] returns when
    no row matches. *)
Inductive error : Type :=
| IntegrityError
| TypeError.

Inductive result (A : Type) : Type :=
| Ok (a : A)
| Raise (e : error).

Arguments Ok {A} a.
Arguments Raise {A} e.

Definition bind {A B : Type} (r : result A) (k : A -> result B) : result B :=
  match r with
  | Ok a => k a
  | Raise e => Raise e
  end.

Notation "x <- r ;; k" := (bind r (fun x => k))
  (at level 61, r at next level, right associativity).

(** ** Small helpers *)

(** Python truthiness of a nullable integer: [None] and [0] are false. *)
Definition truthy (o : option Z) : bool :=
  match o with
  | Some n => negb (n =? 0)
  | None => false
  end.

(** SQL [col = ?] on a nullable integer column: [NULL] equals nothing. *)
Definition col_is (o : option Z) (v : Z) : bool :=
  match o with
  | Some n => n =? v
  | None => false
  end.

(** The rowid an [AUTOINCREMENT] table gives its next row: one more than the
    largest rowid the table has ever held. *)
Definition next_rowid (seq : Z) (ids : list Z) : Z :=
  1 + fold_right Z.max (Z.max 0 seq) ids.

(** [ORDER BY key]: a stable insertion sort. *)
Fixpoint insert_by {A : Type} (key : A -> Z) (x : A) (l : list A) : list A :=
  match l with
  | [] => [x]
  | y :: l' => if key x <=? key y then x :: l else y :: insert_by key x l'
  end.

Definition order_by {A : Type} (key : A -> Z) (l : list A) : list A :=
  fold_right (insert_by key) [] l.

(** ** Lookups *)


Definition get_department (d : db) (dept_id : Z) : option department :=
  find (fun x => d_id x =? dept_id) (departments d).

Definition get_meeting (d : db) (meeting_id : Z) : option meeting :=
  find (fun m => m_id m =? meeting_id) (meetings d).

Definition get_meeting_by_date (d : db) (meeting_date : string) : option meeting :=
  find (fun m => String.eqb (m_date m) meeting_date) (meetings d).

Definition get_section (d : db) (section_id : Z) : option section :=
  find (fun s => s_id s =? section_id) (sections d).

Definition get_todo (d : db) (todo_id : Z) : option todo :=
  find (fun t => t_id t =? todo_id) (todos d).

Definition get_template (d : db) (template_id : Z) : option meeting_template :=
  find (fun t => mt_id t =? template_id) (meeting_templates d).

(** [get_sections]: the sections of a meeting, [ORDER BY sort_order]. *)
Definition get_sections (d : db) (meeting_id : Z) : list section :=
  order_by s_sort_order (filter (fun s => s_meeting_id s =? meeting_id) (sections d)).

(** [list_departments()]: the departments that are not archived,
    [ORDER BY sort_order]. *)
Definition list_departments (d : db) : list department :=
  order_by d_sort_order (filter (fun x => d_is_archived x =? 0) (departments d)).

(** ** Permission resolver *)

Definition is_meeting_locked (d : db) (meeting_id : Z) : bool :=
  match get_meeting d meeting_id with
  | None => false
  | Some m => String.eqb (m_status m) "locked"
  end.

(** [SELECT 1 FROM department_reporter WHERE department_id = ? AND user_id = ?] *)
Definition is_reporter (d : db) (dept_id user_id : Z) : bool :=
  existsb (fun r => (dr_department_id r =? dept_id) && (dr_user_id r =? user_id))
          (department_reporters d).

Definition can_edit_section (d : db) (user : user) (section : section) : bool :=
  if is_meeting_locked d (s_meeting_id section) then false
  else if String.eqb (u_role user) "admin" then true
  else if truthy (s_reporter_id section)
          && col_is (s_reporter_id section) (u_id user) then true
  else if truthy (s_department_id section) then
    match s_department_id section with
    | Some dept_id => is_reporter d dept_id (u_id user)
    | None => false
    end
  else false.

(** ** Inserting rows *)

Definition has_user (d : db) (user_id : Z) : bool :=
  existsb (fun u => u_id u =? user_id) (users d).

Definition has_department (d : db) (dept_id : Z) : bool :=
  existsb (fun x => d_id x =? dept_id) (departments d).

Definition has_meeting (d : db) (meeting_id : Z) : bool :=
  existsb (fun m => m_id m =? meeting_id) (meetings d).

Definition has_section (d : db) (section_id : Z) : bool :=
  existsb (fun s => s_id s =? section_id) (sections d).

Definition has_template (d : db) (template_id : Z) : bool :=
  existsb (fun t => mt_id t =? template_id) (meeting_templates d).

(** A foreign key on a nullable column: [NULL] is always accepted; a value is
    accepted when the key is not declared or the referenced row exists. *)
Definition fk_ok (declared : bool) (exists_row : Z -> bool) (o : option Z) : bool :=
  match o with
  | None => true
  | Some v => negb declared || exists_row v
  end.

(** Modelled from the spec: the column default of [meeting.status] is set by
    a migration file that is not under src/; the spec gives the states
    [open] and [locked] and starts a meeting in [open]. *)
Definition default_status : string := "open".

(** [INSERT INTO meeting (date, created_at[, template_id])]. *)
Definition insert_meeting (sc : schema) (d : db) (meeting_date created_at : string)
    (template_id : option Z) : result (Z * db) :=
  if existsb (fun m => String.eqb (m_date m) meeting_date) (meetings d)
  then Raise IntegrityError
  else if negb (fk_ok (fk_meeting_template sc) (has_template d) template_id)
  then Raise IntegrityError
  else
    let id := next_rowid (seq_meeting d) (map m_id (meetings d)) in
    Ok (id, set_meeting_rows
              (meetings d ++ [mk_meeting id meeting_date created_at default_status
                                         None None template_id])
              id d).

(** The foreign keys of a section row. *)
Definition section_accepted (sc : schema) (d : db) (r : section) : bool :=
  has_meeting d (s_meeting_id r)
  && fk_ok (fk_section_department sc) (has_department d) (s_department_id r)
  && fk_ok (fk_section_reporter sc) (has_user d) (s_reporter_id r).

(** [INSERT INTO section (...)]: [row] is the new row as a function of the
    rowid it receives. *)
Definition insert_section (sc : schema) (d : db) (row : Z -> section) : result db :=
  let id := next_rowid (seq_section d) (map s_id (sections d)) in
  let r := row id in
  if section_accepted sc d r
  then Ok (set_section_rows (sections d ++ [r]) id d)
  else Raise IntegrityError.

(** [INSERT INTO todo (section_id, text, assigned_to, due_date, priority,
    created_by, created_at)]; [done] takes its default 0 and [completed_at]
    stays [NULL].  The result carries [last_insert_rowid()]. *)
Definition insert_todo (sc : schema) (d : db) (section_id : Z) (text : string)
    (assigned_to : option Z) (due_date : option string) (priority : string)
    (created_by : option Z) (created_at : string) : result (Z * db) :=
  let id := next_rowid (seq_todo d) (map t_id (todos d)) in
  if has_section d section_id
     && fk_ok (fk_todo_assigned_to sc) (has_user d) assigned_to
     && fk_ok (fk_todo_created_by sc) (has_user d) created_by
  then Ok (id, set_todo_rows
                 (todos d ++ [mk_todo id section_id text 0 created_at assigned_to
                                      due_date priority created_by None])
                 id d)
  else Raise IntegrityError.

(** ** Todo engine *)

(** The body of the [try] in [_update_todo_index]; its [except] only guards
    against a database without the [search_index] table. *)
Definition _update_todo_index (d : db) (todo_id : Z) : db :=
  let d1 := set_search_rows
              (filter (fun r => negb (String.eqb (si_type r) "todo"
                                      && sql_eqb (si_source_id r)
                                                 (SqlText (str todo_id))))
                      (search_index d)) d in
  match get_todo d1 todo_id with
  | None => d1
  | Some todo =>
      match get_section d1 (t_section_id todo) with
      | None => d1
      | Some section =>
          match get_meeting d1 (s_meeting_id section) with
          | None => d1
          | Some meeting =>
              set_search_rows
                (search_index d1 ++
                   [mk_search_row "todo" (SqlText (str todo_id))
                                  (SqlText (str (m_id meeting))) (m_date meeting)
                                  (s_name section) (s_reporter section) (t_text todo)])
                d1
          end
      end
  end.

Definition valid_priority (priority : string) : bool :=
  existsb (String.eqb priority) ["low"; "normal"; "high"].

Definition add_todo (sc : schema) (now : string) (d : db) (section_id : Z)
    (text : string) (assigned_to : option Z) (due_date : option string)
    (priority : string) (created_by : option Z) : result db :=
  let priority := if negb (valid_priority priority) then "normal" else priority in
  p <- insert_todo sc d section_id text assigned_to due_date priority created_by now ;;
  Ok (_update_todo_index (snd p) (fst p)).

(** [UPDATE todo SET done = ?, completed_at = ? WHERE id = ?] *)
Definition set_done (done : Z) (completed_at : option string) (t : todo) : todo :=
  mk_todo (t_id t) (t_section_id t) (t_text t) done (t_created_at t)
          (t_assigned_to t) (t_due_date t) (t_priority t) (t_created_by t)
          completed_at.

Definition update_todo_done (d : db) (todo_id done : Z)
    (completed_at : option string) : db :=
  set_todo_rows
    (map (fun t => if t_id t =? todo_id then set_done done completed_at t else t)
         (todos d))
    (seq_todo d) d.

Definition toggle_todo (now : string) (d : db) (todo_id : Z) : db :=
  match get_todo d todo_id with
  | None => d
  | Some todo =>
      if negb (t_done todo =? 0)
      then update_todo_done d todo_id 0 None
      else update_todo_done d todo_id 1 (Some now)
  end.

(** The section of the target meeting that takes a carried todo: the first
    one of the same department when the original section has one, else the
    first one of the same name. *)
Definition find_target_section (d : db) (orig_section : section)
    (target_meeting_id : Z) : option section :=
  let by_department :=
    if truthy (s_department_id orig_section) then
      match s_department_id orig_section with
      | Some dept_id =>
          find (fun s => (s_meeting_id s =? target_meeting_id)
                         && col_is (s_department_id s) dept_id)
               (sections d)
      | None => None
      end
    else None in
  match by_department with
  | Some s => Some s
  | None =>
      find (fun s => (s_meeting_id s =? target_meeting_id)
                     && String.eqb (s_name s) (s_name orig_section))
           (sections d)
  end.

Definition carry_forward_todo (sc : schema) (now : string) (d : db)
    (todo_id target_meeting_id : Z) : result (option Z * db) :=
  match get_todo d todo_id with
  | None => Ok (None, d)
  | Some original =>
      match get_section d (t_section_id original) with
      | None => Ok (None, d)
      | Some orig_section =>
          match find_target_section d orig_section target_meeting_id with
          | None => Ok (None, d)
          | Some target_section =>
              p <- insert_todo sc d (s_id target_section) (t_text original)
                     (t_assigned_to original) (t_due_date original)
                     (t_priority original) (t_created_by original) now ;;
              Ok (Some (fst p), update_todo_done (snd p) todo_id 1 (Some now))
          end
      end
  end.

(** ** Department reporters *)

Definition int_of_bool (b : bool) : Z := if b then 1 else 0.

Fixpoint insert_reporters (sc : schema) (d : db) (dept_id : Z)
    (reporter_entries : list (Z * bool)) : result db :=
  match reporter_entries with
  | [] => Ok d
  | (user_id, is_primary) :: rest =>
      let row := mk_department_reporter dept_id user_id (int_of_bool is_primary) in
      if accepts_reporter sc d row
      then insert_reporters sc
             (set_department_reporter_rows (department_reporters d ++ [row]) d)
             dept_id rest
      else Raise IntegrityError
  end.

Definition set_department_reporters (sc : schema) (d : db) (dept_id : Z)
    (reporter_entries : list (Z * bool)) : result db :=
  let d1 := set_department_reporter_rows
              (filter (fun r => negb (dr_department_id r =? dept_id))
                      (department_reporters d)) d in
  insert_reporters sc d1 dept_id reporter_entries.

(** The state a caller finds after a call: what was committed, or the
    database as it was when the call raised before [commit]. *)
Definition state_after {A : Type} (d : db) (r : result A) (get : A -> db) : db :=
  match r with
  | Ok a => get a
  | Raise _ => d
  end.

(** [SELECT u.display_name, u.id FROM department_reporter dr JOIN user u ON
    dr.user_id = u.id WHERE dr.department_id = ? AND dr.is_primary = 1
    LIMIT 1]: the first joined row. *)
Definition primary_reporter (d : db) (dept_id : Z) : option user :=
  hd_error
    (flat_map
       (fun r =>
          if (dr_department_id r =? dept_id) && (dr_is_primary r =? 1)
          then filter (fun u => u_id u =? dr_user_id r) (users d)
          else [])
       (department_reporters d)).

Definition reporter_name (reporter_row : option user) : string :=
  match reporter_row with
  | Some u => u_display_name u
  | None => ""
  end.

Definition reporter_id (reporter_row : option user) : option Z :=
  match reporter_row with
  | Some u => Some (u_id u)
  | None => None
  end.

(** ** Meeting lifecycle *)

Definition DEFAULT_SECTIONS : list (string * string * bool) :=
  [ ("Engineering", "", false);
    ("Design", "", false);
    ("Product", "", false);
    ("QA", "", false);
    ("Infrastructure", "", false);
    ("Support", "", false);
    ("Operations", "", false);
    ("PTO / Out of Office", "", true);
    ("Shoutouts", "", true) ].

(** The section a meeting gets for a department. *)
Definition department_section (d : db) (meeting_id : Z) (dept : department)
    (sort_order : Z) (content : string) (id : Z) : section :=
  let reporter_row := primary_reporter d (d_id dept) in
  mk_section id meeting_id (d_name dept) (reporter_name reporter_row) sort_order
             (d_is_special dept) content None (Some (d_id dept))
             (reporter_id reporter_row).

Definition copied_section (meeting_id : Z) (s : section) (id : Z) : section :=
  mk_section id meeting_id (s_name s) (s_reporter s) (s_sort_order s)
             (s_is_special s) (s_content s) None (s_department_id s)
             (s_reporter_id s).

Definition default_section (meeting_id : Z) (i : Z) (entry : string * string * bool)
    (id : Z) : section :=
  let '(name, reporter, is_special) := entry in
  mk_section id meeting_id name reporter i (int_of_bool is_special) "" None None None.

Fixpoint copy_sections (sc : schema) (d : db) (meeting_id : Z)
    (prev_sections : list section) : result db :=
  match prev_sections with
  | [] => Ok d
  | s :: rest =>
      d1 <- insert_section sc d (copied_section meeting_id s) ;;
      copy_sections sc d1 meeting_id rest
  end.

Fixpoint department_sections (sc : schema) (d : db) (meeting_id : Z)
    (depts : list department) : result db :=
  match depts with
  | [] => Ok d
  | dept :: rest =>
      d1 <- insert_section sc d
              (department_section d meeting_id dept (d_sort_order dept) "") ;;
      department_sections sc d1 meeting_id rest
  end.

Fixpoint default_sections (sc : schema) (d : db) (meeting_id : Z) (i : Z)
    (entries : list (string * string * bool)) : result db :=
  match entries with
  | [] => Ok d
  | entry :: rest =>
      d1 <- insert_section sc d (default_section meeting_id i entry) ;;
      default_sections sc d1 meeting_id (i + 1) rest
  end.

Definition nonempty_string (s : string) : bool :=
  negb (String.eqb s "").

(** The [try] block of [create_meeting]. *)
Definition create_meeting_try (sc : schema) (now : string) (d : db)
    (meeting_date : string) (copy_from : option string) : result (Z * db) :=
  p <- insert_meeting sc d meeting_date now None ;;
  let d1 := snd p in
  match get_meeting_by_date d1 meeting_date with
  | None => Raise TypeError
  | Some meeting =>
      let from_departments :=
        let depts := list_departments d1 in
        d2 <- match depts with
              | _ :: _ => department_sections sc d1 (m_id meeting) depts
              | [] => default_sections sc d1 (m_id meeting) 0 DEFAULT_SECTIONS
              end ;;
        Ok (m_id meeting, d2) in
      match copy_from with
      | Some date =>
          if nonempty_string date then
            match get_meeting_by_date d1 date with
            | Some prev =>
                d2 <- copy_sections sc d1 (m_id meeting) (get_sections d1 (m_id prev)) ;;
                Ok (m_id meeting, d2)
            | None => from_departments
            end
          else from_departments
      | None => from_departments
      end
  end.

(** [except sqlite3.IntegrityError: mid = None]: nothing was committed. *)
Definition catch_integrity (d : db) (r : result (Z * db)) : result (option Z * db) :=
  match r with
  | Ok (mid, d') => Ok (Some mid, d')
  | Raise IntegrityError => Ok (None, d)
  | Raise e => Raise e
  end.

Definition create_meeting (sc : schema) (now : string) (d : db)
    (meeting_date : string) (copy_from : option string) : result (option Z * db) :=
  catch_integrity d (create_meeting_try sc now d meeting_date copy_from).

Fixpoint template_sections_loop (sc : schema) (d : db) (meeting_id : Z)
    (tss : list template_section) : result db :=
  match tss with
  | [] => Ok d
  | ts :: rest =>
      match get_department d (ts_department_id ts) with
      | None => template_sections_loop sc d meeting_id rest
      | Some dept =>
          if negb (d_is_archived dept =? 0)
          then template_sections_loop sc d meeting_id rest
          else
            d1 <- insert_section sc d
                    (department_section d meeting_id dept (ts_sort_order ts)
                                        (ts_default_content ts)) ;;
            template_sections_loop sc d1 meeting_id rest
      end
  end.

(** [SELECT * FROM template_section WHERE template_id = ? ORDER BY sort_order] *)
Definition sections_of_template (d : db) (template_id : Z) : list template_section :=
  order_by ts_sort_order
           (filter (fun ts => ts_template_id ts =? template_id) (template_sections d)).

Definition create_meeting_from_template_try (sc : schema) (now : string) (d : db)
    (meeting_date : string) (template_id : Z) : result (Z * db) :=
  p <- insert_meeting sc d meeting_date now (Some template_id) ;;
  let d1 := snd p in
  match get_meeting_by_date d1 meeting_date with
  | None => Raise TypeError
  | Some meeting =>
      let tss := sections_of_template d1 template_id in
      d2 <- template_sections_loop sc d1 (m_id meeting) tss ;;
      Ok (m_id meeting, d2)
  end.

Definition create_meeting_from_template (sc : schema) (now : string) (d : db)
    (meeting_date : string) (template_id : Z) : result (option Z * db) :=
  catch_integrity d (create_meeting_from_template_try sc now d meeting_date template_id).

(** ** Specification vocabulary *)

(** The meeting with this id exists and its status is [locked]. *)
Definition meeting_locked (d : db) (meeting_id : Z) : Prop :=
  exists m, get_meeting d meeting_id = Some m /\ m_status m = "locked".

(** The meeting table holds a row with this id whose status is [locked]. *)
Definition locked_row (d : db) (meeting_id : Z) : Prop :=
  exists m, In m (meetings d) /\ m_id m = meeting_id /\ m_status m = "locked".

(** The user is listed for the department, as primary or as backup. *)
Definition listed_reporter (d : db) (dept_id user_id : Z) : Prop :=
  exists r, In r (department_reporters d)
            /\ dr_department_id r = dept_id /\ dr_user_id r = user_id.

(** The user columns of a todo row satisfy the foreign keys the schema
    declares on them; every stored row does. *)
Definition todo_users_ok (sc : schema) (d : db) (assigned_to created_by : option Z)
    : Prop :=
  fk_ok (fk_todo_assigned_to sc) (has_user d) assigned_to = true
  /\ fk_ok (fk_todo_created_by sc) (has_user d) created_by = true.

(** Two sections belong to the same department. *)
Definition same_department (a b : section) : Prop :=
  exists dept_id, s_department_id a = Some dept_id /\ s_department_id b = Some dept_id.

(** [UPDATE todo SET done = 1, completed_at = now WHERE id = todo_id] on the
    rows of the table. *)
Definition close_row (todo_id : Z) (now : string) (r : todo) : todo :=
  if t_id r =? todo_id then set_done 1 (Some now) r else r.

(** Rows numbered with consecutive rowids. *)
Fixpoint assign_ids (first : Z) (rows : list (Z -> section)) : list section :=
  match rows with
  | [] => []
  | row :: rest => row first :: assign_ids (first + 1) rest
  end.

(** A run of [INSERT INTO section] statements, one per row. *)
Fixpoint insert_rows (sc : schema) (d : db) (rows : list (Z -> section)) : result db :=
  match rows with
  | [] => Ok d
  | row :: rest => d1 <- insert_section sc d row ;; insert_rows sc d1 rest
  end.

(** The sections a blank meeting gets from the departments. *)
Definition department_rows (d : db) (meeting_id : Z) (depts : list department)
    : list (Z -> section) :=
  map (fun dept => department_section d meeting_id dept (d_sort_order dept) "") depts.

(** The built-in sections, [sort_order] counting from [i]. *)
Fixpoint default_rows (meeting_id : Z) (i : Z) (entries : list (string * string * bool))
    : list (Z -> section) :=
  match entries with
  | [] => []
  | entry :: rest => default_section meeting_id i entry :: default_rows meeting_id (i + 1) rest
  end.

(** The sections of a meeting created without a source: one per department
    that is not archived, or the built-in ones when there is none. *)
Definition blank_rows (d : db) (meeting_id : Z) : list (Z -> section) :=
  match list_departments d with
  | _ :: _ => department_rows d meeting_id (list_departments d)
  | [] => default_rows meeting_id 0 DEFAULT_SECTIONS
  end.

(** The department of a template section, when it still exists and is not
    archived. *)
Definition live_department (d : db) (dept_id : Z) : option department :=
  match get_department d dept_id with
  | Some dept => if d_is_archived dept =? 0 then Some dept else None
  | None => None
  end.

(** The sections a template yields: one per template section whose department
    is live, none for the others. *)
Definition template_rows (d : db) (meeting_id : Z) (tss : list template_section)
    : list (Z -> section) :=
  flat_map
    (fun ts =>
       match live_department d (ts_department_id ts) with
       | Some dept =>
           [department_section d meeting_id dept (ts_sort_order ts)
                               (ts_default_content ts)]
       | None => []
       end)
    tss.

(** The user is a primary reporter of the department: [department_reporter]
    lists the user for it with [is_primary = 1], and the user row exists. *)
Definition primary_reporter_of (d : db) (dept_id : Z) (u : user) : Prop :=
  In u (users d)
  /\ exists r, In r (department_reporters d)
               /\ dr_department_id r = dept_id
               /\ dr_is_primary r = 1
               /\ dr_user_id r = u_id u.

(** No department has two primary reporters. *)
Definition primary_unique (d : db) : Prop :=
  forall dept_id u u',
    primary_reporter_of d dept_id u -> primary_reporter_of d dept_id u' -> u = u'.

(** The reporter columns a new section takes from a department: the display
    name and the id of a primary reporter of the department, or the empty
    name and [NULL] when the department has none. *)
Definition reporter_snapshot (d : db) (dept_id : Z) (name : string)
    (rid : option Z) : Prop :=
  (exists u, primary_reporter_of d dept_id u
             /\ name = u_display_name u /\ rid = Some (u_id u))
  \/ ((forall u, ~ primary_reporter_of d dept_id u) /\ name = "" /\ rid = None).

(** A list sorted by a key, smallest first. *)
Definition sorted_by {A : Type} (key : A -> Z) (l : list A) : Prop :=
  StronglySorted (fun a b => key a <= key b) l.

(** The sections of a new meeting, listed against the departments they are
    made for: one section per department, with consecutive ids from [first],
    carrying the department's name, sort order, special flag and id, empty
    content and the reporter snapshot. *)
Inductive department_yields (d : db) (meeting_id : Z)
    : Z -> list department -> list section -> Prop :=
| department_yields_nil first :
    department_yields d meeting_id first [] []
| department_yields_cons first dept rest news name rid :
    reporter_snapshot d (d_id dept) name rid ->
    department_yields d meeting_id (first + 1) rest news ->
    department_yields d meeting_id first (dept :: rest)
      (mk_section first meeting_id (d_name dept) name (d_sort_order dept)
                  (d_is_special dept) "" None (Some (d_id dept)) rid
       :: news).

(** The sections of a meeting made from a template, listed against the
    template sections: a template section whose department is not in the
    department table, or is archived there, yields nothing; one whose
    department is in the table and not archived yields the next section,
    with the department's name, special flag and id, the template section's
    sort order and default content, and the reporter snapshot. *)
Inductive template_yields (d : db) (meeting_id : Z)
    : Z -> list template_section -> list section -> Prop :=
| template_yields_nil first :
    template_yields d meeting_id first [] []
| template_yields_skip first ts rest news :
    (forall dept, In dept (departments d) -> d_id dept = ts_department_id ts ->
                  d_is_archived dept <> 0) ->
    template_yields d meeting_id first rest news ->
    template_yields d meeting_id first (ts :: rest) news
| template_yields_section first ts rest news dept name rid :
    In dept (departments d) ->
    d_id dept = ts_department_id ts ->
    d_is_archived dept = 0 ->
    reporter_snapshot d (d_id dept) name rid ->
    template_yields d meeting_id (first + 1) rest news ->
    template_yields d meeting_id first (ts :: rest)
      (mk_section first meeting_id (d_name dept) name (ts_sort_order ts)
                  (d_is_special dept) (ts_default_content ts) None
                  (Some (d_id dept)) rid
       :: news).

(** ** Sample data *)

Module Sample.

Definition any_schema : schema :=
  mk_schema true true true true true (fun _ _ => true).

Definition alice : user := mk_user 1 "Alice" "member".
Definition bob : user := mk_user 2 "Bob" "member".
Definition root : user := mk_user 3 "Root" "admin".

Definition engineering : department := mk_department 1 "Engineering" 0 0 0.
Definition shoutouts : department := mk_department 2 "Shoutouts" 1 1 0.
Definition legacy : department := mk_department 3 "Legacy" 2 0 1.

(** Three users, three departments (one archived), Alice primary and Bob
    backup reporter of Engineering; no meeting yet. *)
Definition seeded : db :=
  mk_db [alice; bob; root] [engineering; shoutouts; legacy]
        [mk_department_reporter 1 1 1; mk_department_reporter 1 2 0]
        [] [] [] [mk_meeting_template 1 "Weekly"]
        [mk_template_section 1 3 0 "old notes";
         mk_template_section 1 1 1 "agenda";
         mk_template_section 1 9 2 "gone"]
        [] 0 0 0.

(** A database whose only department is archived. *)
Definition all_archived : db :=
  mk_db [alice] [legacy] [] [] [] [] [] [] [] 0 0 0.

Definition section_1 : section :=
  mk_section 1 1 "Engineering" "Alice" 0 0 "" None (Some 1) (Some 1).
Definition section_2 : section :=
  mk_section 2 1 "Shoutouts" "" 1 1 "" None (Some 2) None.
Definition section_3 : section :=
  mk_section 3 2 "Engineering" "Alice" 0 0 "" None (Some 1) (Some 1).

Definition todo_1 : todo :=
  mk_todo 1 1 "Ship v2" 0 "2026-03-01T09:00:00" (Some 2) (Some "2026-03-15")
          "high" (Some 1) None.

(** Two meetings with their sections and one open todo in the first. *)
Definition running : db :=
  mk_db [alice; bob; root] [engineering; shoutouts; legacy]
        [mk_department_reporter 1 1 1; mk_department_reporter 1 2 0]
        [mk_meeting 1 "2026-03-01" "2026-03-01T08:00:00" "open" None None None;
         mk_meeting 2 "2026-03-08" "2026-03-08T08:00:00" "open" None None None;
         mk_meeting 3 "2026-03-15" "2026-03-15T08:00:00" "open" None None None]
        [section_1; section_2; section_3]
        [todo_1] [] [] [] 3 3 1.

End Sample.

(** ** Further operations of [db.py] *)

Definition set_department_rows (l : list department) (d : db) : db :=
  mk_db (users d) l (department_reporters d) (meetings d) (sections d) (todos d)
        (meeting_templates d) (template_sections d) (search_index d)
        (seq_meeting d) (seq_section d) (seq_todo d).

(** [UPDATE meeting SET status = ?, locked_by = ?, locked_at = ? WHERE id = ?] *)
Definition set_lock (status : string) (locked_by : option Z)
    (locked_at : option string) (m : meeting) : meeting :=
  mk_meeting (m_id m) (m_date m) (m_created_at m) status locked_by locked_at
             (m_template_id m).

Definition update_meeting_lock (d : db) (meeting_id : Z) (status : string)
    (locked_by : option Z) (locked_at : option string) : db :=
  set_meeting_rows
    (map (fun m => if m_id m =? meeting_id
                   then set_lock status locked_by locked_at m else m)
         (meetings d))
    (seq_meeting d) d.

(** [lock_meeting].  [fk_locked_by] tells whether the migration that adds
    [meeting.locked_by] declares it [REFERENCES user(id)]. *)
Definition lock_meeting (fk_locked_by : bool) (now : string) (d : db)
    (meeting_id user_id : Z) : result (bool * db) :=
  match get_meeting d meeting_id with
  | None => Ok (false, d)
  | Some meeting =>
      if String.eqb (m_status meeting) "locked" then Ok (true, d)
      else if fk_ok fk_locked_by (has_user d) (Some user_id)
      then Ok (true, update_meeting_lock d meeting_id "locked" (Some user_id) (Some now))
      else Raise IntegrityError
  end.

Definition unlock_meeting (d : db) (meeting_id : Z) : bool * db :=
  match get_meeting d meeting_id with
  | None => (false, d)
  | Some _ => (true, update_meeting_lock d meeting_id "open" None None)
  end.

(** [UPDATE department SET sort_order = ? WHERE id = ?] *)
Definition set_sort_order (sort_order : Z) (x : department) : department :=
  mk_department (d_id x) (d_name x) sort_order (d_is_special x) (d_is_archived x).

(** The loop of [reorder_departments], [enumerate] counting from [i]. *)
Fixpoint reorder_rows (i : Z) (dept_ids : list Z) (rows : list department)
    : list department :=
  match dept_ids with
  | [] => rows
  | dept_id :: rest =>
      reorder_rows (i + 1) rest
        (map (fun x => if d_id x =? dept_id then set_sort_order i x else x) rows)
  end.

Definition reorder_departments (d : db) (dept_ids : list Z) : db :=
  set_department_rows (reorder_rows 0 dept_ids (departments d)) d.

Definition delete_todo (d : db) (todo_id : Z) : db :=
  let d1 := set_search_rows
              (filter (fun r => negb (String.eqb (si_type r) "todo"
                                      && sql_eqb (si_source_id r)
                                                 (SqlText (str todo_id))))
                      (search_index d)) d in
  set_todo_rows (filter (fun t => negb (t_id t =? todo_id)) (todos d1))
                (seq_todo d1) d1.

(** [UPDATE section SET content = ?, updated_at = ? WHERE id = ?] *)
Definition set_content (content : string) (updated_at : option string)
    (s : section) : section :=
  mk_section (s_id s) (s_meeting_id s) (s_name s) (s_reporter s) (s_sort_order s)
             (s_is_special s) content updated_at (s_department_id s)
             (s_reporter_id s).

(** The body of the [try] in [_update_section_index]. *)
Definition _update_section_index (d : db) (section_id : Z) : db :=
  let d1 := set_search_rows
              (filter (fun r => negb (String.eqb (si_type r) "section"
                                      && sql_eqb (si_source_id r)
                                                 (SqlText (str section_id))))
                      (search_index d)) d in
  match get_section d1 section_id with
  | None => d1
  | Some section =>
      if nonempty_string (s_content section) then
        match get_meeting d1 (s_meeting_id section) with
        | None => d1
        | Some meeting =>
            set_search_rows
              (search_index d1 ++
                 [mk_search_row "section" (SqlText (str section_id))
                                (SqlText (str (m_id meeting))) (m_date meeting)
                                (s_name section) (s_reporter section)
                                (s_content section)])
              d1
        end
      else d1
  end.

Definition update_section (now : string) (d : db) (section_id : Z)
    (content : string) : db :=
  let d1 := set_section_rows
              (map (fun s => if s_id s =? section_id
                             then set_content content (Some now) s else s)
                   (sections d))
              (seq_section d) d in
  _update_section_index d1 section_id.

(** [rebuild_search_index]: the index is emptied and refilled by two
    [INSERT ... SELECT] over the joined tables, which store the integer ids
    themselves; the sections with content come first, then the todos, each in
    the order of its table. *)
Definition rebuild_search_index (d : db) : db :=
  let section_rows :=
    flat_map
      (fun s =>
         flat_map
           (fun m =>
              if (s_meeting_id s =? m_id m) && nonempty_string (s_content s)
              then [mk_search_row "section" (SqlInteger (s_id s))
                                  (SqlInteger (m_id m)) (m_date m) (s_name s)
                                  (s_reporter s) (s_content s)]
              else [])
           (meetings d))
      (sections d) in
  let todo_rows :=
    flat_map
      (fun t =>
         flat_map
           (fun s =>
              if t_section_id t =? s_id s then
                flat_map
                  (fun m =>
                     if s_meeting_id s =? m_id m
                     then [mk_search_row "todo" (SqlInteger (t_id t))
                                         (SqlInteger (m_id m)) (m_date m)
                                         (s_name s) (s_reporter s) (t_text t)]
                     else [])
                  (meetings d)
              else [])
           (sections d))
      (todos d) in
  set_search_rows (section_rows ++ todo_rows) d.

(** [get_meeting_fill_status]: the pair [(filled, total)]. *)
Definition get_meeting_fill_status (d : db) (meeting_id : Z) : Z * Z :=
  let total := filter (fun s => s_meeting_id s =? meeting_id) (sections d) in
  let filled := filter (fun s => (s_meeting_id s =? meeting_id)
                                 && nonempty_string (s_content s)) (sections d) in
  (Z.of_nat (List.length filled), Z.of_nat (List.length total)).

(** [todo t JOIN section s ON t.section_id = s.id] *)
Definition todo_sections (d : db) : list (todo * section) :=
  flat_map (fun t => map (fun s => (t, s))
                         (filter (fun s => s_id s =? t_section_id t) (sections d)))
           (todos d).

Definition get_meeting_open_todo_count (d : db) (meeting_id : Z) : Z :=
  Z.of_nat
    (List.length
       (filter (fun p => (s_meeting_id (snd p) =? meeting_id) && (t_done (fst p) =? 0))
               (todo_sections d))).

(** ** Route handlers of [app.py]

    The bodies of the handlers, for a request that passed [login_required]:
    [user] is the row [get_current_user] returns.  [abort(code)] ends the
    request with that status. *)
Inductive response : Type :=
| Aborted (code : Z)
| Rendered.

Definition section_save (now : string) (d : db) (user : user) (section_id : Z)
    (content : string) : response * db :=
  match get_section d section_id with
  | None => (Aborted 404, d)
  | Some section =>
      if negb (can_edit_section d user section) then (Aborted 403, d)
      else (Rendered, update_section now d section_id content)
  end.



(** The position the loop of [reorder_departments] leaves on a department:
    that of the last occurrence of its id in the list, counted from [i]. *)
Fixpoint last_position (i : Z) (dept_id : Z) (dept_ids : list Z) : option Z :=
  match dept_ids with
  | [] => None
  | y :: rest =>
      match last_position (i + 1) dept_id rest with
      | Some n => Some n
      | None => if y =? dept_id then Some i else None
      end
  end.

(** A fresh install after its first meeting: no department, one meeting with
    the built-in sections. *)
Definition first_meeting : db :=
  match create_meeting Sample.any_schema "T0" empty_db "2026-03-01" None with
  | Ok (_, d') => d'
  | Raise _ => empty_db
  end.

(** A database with one meeting, whose template 1 lists, out of order,
    Shoutouts, the archived Legacy, Engineering and a department that does
    not exist; template 2 shares the table. *)
Definition templated : db :=
  mk_db [Sample.alice; Sample.bob; Sample.root]
        [Sample.engineering; Sample.shoutouts; Sample.legacy]
        [mk_department_reporter 1 1 1; mk_department_reporter 1 2 0]
        [mk_meeting 1 "2026-03-01" "2026-03-01T08:00:00" "open" None None None]
        [Sample.section_1] []
        [mk_meeting_template 1 "Weekly"; mk_meeting_template 2 "Retro"]
        [mk_template_section 1 2 5 "kudos";
         mk_template_section 1 3 0 "old notes";
         mk_template_section 2 1 0 "went well";
         mk_template_section 1 1 2 "agenda";
         mk_template_section 1 9 3 "gone"]
        [] 1 1 0.

(** A meeting whose two sections are stored against their sort order. *)
Definition unsorted_meeting : db :=
  mk_db [Sample.alice; Sample.bob; Sample.root]
        [Sample.engineering; Sample.shoutouts; Sample.legacy]
        [mk_department_reporter 1 1 1; mk_department_reporter 1 2 0]
        [mk_meeting 1 "2026-03-01" "2026-03-01T08:00:00" "open" None None None]
        [mk_section 1 1 "Shoutouts" "" 1 1 "Thanks all" (Some "T0") (Some 2) None;
         mk_section 2 1 "Engineering" "Alice" 0 0 "Draft notes" (Some "T0") (Some 1)
                    (Some 1)]
        [] [] [] [] 1 2 0.

(** [Sample.running] after its first section was saved with some content and
    the search index was rebuilt. *)
Definition rebuilt_draft : db :=
  rebuild_search_index (update_section "T1" Sample.running 1 "Draft").

(** [Sample.running] with its first meeting locked by the admin. *)
Definition locked_running : db :=
  update_meeting_lock Sample.running 1 "locked" (Some 3) (Some "2026-03-02T10:00:00").

(** The row [set_department_reporters] inserts for an entry. *)
Definition reporter_row (dept_id : Z) (entry : Z * bool) : department_reporter :=
  mk_department_reporter dept_id (fst entry) (int_of_bool (snd entry)).

(** The columns of a section that [create_meeting] copies from a source
    meeting. *)
Definition copied_columns (s : section)
    : string * string * Z * Z * string * option Z * option Z :=
  (s_name s, s_reporter s, s_sort_order s, s_is_special s, s_content s,
   s_department_id s, s_reporter_id s).

(** ** Integrity of the stored rows

    What SQLite guarantees of the three [AUTOINCREMENT] tables of [init_db]:
    ids are unique, positive and at most the recorded sequence value, meeting
    dates are unique, every section refers to a meeting and every todo to a
    section. *)
Definition meetings_ok (d : db) : Prop :=
  NoDup (map m_id (meetings d))
  /\ NoDup (map m_date (meetings d))
  /\ forall m, In m (meetings d) -> 0 < m_id m <= seq_meeting d.

Definition sections_ok (d : db) : Prop :=
  NoDup (map s_id (sections d))
  /\ forall s, In s (sections d) ->
               0 < s_id s <= seq_section d /\ has_meeting d (s_meeting_id s) = true.

Definition todos_ok (d : db) : Prop :=
  NoDup (map t_id (todos d))
  /\ forall t, In t (todos d) ->
               0 < t_id t <= seq_todo d /\ has_section d (t_section_id t) = true.

Definition db_ok (d : db) : Prop :=
  meetings_ok d /\ sections_ok d /\ todos_ok d.

(** One committed call of a modelled operation. *)
Inductive step (sc : schema) : db -> db -> Prop :=
| step_create_meeting now d meeting_date copy_from mid d' :
    create_meeting sc now d meeting_date copy_from = Ok (mid, d') -> step sc d d'
| step_create_meeting_from_template now d meeting_date template_id mid d' :
    create_meeting_from_template sc now d meeting_date template_id = Ok (mid, d') ->
    step sc d d'
| step_add_todo now d section_id text assigned_to due_date priority created_by d' :
    add_todo sc now d section_id text assigned_to due_date priority created_by = Ok d' ->
    step sc d d'
| step_toggle_todo now d todo_id :
    step sc d (toggle_todo now d todo_id)
| step_carry_forward_todo now d todo_id target new_id d' :
    carry_forward_todo sc now d todo_id target = Ok (new_id, d') -> step sc d d'
| step_delete_todo d todo_id :
    step sc d (delete_todo d todo_id)
| step_update_section now d section_id content :
    step sc d (update_section now d section_id content)
| step_lock_meeting fk now d meeting_id user_id locked d' :
    lock_meeting fk now d meeting_id user_id = Ok (locked, d') -> step sc d d'
| step_unlock_meeting d meeting_id :
    step sc d (snd (unlock_meeting d meeting_id))
| step_reorder_departments d dept_ids :
    step sc d (reorder_departments d dept_ids)
| step_set_department_reporters d dept_id reporter_entries d' :
    set_department_reporters sc d dept_id reporter_entries = Ok d' -> step sc d d'.

(** The databases a run of operations reaches from [d0]. *)
Inductive reachable (sc : schema) (d0 : db) : db -> Prop :=
| reachable_start : reachable sc d0 d0
| reachable_step d d' : reachable sc d0 d -> step sc d d' -> reachable sc d0 d'.

(** ** Settings and attendance

    The tables [setting] and [meeting_attendance] are modelled on their own,
    as lists of rows.  Both are written with [INSERT ... ON CONFLICT ... DO
    UPDATE], so [key], resp. [(meeting_id, user_id)], is unique. *)
Record setting := mk_setting {
  st_key : string;
  st_value : string;
  st_updated_at : string
}.

Definition get_setting (settings : list setting) (key : string)
    (default : option string) : option string :=
  match find (fun r => String.eqb (st_key r) key) settings with
  | Some row => Some (st_value row)
  | None => default
  end.

Definition set_setting (now : string) (settings : list setting) (key value : string)
    : list setting :=
  if existsb (fun r => String.eqb (st_key r) key) settings
  then map (fun r => if String.eqb (st_key r) key
                     then mk_setting (st_key r) value now else r) settings
  else settings ++ [mk_setting key value now].

Record meeting_attendance := mk_meeting_attendance {
  ma_meeting_id : Z;
  ma_user_id : Z;
  ma_status : string
}.

Definition same_attendee (meeting_id user_id : Z) (r : meeting_attendance) : bool :=
  (ma_meeting_id r =? meeting_id) && (ma_user_id r =? user_id).

Definition valid_status (status : string) : bool :=
  existsb (String.eqb status) ["present"; "absent"; "remote"].

(** [set_attendance].  [fk_meeting] and [fk_user] tell whether the migration
    that creates [meeting_attendance] declares the two columns as foreign
    keys; a row that exists is updated in place. *)
Definition set_attendance (fk_meeting fk_user : bool) (d : db)
    (attendance : list meeting_attendance) (meeting_id user_id : Z)
    (status : string) : result (list meeting_attendance) :=
  let status := if negb (valid_status status) then "present" else status in
  if existsb (same_attendee meeting_id user_id) attendance
  then Ok (map (fun r => if same_attendee meeting_id user_id r
                         then mk_meeting_attendance (ma_meeting_id r) (ma_user_id r)
                                                    status
                         else r) attendance)
  else if fk_ok fk_meeting (has_meeting d) (Some meeting_id)
          && fk_ok fk_user (has_user d) (Some user_id)
  then Ok (attendance ++ [mk_meeting_attendance meeting_id user_id status])
  else Raise IntegrityError.

Definition remove_attendance (attendance : list meeting_attendance)
    (meeting_id user_id : Z) : list meeting_attendance :=
  filter (fun r => negb (same_attendee meeting_id user_id r)) attendance.

Definition get_attendance_for_user (attendance : list meeting_attendance)
    (meeting_id user_id : Z) : option meeting_attendance :=
  find (same_attendee meeting_id user_id) attendance.

(** The todo is open and its section belongs to the meeting. *)
Definition open_in_meeting (d : db) (meeting_id : Z) (t : todo) : bool :=
  (t_done t =? 0)
  && match get_section d (t_section_id t) with
     | Some s => s_meeting_id s =? meeting_id
     | None => false
     end.

(** * Properties *)

(** ** Decimal text of an id *)

Lemma to_int_nonnil (n : Z) :
  Z.to_int n <> Decimal.Pos Decimal.Nil /\ Z.to_int n <> Decimal.Neg Decimal.Nil.
Proof.
  destruct n as [|p|p]; simpl; split; try discriminate;
    intros [= H]; now apply (DecimalPos.Unsigned.to_uint_nonnil p).
Qed.

(** Two ids with the same decimal text are the same id. *)
Lemma str_inj (a b : Z) : str a = str b -> a = b.
Proof.
  unfold str. intros H. apply DecimalZ.to_int_inj.
  assert (Some (Z.to_int a) = Some (Z.to_int b)) as [= E]; [|exact E].
  rewrite <- (NilZero.isi (Z.to_int a)), <- (NilZero.isi (Z.to_int b));
    try apply to_int_nonnil.
  now rewrite H.
Qed.

Lemma sql_eqb_eq (a b : sql_value) : sql_eqb a b = true <-> a = b.
Proof.
  destruct a as [x|x], b as [y|y]; simpl.
  - rewrite Z.eqb_eq. split; congruence.
  - split; discriminate.
  - split; discriminate.
  - rewrite String.eqb_eq. split; congruence.
Qed.

(** ** Lookups and rowids *)

Lemma existsb_find {A : Type} (f : A -> bool) (l : list A) :
  existsb f l = true <-> exists x, find f l = Some x.
Proof.
  induction l as [|a l IH]; simpl.
  - split; [discriminate | intros [x Hx]; discriminate].
  - destruct (f a) eqn:Ha; simpl.
    + split; [intros _; now exists a | reflexivity].
    + exact IH.
Qed.

Lemma find_none_existsb {A : Type} (f : A -> bool) (l : list A) :
  find f l = None <-> existsb f l = false.
Proof.
  induction l as [|a l IH]; simpl; [tauto|].
  destruct (f a); simpl; [split; discriminate | exact IH].
Qed.

Lemma find_app_fresh {A : Type} (f : A -> bool) (l : list A) (x : A) :
  find f l = None -> f x = true -> find f (l ++ [x]) = Some x.
Proof.
  intros Hn Hx. induction l as [|a l IH]; simpl in *.
  - now rewrite Hx.
  - destruct (f a); [discriminate | auto].
Qed.

Lemma find_app_keep {A : Type} (f : A -> bool) (l : list A) (x y : A) :
  find f l = Some y -> find f (l ++ [x]) = Some y.
Proof.
  induction l as [|a l IH]; simpl; [discriminate|].
  destruct (f a); auto.
Qed.

Lemma fold_max_lower (a : Z) (l : list Z) : a <= fold_right Z.max a l.
Proof. induction l; simpl; lia. Qed.

Lemma fold_max_upper (a : Z) (l : list Z) (x : Z) :
  In x l -> x <= fold_right Z.max a l.
Proof.
  induction l as [|y l IH]; simpl; [tauto|].
  intros [->|H]; [lia | specialize (IH H); lia].
Qed.

Lemma fold_max_bounded (a : Z) (l : list Z) :
  (forall x, In x l -> x <= a) -> fold_right Z.max a l = a.
Proof.
  induction l as [|y l IH]; simpl; intros H; [reflexivity|].
  rewrite IH by auto. specialize (H y (or_introl eq_refl)). lia.
Qed.

Lemma next_rowid_positive (seq : Z) (ids : list Z) : 0 < next_rowid seq ids.
Proof.
  unfold next_rowid. pose proof (fold_max_lower (Z.max 0 seq) ids). lia.
Qed.

Lemma next_rowid_fresh (seq : Z) (ids : list Z) (x : Z) :
  In x ids -> x < next_rowid seq ids.
Proof.
  intros H. unfold next_rowid.
  pose proof (fold_max_upper (Z.max 0 seq) ids x H). lia.
Qed.

Lemma next_rowid_not_in (seq : Z) (ids : list Z) : ~ In (next_rowid seq ids) ids.
Proof. intros H. apply (next_rowid_fresh seq) in H. lia. Qed.

Lemma next_rowid_succ (seq : Z) (ids : list Z) :
  let id := next_rowid seq ids in
  next_rowid id (ids ++ [id]) = id + 1.
Proof.
  intros id. unfold next_rowid at 1.
  pose proof (next_rowid_positive seq ids) as Hpos. fold id in Hpos.
  rewrite fold_max_bounded; [lia|].
  intros x Hx. apply in_app_or in Hx. destruct Hx as [Hx|[<-|[]]]; [|lia].
  apply (next_rowid_fresh seq) in Hx. fold id in Hx. lia.
Qed.

(** The ids the inserts hand out are positive, which is what the theorems
    below ask of the ids they read. *)
Lemma insert_meeting_id_positive (sc : schema) (d d' : db)
    (meeting_date created_at : string) (template_id : option Z) (id : Z) :
  insert_meeting sc d meeting_date created_at template_id = Ok (id, d') -> 0 < id.
Proof.
  unfold insert_meeting.
  destruct (existsb _ (meetings d)); [discriminate|].
  destruct (negb _); [discriminate|].
  intros [= <- _]. apply next_rowid_positive.
Qed.

Lemma insert_todo_id_positive (sc : schema) (d d' : db) (section_id : Z)
    (text : string) (assigned_to : option Z) (due_date : option string)
    (priority : string) (created_by : option Z) (created_at : string) (id : Z) :
  insert_todo sc d section_id text assigned_to due_date priority created_by created_at
  = Ok (id, d') ->
  0 < id.
Proof.
  unfold insert_todo. destruct (_ && _); [|discriminate].
  intros [= <- _]. apply next_rowid_positive.
Qed.

(** ** Permission resolver *)

Lemma is_meeting_locked_spec (d : db) (meeting_id : Z) :
  is_meeting_locked d meeting_id = true <-> meeting_locked d meeting_id.
Proof.
  unfold is_meeting_locked, meeting_locked.
  destruct (get_meeting d meeting_id) as [m|].
  - rewrite String.eqb_eq. split.
    + intros H. now exists m.
    + intros [m' [Hm' Hs]]. now injection Hm' as ->.
  - split; [discriminate | intros [m [Hm _]]; discriminate].
Qed.

Lemma is_reporter_spec (d : db) (dept_id user_id : Z) :
  is_reporter d dept_id user_id = true <-> listed_reporter d dept_id user_id.
Proof.
  unfold is_reporter, listed_reporter. rewrite existsb_exists.
  split; intros [r [Hin H]]; exists r.
  - apply andb_true_iff in H. destruct H as [H1 H2].
    apply Z.eqb_eq in H1, H2. auto.
  - destruct H as [H1 H2]. split; [assumption|].
    apply andb_true_iff. now rewrite !Z.eqb_eq.
Qed.

(** The row of a table with unique keys that carries a key is the one the
    lookup by that key returns. *)
Lemma find_unique_key {A : Type} (key : A -> Z) (l : list A) (x : A) :
  NoDup (map key l) -> In x l -> find (fun y => key y =? key x) l = Some x.
Proof.
  induction l as [|a l IH]; simpl; intros Hnd Hin; [contradiction|].
  inversion Hnd as [|? ? Hnotin Hnd']; subst.
  destruct Hin as [->|Hin]; [now rewrite Z.eqb_refl|].
  destruct (Z.eqb_spec (key a) (key x)) as [Heq|Hne]; [|auto].
  elim Hnotin. rewrite Heq. now apply in_map.
Qed.

Lemma meeting_locked_row (d : db) (meeting_id : Z) :
  NoDup (map m_id (meetings d)) ->
  meeting_locked d meeting_id <-> locked_row d meeting_id.
Proof.
  intros Hnd. unfold meeting_locked, locked_row, get_meeting. split.
  - intros [m [Hm Hs]]. apply find_some in Hm. destruct Hm as [Hin Hid].
    apply Z.eqb_eq in Hid. now exists m.
  - intros [m [Hin [Hid Hs]]]. exists m. split; [|exact Hs].
    rewrite <- Hid. now apply (find_unique_key m_id).
Qed.

(** C1. The permission check follows the ordered decision table: when the
    meeting table holds the section's meeting with status [locked], the
    section is not editable, whatever the role; otherwise it is editable
    exactly when the user is an admin, or is the section's snapshotted
    reporter, or the section has a department for which the user is listed in
    [department_reporter] (primary or backup).  [meeting.id] is the primary
    key, and row ids are the positive rowids SQLite hands out. *)
Theorem can_edit_section_decision_table :
  forall (d : db) (u : user) (s : section),
    NoDup (map m_id (meetings d)) ->
    0 < u_id u ->
    (forall dept_id, s_department_id s = Some dept_id -> 0 < dept_id) ->
    (locked_row d (s_meeting_id s) -> can_edit_section d u s = false) /\
    (~ locked_row d (s_meeting_id s) ->
       (can_edit_section d u s = true <->
          u_role u = "admin"
          \/ s_reporter_id s = Some (u_id u)
          \/ exists dept_id,
               s_department_id s = Some dept_id
               /\ listed_reporter d dept_id (u_id u))).
Proof.
  intros d u s Hnd Hu Hdept. unfold can_edit_section.
  rewrite <- (meeting_locked_row d (s_meeting_id s) Hnd).
  rewrite <- is_meeting_locked_spec.
  destruct (is_meeting_locked d (s_meeting_id s)).
  - split; [reflexivity | intros H; now elim H].
  - split; [discriminate | intros _].
    destruct (String.eqb (u_role u) "admin") eqn:Hrole.
    + apply String.eqb_eq in Hrole. tauto.
    + apply String.eqb_neq in Hrole.
      destruct (s_reporter_id s) as [rid|] eqn:Hrid; simpl.
      * destruct (Z.eqb_spec rid (u_id u)) as [->|Hne].
        -- replace (u_id u =? 0) with false by (symmetry; apply Z.eqb_neq; lia).
           simpl. tauto.
        -- rewrite andb_false_r.
           destruct (s_department_id s) as [dept|] eqn:Hd; simpl.
           ++ specialize (Hdept dept eq_refl).
              replace (dept =? 0) with false by (symmetry; apply Z.eqb_neq; lia).
              simpl. rewrite is_reporter_spec. split.
              ** intros H. right. right. now exists dept.
              ** intros [H|[H|[x [Hx H]]]]; [contradiction | congruence |].
                 now injection Hx as <-.
           ++ split; [discriminate|].
              intros [H|[H|[x [Hx _]]]]; [contradiction | congruence | discriminate].
      * destruct (s_department_id s) as [dept|] eqn:Hd; simpl.
        -- specialize (Hdept dept eq_refl).
           replace (dept =? 0) with false by (symmetry; apply Z.eqb_neq; lia).
           simpl. rewrite is_reporter_spec. split.
           ++ intros H. right. right. now exists dept.
           ++ intros [H|[H|[x [Hx H]]]]; [contradiction | discriminate |].
              now injection Hx as <-.
        -- split; [discriminate|].
           intros [H|[H|[x [Hx _]]]]; [contradiction | discriminate | discriminate].
Qed.

(** On the locked first meeting of [locked_running] the admin is refused; on
    the open one of [Sample.running] Bob, a backup reporter of Engineering,
    may edit the Engineering section, and Root may as admin; Bob may not edit
    the Shoutouts section, which has no reporter. *)
Lemma can_edit_section_decision_table_witness :
  NoDup (map m_id (meetings locked_running))
  /\ NoDup (map m_id (meetings Sample.running))
  /\ 0 < u_id Sample.root
  /\ 0 < u_id Sample.bob
  /\ locked_row locked_running (s_meeting_id Sample.section_1)
  /\ ~ locked_row Sample.running (s_meeting_id Sample.section_1)
  /\ can_edit_section locked_running Sample.root Sample.section_1 = false
  /\ can_edit_section Sample.running Sample.root Sample.section_1 = true
  /\ can_edit_section Sample.running Sample.bob Sample.section_1 = true
  /\ can_edit_section Sample.running Sample.bob Sample.section_2 <> true.
Proof.
  assert (Hnd : NoDup (map m_id (meetings Sample.running))).
  { simpl. repeat constructor; simpl; intuition lia. }
  assert (Hnd' : NoDup (map m_id (meetings locked_running))) by exact Hnd.
  assert (Hroot : 0 < u_id Sample.root) by (simpl; lia).
  assert (Hbob : 0 < u_id Sample.bob) by (simpl; lia).
  assert (Hd1 : forall dept_id,
              s_department_id Sample.section_1 = Some dept_id -> 0 < dept_id).
  { simpl. intros dept_id H. injection H as <-. lia. }
  assert (Hd2 : forall dept_id,
              s_department_id Sample.section_2 = Some dept_id -> 0 < dept_id).
  { simpl. intros dept_id H. injection H as <-. lia. }
  assert (Hlocked : locked_row locked_running (s_meeting_id Sample.section_1)).
  { exists (mk_meeting 1 "2026-03-01" "2026-03-01T08:00:00" "locked" (Some 3)
                       (Some "2026-03-02T10:00:00") None).
    split; [now left | split; reflexivity]. }
  assert (Hopen : ~ locked_row Sample.running 1).
  { intros [m [Hin [_ Hst]]]. simpl in Hin.
    destruct Hin as [<-|[<-|[<-|[]]]]; discriminate. }
  repeat (split; [assumption|]).
  split; [|split; [|split]].
  - exact (proj1 (can_edit_section_decision_table locked_running Sample.root
                    Sample.section_1 Hnd' Hroot Hd1) Hlocked).
  - apply (proj2 (can_edit_section_decision_table Sample.running Sample.root
                    Sample.section_1 Hnd Hroot Hd1) Hopen).
    left. reflexivity.
  - apply (proj2 (can_edit_section_decision_table Sample.running Sample.bob
                    Sample.section_1 Hnd Hbob Hd1) Hopen).
    right. right. exists 1. split; [reflexivity|].
    exists (mk_department_reporter 1 2 0).
    split; [right; now left | split; reflexivity].
  - intros H.
    apply (proj2 (can_edit_section_decision_table Sample.running Sample.bob
                    Sample.section_2 Hnd Hbob Hd2) Hopen) in H.
    destruct H as [H|[H|[dept_id [Hdept [r [Hin [Hr Hu]]]]]]];
      [discriminate | discriminate |].
    simpl in Hdept. injection Hdept as <-. simpl in Hin.
    destruct Hin as [<-|[<-|[]]]; discriminate.
Defined.

(** ** Todo engine *)

Lemma find_all_false {A : Type} (f : A -> bool) (l : list A) :
  (forall x, In x l -> f x = false) -> find f l = None.
Proof.
  induction l as [|a l IH]; simpl; intros H; [reflexivity|].
  rewrite (H a (or_introl eq_refl)). auto.
Qed.

Lemma find_by_id_unique (l : list todo) (id : Z) (t r : todo) :
  NoDup (map t_id l) ->
  find (fun x => t_id x =? id) l = Some t ->
  In r l -> t_id r = id -> r = t.
Proof.
  induction l as [|a l IH]; simpl; intros Hnd Hf Hin Hid; [contradiction|].
  inversion Hnd as [|? ? Hnotin Hnd']; subst.
  destruct (Z.eqb_spec (t_id a) (t_id r)) as [Heq|Hne].
  - injection Hf as <-. destruct Hin as [->|Hin]; [reflexivity|].
    elim Hnotin. rewrite Heq. now apply in_map.
  - destruct Hin as [->|Hin]; [congruence | auto].
Qed.

Lemma get_todo_update_same (d : db) (id done : Z) (c : option string) (t : todo) :
  get_todo d id = Some t ->
  get_todo (update_todo_done d id done c) id = Some (set_done done c t).
Proof.
  unfold get_todo, update_todo_done. simpl.
  induction (todos d) as [|a l IH]; simpl; [discriminate|].
  destruct (t_id a =? id) eqn:Ha; simpl.
  - rewrite Ha. now intros [= ->].
  - rewrite Ha. exact IH.
Qed.

Lemma get_todo_update_other (d : db) (id id' done : Z) (c : option string) :
  id' <> id ->
  get_todo (update_todo_done d id done c) id' = get_todo d id'.
Proof.
  intros Hne. unfold get_todo, update_todo_done. simpl.
  induction (todos d) as [|a l IH]; simpl; [reflexivity|].
  destruct (Z.eqb_spec (t_id a) id) as [Ha|Ha]; simpl.
  - replace (t_id a =? id') with false by (symmetry; apply Z.eqb_neq; lia).
    exact IH.
  - now rewrite IH.
Qed.

Lemma update_todo_done_undo (d : db) (id : Z) (c : option string) (t : todo) :
  NoDup (map t_id (todos d)) ->
  get_todo d id = Some t ->
  update_todo_done (update_todo_done d id 1 c) id (t_done t) (t_completed_at t) = d.
Proof.
  intros Hnd Ht. unfold update_todo_done, set_todo_rows, get_todo in *.
  destruct d; simpl in *.
  f_equal. rewrite map_map. rewrite <- (map_id todos0) at 2.
  apply map_ext_in. intros r Hr.
  destruct (Z.eqb_spec (t_id r) id) as [Hid|Hid]; simpl.
  - rewrite (proj2 (Z.eqb_eq _ _) Hid).
    rewrite (find_by_id_unique todos0 id t r Hnd Ht Hr Hid).
    now destruct t.
  - now rewrite (proj2 (Z.eqb_neq _ _) Hid).
Qed.

(** C7. A todo that is open with no completion time is marked done (1) with
    the time of the call by a first toggle, every other column kept; a second
    toggle clears both again, and the database is then exactly the one before
    the two calls.  [todo.id] is the primary key. *)
Theorem toggle_todo_round_trip :
  forall (now1 now2 : string) (d : db) (todo_id : Z) (t : todo),
    NoDup (map t_id (todos d)) ->
    get_todo d todo_id = Some t ->
    t_done t = 0 ->
    t_completed_at t = None ->
    get_todo (toggle_todo now1 d todo_id) todo_id
      = Some (mk_todo (t_id t) (t_section_id t) (t_text t) 1 (t_created_at t)
                      (t_assigned_to t) (t_due_date t) (t_priority t)
                      (t_created_by t) (Some now1))
    /\ get_todo (toggle_todo now2 (toggle_todo now1 d todo_id) todo_id) todo_id
       = Some t
    /\ toggle_todo now2 (toggle_todo now1 d todo_id) todo_id = d.
Proof.
  intros now1 now2 d todo_id t Hnd Ht Hdone Hc.
  assert (H1 : toggle_todo now1 d todo_id
               = update_todo_done d todo_id 1 (Some now1)).
  { unfold toggle_todo. rewrite Ht, Hdone. reflexivity. }
  assert (G1 : get_todo (toggle_todo now1 d todo_id) todo_id
               = Some (set_done 1 (Some now1) t)).
  { rewrite H1. now apply get_todo_update_same. }
  assert (H2 : toggle_todo now2 (toggle_todo now1 d todo_id) todo_id = d).
  { unfold toggle_todo at 1. rewrite G1. simpl. rewrite H1.
    rewrite <- Hdone at 1. rewrite <- Hc.
    now apply update_todo_done_undo. }
  split; [exact G1 | split; [now rewrite H2 | exact H2]].
Qed.

Lemma toggle_todo_round_trip_witness :
  NoDup (map t_id (todos Sample.running))
  /\ get_todo Sample.running 1 = Some Sample.todo_1
  /\ t_done Sample.todo_1 = 0
  /\ t_completed_at Sample.todo_1 = None
  /\ toggle_todo "T2" (toggle_todo "T1" Sample.running 1) 1 = Sample.running.
Proof.
  assert (H0 : NoDup (map t_id (todos Sample.running))).
  { simpl. constructor; [intros [] | constructor]. }
  assert (H1 : get_todo Sample.running 1 = Some Sample.todo_1) by reflexivity.
  assert (H2 : t_done Sample.todo_1 = 0) by reflexivity.
  assert (H3 : t_completed_at Sample.todo_1 = None) by reflexivity.
  repeat (split; [assumption|]).
  exact (proj2 (proj2 (toggle_todo_round_trip "T1" "T2" Sample.running 1
                         Sample.todo_1 H0 H1 H2 H3))).
Defined.

Lemma todos_update_todo_index (d : db) (todo_id : Z) :
  todos (_update_todo_index d todo_id) = todos d.
Proof.
  unfold _update_todo_index.
  repeat match goal with
         | |- context [match ?x with _ => _ end] => destruct x
         end; reflexivity.
Qed.

Lemma valid_priority_spec (priority : string) :
  valid_priority priority = true <->
  priority = "low" \/ priority = "normal" \/ priority = "high".
Proof.
  unfold valid_priority. simpl. rewrite !orb_true_iff, !String.eqb_eq.
  intuition discriminate.
Qed.

Lemma insert_todo_ok (sc : schema) (d : db) (section_id : Z) (text : string)
    (assigned_to : option Z) (due_date : option string) (priority : string)
    (created_by : option Z) (created_at : string) :
  has_section d section_id = true ->
  todo_users_ok sc d assigned_to created_by ->
  insert_todo sc d section_id text assigned_to due_date priority created_by created_at
  = let id := next_rowid (seq_todo d) (map t_id (todos d)) in
    Ok (id, set_todo_rows
              (todos d ++ [mk_todo id section_id text 0 created_at assigned_to
                                   due_date priority created_by None])
              id d).
Proof.
  intros Hs [Ha Hc]. unfold insert_todo. now rewrite Hs, Ha, Hc.
Qed.

(** C9. [add_todo] on an existing section stores exactly one new todo; its
    priority is the given one when that is [low], [normal] or [high], and
    [normal] for any other string.  The user references given satisfy the
    foreign keys the schema declares. *)
Theorem add_todo_normalizes_priority :
  forall (sc : schema) (now : string) (d : db) (section_id : Z) (text : string)
         (assigned_to : option Z) (due_date : option string) (priority : string)
         (created_by : option Z),
    has_section d section_id = true ->
    todo_users_ok sc d assigned_to created_by ->
    exists (d' : db) (stored : string),
      add_todo sc now d section_id text assigned_to due_date priority created_by
      = Ok d'
      /\ todos d' = todos d ++
           [mk_todo (next_rowid (seq_todo d) (map t_id (todos d))) section_id text
                    0 now assigned_to due_date stored created_by None]
      /\ (priority = "low" \/ priority = "normal" \/ priority = "high" ->
          stored = priority)
      /\ (~ (priority = "low" \/ priority = "normal" \/ priority = "high") ->
          stored = "normal").
Proof.
  intros sc now d section_id text assigned_to due_date priority created_by Hs Hu.
  unfold add_todo.
  rewrite (insert_todo_ok sc d section_id text assigned_to due_date _ created_by now
             Hs Hu).
  simpl. eexists. eexists. split; [reflexivity|].
  split; [rewrite todos_update_todo_index; reflexivity|].
  destruct (valid_priority priority) eqn:Hv; simpl.
  - split; [reflexivity|]. intros H. elim H. now apply valid_priority_spec.
  - split; [|reflexivity]. intros H. apply valid_priority_spec in H. congruence.
Qed.

Lemma add_todo_normalizes_priority_witness :
  has_section Sample.running 1 = true
  /\ todo_users_ok Sample.any_schema Sample.running (Some 2) None
  /\ exists (d' : db) (stored : string),
       add_todo Sample.any_schema "T1" Sample.running 1 "Ship v2" (Some 2) None
                "ULTRA" None = Ok d'
       /\ todos d' = todos Sample.running ++
            [mk_todo (next_rowid (seq_todo Sample.running)
                                 (map t_id (todos Sample.running)))
                     1 "Ship v2" 0 "T1" (Some 2) None stored None None]
       /\ ("ULTRA" = "low" \/ "ULTRA" = "normal" \/ "ULTRA" = "high" ->
           stored = "ULTRA")
       /\ (~ ("ULTRA" = "low" \/ "ULTRA" = "normal" \/ "ULTRA" = "high") ->
           stored = "normal").
Proof.
  assert (H1 : has_section Sample.running 1 = true) by reflexivity.
  assert (H2 : todo_users_ok Sample.any_schema Sample.running (Some 2) None)
    by (split; reflexivity).
  split; [exact H1 | split; [exact H2 |]].
  exact (add_todo_normalizes_priority Sample.any_schema "T1" Sample.running 1
           "Ship v2" (Some 2) None "ULTRA" None H1 H2).
Defined.

(** ** Carry-forward *)

Lemma has_section_in (d : db) (s : section) :
  In s (sections d) -> has_section d (s_id s) = true.
Proof.
  intros H. unfold has_section. apply existsb_exists.
  exists s. split; [assumption | apply Z.eqb_refl].
Qed.

Lemma truthy_positive (o : option Z) (v : Z) :
  o = Some v -> 0 < v -> truthy o = true.
Proof.
  intros -> H. simpl. apply negb_true_iff, Z.eqb_neq. lia.
Qed.

Lemma col_is_spec (o : option Z) (v : Z) : col_is o v = true <-> o = Some v.
Proof.
  destruct o as [n|]; simpl.
  - rewrite Z.eqb_eq. split; congruence.
  - split; discriminate.
Qed.

Lemma find_target_section_sound (d : db) (orig ts : section) (target : Z) :
  find_target_section d orig target = Some ts ->
  In ts (sections d)
  /\ s_meeting_id ts = target
  /\ (same_department orig ts
      \/ (s_name ts = s_name orig
          /\ ((forall dept_id, s_department_id orig = Some dept_id -> 0 < dept_id) ->
              forall s, In s (sections d) -> s_meeting_id s = target ->
                        ~ same_department orig s))).
Proof.
  unfold find_target_section.
  set (by_name := find (fun s => (s_meeting_id s =? target)
                                 && String.eqb (s_name s) (s_name orig))
                       (sections d)).
  assert (Hname : by_name = Some ts ->
                  In ts (sections d) /\ s_meeting_id ts = target
                  /\ s_name ts = s_name orig).
  { intros H. apply find_some in H. destruct H as [Hin H].
    apply andb_true_iff in H. destruct H as [H1 H2].
    apply Z.eqb_eq in H1. apply String.eqb_eq in H2. auto. }
  destruct (s_department_id orig) as [dept|] eqn:Hd.
  - destruct (truthy (Some dept)) eqn:Htr; cbv beta iota zeta.
    + destruct (find (fun s => (s_meeting_id s =? target)
                               && col_is (s_department_id s) dept)
                     (sections d)) as [s|] eqn:Hf.
      * intros [= ->]. apply find_some in Hf. destruct Hf as [Hin H].
        apply andb_true_iff in H. destruct H as [H1 H2].
        apply Z.eqb_eq in H1. apply col_is_spec in H2.
        split; [assumption | split; [assumption | left]].
        now exists dept.
      * intros H. destruct (Hname H) as [Hin [Hm Hn]].
        split; [assumption | split; [assumption | right]].
        split; [assumption|]. intros _ s Hs Hms [x [Hx Hsx]].
        rewrite Hd in Hx. injection Hx as <-.
        pose proof (find_none _ _ Hf s Hs) as Hfalse. simpl in Hfalse.
        rewrite (proj2 (Z.eqb_eq _ _) Hms), (proj2 (col_is_spec _ _) Hsx) in Hfalse.
        discriminate.
    + intros H. destruct (Hname H) as [Hin [Hm Hn]].
      split; [assumption | split; [assumption | right]].
      split; [assumption|]. intros Hpos.
      specialize (Hpos dept eq_refl).
      rewrite (truthy_positive (Some dept) dept eq_refl Hpos) in Htr. discriminate.
  - simpl. intros H. destruct (Hname H) as [Hin [Hm Hn]].
    split; [assumption | split; [assumption | right]].
    split; [assumption|]. intros _ s _ _ [x [Hx _]]. congruence.
Qed.

Lemma find_target_section_complete (d : db) (orig s : section) (target : Z) :
  (forall dept_id, s_department_id orig = Some dept_id -> 0 < dept_id) ->
  In s (sections d) ->
  s_meeting_id s = target ->
  same_department orig s \/ s_name s = s_name orig ->
  exists ts, find_target_section d orig target = Some ts.
Proof.
  intros Hpos Hin Hm Hmatch. unfold find_target_section.
  assert (Hname : s_name s = s_name orig ->
                  exists ts, find (fun x => (s_meeting_id x =? target)
                                            && String.eqb (s_name x) (s_name orig))
                                  (sections d) = Some ts).
  { intros Hn. apply existsb_find, existsb_exists. exists s.
    split; [assumption|]. rewrite Hn, String.eqb_refl, Hm, Z.eqb_refl. reflexivity. }
  destruct (s_department_id orig) as [dept|] eqn:Hd.
  - rewrite (truthy_positive (Some dept) dept eq_refl (Hpos dept eq_refl)).
    cbv beta iota zeta.
    destruct (find (fun x => (s_meeting_id x =? target)
                             && col_is (s_department_id x) dept)
                   (sections d)) as [x|] eqn:Hf; [now exists x|].
    destruct Hmatch as [[y [Hy Hsy]]|Hn]; [|auto].
    rewrite Hd in Hy. injection Hy as <-.
    pose proof (find_none _ _ Hf s Hin) as Hfalse. simpl in Hfalse.
    rewrite (proj2 (Z.eqb_eq _ _) Hm), (proj2 (col_is_spec _ _) Hsy) in Hfalse.
    discriminate.
  - simpl. destruct Hmatch as [[y [Hy _]]|Hn]; [congruence | auto].
Qed.

Lemma find_target_section_none (d : db) (orig : section) (target : Z) :
  (forall s, In s (sections d) -> s_meeting_id s = target ->
             ~ same_department orig s /\ s_name s <> s_name orig) ->
  find_target_section d orig target = None.
Proof.
  intros H. unfold find_target_section.
  assert (Hname : find (fun x => (s_meeting_id x =? target)
                                 && String.eqb (s_name x) (s_name orig))
                       (sections d) = None).
  { apply find_all_false. intros x Hx.
    destruct (Z.eqb_spec (s_meeting_id x) target) as [Hm|]; [|reflexivity].
    simpl. apply String.eqb_neq. now apply H. }
  destruct (s_department_id orig) as [dept|] eqn:Hd; [|simpl; exact Hname].
  destruct (truthy (Some dept)); [|exact Hname].
  rewrite find_all_false; [exact Hname|].
  intros x Hx.
  destruct (Z.eqb_spec (s_meeting_id x) target) as [Hm|]; [|reflexivity].
  simpl. destruct (col_is (s_department_id x) dept) eqn:Hc; [|reflexivity].
  apply col_is_spec in Hc. elim (proj1 (H x Hx Hm)). now exists dept.
Qed.

Lemma get_todo_in_ids (d : db) (todo_id : Z) (t : todo) :
  get_todo d todo_id = Some t -> In todo_id (map t_id (todos d)) /\ t_id t = todo_id.
Proof.
  intros H. apply find_some in H. destruct H as [Hin Hid].
  apply Z.eqb_eq in Hid. split; [|assumption].
  rewrite <- Hid. now apply in_map.
Qed.

Lemma get_todo_fresh (d : db) (id : Z) :
  ~ In id (map t_id (todos d)) -> get_todo d id = None.
Proof.
  intros H. apply find_all_false. intros x Hx. apply Z.eqb_neq.
  intros Heq. apply H. rewrite <- Heq. now apply in_map.
Qed.

(** C2. When the target meeting has a section matching the todo's section
    (same department, else same name), [carry_forward_todo] returns a fresh
    todo id; the todo table is the old one with the original marked done at
    [now], followed by exactly one new row: open, in the matching target
    section, with the original's text, assignee, priority and due date and
    [created_at = now].  The original row is still there.  The database is
    one SQLite can hold: the department id is a positive rowid and the
    original's user columns satisfy the declared foreign keys. *)
Theorem carry_forward_todo_copies_and_closes :
  forall (sc : schema) (now : string) (d : db) (todo_id target : Z)
         (t : todo) (orig : section),
    get_todo d todo_id = Some t ->
    get_section d (t_section_id t) = Some orig ->
    (forall dept_id, s_department_id orig = Some dept_id -> 0 < dept_id) ->
    todo_users_ok sc d (t_assigned_to t) (t_created_by t) ->
    (exists s, In s (sections d) /\ s_meeting_id s = target
               /\ (same_department orig s \/ s_name s = s_name orig)) ->
    exists (ts : section) (new_id : Z) (d' : db),
      carry_forward_todo sc now d todo_id target = Ok (Some new_id, d')
      /\ In ts (sections d)
      /\ s_meeting_id ts = target
      /\ (same_department orig ts
          \/ (s_name ts = s_name orig
              /\ forall s, In s (sections d) -> s_meeting_id s = target ->
                           ~ same_department orig s))
      /\ ~ In new_id (map t_id (todos d))
      /\ todos d' = map (close_row todo_id now) (todos d) ++
           [mk_todo new_id (s_id ts) (t_text t) 0 now (t_assigned_to t)
                    (t_due_date t) (t_priority t) (t_created_by t) None]
      /\ get_todo d' new_id
         = Some (mk_todo new_id (s_id ts) (t_text t) 0 now (t_assigned_to t)
                         (t_due_date t) (t_priority t) (t_created_by t) None)
      /\ get_todo d' todo_id
         = Some (mk_todo (t_id t) (t_section_id t) (t_text t) 1 (t_created_at t)
                         (t_assigned_to t) (t_due_date t) (t_priority t)
                         (t_created_by t) (Some now))
      /\ sections d' = sections d.
Proof.
  intros sc now d todo_id target t orig Ht Horig Hpos Hu [s [Hs [Hm Hmatch]]].
  destruct (find_target_section_complete d orig s target Hpos Hs Hm Hmatch)
    as [ts Hts].
  destruct (find_target_section_sound d orig ts target Hts) as [Hin [Hmt Hkind]].
  destruct (get_todo_in_ids d todo_id t Ht) as [Hid_in Hid].
  set (new_id := next_rowid (seq_todo d) (map t_id (todos d))).
  assert (Hfresh : ~ In new_id (map t_id (todos d))) by apply next_rowid_not_in.
  assert (Hne : new_id <> todo_id) by (intros Heq; apply Hfresh; now rewrite Heq).
  exists ts, new_id.
  unfold carry_forward_todo. rewrite Ht, Horig, Hts.
  rewrite (insert_todo_ok sc d (s_id ts) _ _ _ _ _ now (has_section_in d ts Hin) Hu).
  fold new_id. simpl bind. cbv beta iota zeta. simpl fst. simpl snd.
  set (new := mk_todo new_id (s_id ts) (t_text t) 0 now (t_assigned_to t)
                      (t_due_date t) (t_priority t) (t_created_by t) None).
  set (d1 := set_todo_rows (todos d ++ [new]) new_id d).
  eexists. split; [reflexivity|].
  split; [assumption|]. split; [assumption|].
  split.
  { destruct Hkind as [H|[Hn H]]; [now left | right; split; auto]. }
  split; [assumption|].
  split.
  { unfold update_todo_done, d1. simpl. rewrite map_app. simpl.
    fold (close_row todo_id now). f_equal.
    unfold close_row. simpl.
    now rewrite (proj2 (Z.eqb_neq _ _) Hne). }
  split.
  { rewrite get_todo_update_other by assumption.
    unfold get_todo, d1. simpl. apply find_app_fresh.
    - now apply get_todo_fresh.
    - simpl. apply Z.eqb_refl. }
  split.
  { rewrite (get_todo_update_same d1 todo_id 1 (Some now) t).
    - reflexivity.
    - unfold get_todo, d1. simpl. now apply find_app_keep. }
  reflexivity.
Qed.

(** C3. When no section of the target meeting has the department or the name
    of the todo's section, [carry_forward_todo] returns [None] and the
    database is the one it was given: the todo keeps every column and no row
    is added. *)
Theorem carry_forward_todo_no_match :
  forall (sc : schema) (now : string) (d : db) (todo_id target : Z)
         (t : todo) (orig : section),
    get_todo d todo_id = Some t ->
    get_section d (t_section_id t) = Some orig ->
    (forall s, In s (sections d) -> s_meeting_id s = target ->
               ~ same_department orig s /\ s_name s <> s_name orig) ->
    carry_forward_todo sc now d todo_id target = Ok (None, d).
Proof.
  intros sc now d todo_id target t orig Ht Horig Hnone.
  unfold carry_forward_todo.
  now rewrite Ht, Horig, (find_target_section_none d orig target Hnone).
Qed.

Lemma carry_forward_todo_copies_and_closes_witness :
  get_todo Sample.running 1 = Some Sample.todo_1
  /\ get_section Sample.running 1 = Some Sample.section_1
  /\ (exists s, In s (sections Sample.running) /\ s_meeting_id s = 2
                /\ (same_department Sample.section_1 s
                    \/ s_name s = s_name Sample.section_1))
  /\ exists (ts : section) (new_id : Z) (d' : db),
       carry_forward_todo Sample.any_schema "T1" Sample.running 1 2
       = Ok (Some new_id, d')
       /\ s_meeting_id ts = 2
       /\ get_todo d' new_id
          = Some (mk_todo new_id (s_id ts) "Ship v2" 0 "T1" (Some 2)
                          (Some "2026-03-15") "high" (Some 1) None).
Proof.
  assert (H1 : get_todo Sample.running 1 = Some Sample.todo_1) by reflexivity.
  assert (H2 : get_section Sample.running (t_section_id Sample.todo_1)
               = Some Sample.section_1) by reflexivity.
  assert (H3 : forall dept_id,
             s_department_id Sample.section_1 = Some dept_id -> 0 < dept_id).
  { simpl. intros dept_id H. injection H as <-. lia. }
  assert (H4 : todo_users_ok Sample.any_schema Sample.running
                 (t_assigned_to Sample.todo_1) (t_created_by Sample.todo_1))
    by (split; reflexivity).
  assert (H6 : exists s, In s (sections Sample.running) /\ s_meeting_id s = 2
                         /\ (same_department Sample.section_1 s
                             \/ s_name s = s_name Sample.section_1)).
  { exists Sample.section_3. simpl. split; [tauto | split; [reflexivity|]].
    right. reflexivity. }
  split; [exact H1 | split; [exact H2 | split; [exact H6 |]]].
  destruct (carry_forward_todo_copies_and_closes Sample.any_schema "T1"
              Sample.running 1 2 Sample.todo_1 Sample.section_1
              H1 H2 H3 H4 H6)
    as [ts [new_id [d' [Hr [_ [Hm [_ [_ [_ [Hnew _]]]]]]]]]].
  exists ts, new_id, d'. split; [exact Hr | split; [exact Hm | exact Hnew]].
Defined.

Lemma carry_forward_todo_no_match_witness :
  get_todo Sample.running 1 = Some Sample.todo_1
  /\ get_section Sample.running 1 = Some Sample.section_1
  /\ carry_forward_todo Sample.any_schema "T1" Sample.running 1 3
     = Ok (None, Sample.running).
Proof.
  assert (H1 : get_todo Sample.running 1 = Some Sample.todo_1) by reflexivity.
  assert (H2 : get_section Sample.running (t_section_id Sample.todo_1)
               = Some Sample.section_1) by reflexivity.
  assert (H3 : forall s, In s (sections Sample.running) -> s_meeting_id s = 3 ->
                         ~ same_department Sample.section_1 s
                         /\ s_name s <> s_name Sample.section_1).
  { simpl. intros s [<-|[<-|[<-|[]]]] Hm; discriminate Hm. }
  split; [exact H1 | split; [exact H2 |]].
  exact (carry_forward_todo_no_match Sample.any_schema "T1" Sample.running 1 3
           Sample.todo_1 Sample.section_1 H1 H2 H3).
Defined.

(** ** Duplicate dates *)

Lemma insert_meeting_duplicate (sc : schema) (d : db) (meeting_date created_at : string)
    (template_id : option Z) (m : meeting) :
  get_meeting_by_date d meeting_date = Some m ->
  insert_meeting sc d meeting_date created_at template_id = Raise IntegrityError.
Proof.
  intros H. unfold insert_meeting.
  replace (existsb _ (meetings d)) with true; [reflexivity|].
  symmetry. apply existsb_find. now exists m.
Qed.

(** C4. [create_meeting] on a date that already has a meeting returns [None]
    and the database it was given, whatever [copy_from] is: the existing
    meeting and its sections are as before, and neither table has grown. *)
Theorem create_meeting_duplicate_date :
  forall (sc : schema) (now : string) (d : db) (meeting_date : string)
         (copy_from : option string) (m : meeting),
    get_meeting_by_date d meeting_date = Some m ->
    exists d',
      create_meeting sc now d meeting_date copy_from = Ok (None, d')
      /\ d' = d
      /\ get_meeting_by_date d' meeting_date = Some m
      /\ get_sections d' (m_id m) = get_sections d (m_id m)
      /\ List.length (meetings d') = List.length (meetings d)
      /\ sections d' = sections d.
Proof.
  intros sc now d meeting_date copy_from m H. exists d.
  unfold create_meeting, create_meeting_try.
  rewrite (insert_meeting_duplicate sc d meeting_date now None m H).
  simpl. auto 10.
Qed.

Lemma create_meeting_duplicate_date_witness :
  get_meeting_by_date Sample.running "2026-03-01"
  = Some (mk_meeting 1 "2026-03-01" "2026-03-01T08:00:00" "open" None None None)
  /\ exists d',
       create_meeting Sample.any_schema "T1" Sample.running "2026-03-01"
                      (Some "2026-03-08") = Ok (None, d')
       /\ d' = Sample.running.
Proof.
  assert (H : get_meeting_by_date Sample.running "2026-03-01"
              = Some (mk_meeting 1 "2026-03-01" "2026-03-01T08:00:00" "open"
                                 None None None)) by reflexivity.
  split; [exact H|].
  destruct (create_meeting_duplicate_date Sample.any_schema "T1" Sample.running
              "2026-03-01" (Some "2026-03-08") _ H) as [d' [Hr [Hd _]]].
  exists d'. split; [exact Hr | exact Hd].
Defined.

(** ** Reporter reassignment *)

Lemma insert_reporters_frame (sc : schema) (dept_id : Z)
    (reporter_entries : list (Z * bool)) :
  forall d d',
    insert_reporters sc d dept_id reporter_entries = Ok d' ->
    sections d' = sections d /\ meetings d' = meetings d /\ todos d' = todos d.
Proof.
  induction reporter_entries as [|[user_id is_primary] rest IH]; simpl; intros d d' H.
  - injection H as <-. auto.
  - destruct (accepts_reporter sc d _); [|discriminate].
    apply IH in H. exact H.
Qed.

(** C6. Replacing the reporters of a department leaves the section table as
    it was, whether the call commits or raises: every section keeps every
    column, in particular the [reporter] and [reporter_id] snapshotted when
    its meeting was created. *)
Theorem set_department_reporters_keeps_sections :
  forall (sc : schema) (d : db) (dept_id : Z) (reporter_entries : list (Z * bool)),
    let d' := state_after d (set_department_reporters sc d dept_id reporter_entries)
                          (fun x => x) in
    sections d' = sections d
    /\ forall section_id, get_section d' section_id = get_section d section_id.
Proof.
  intros sc d dept_id reporter_entries d'.
  assert (H : sections d' = sections d).
  { unfold d', set_department_reporters, state_after.
    destruct (insert_reporters sc _ dept_id reporter_entries) as [x|e] eqn:Hx;
      [|reflexivity].
    apply insert_reporters_frame in Hx. destruct Hx as [Hx _]. exact Hx. }
  split; [exact H|]. intros section_id. unfold get_section. now rewrite H.
Qed.

(** The reassignment is not a no-op: Bob becomes the primary reporter of
    Engineering while section 1 still names Alice. *)
Example set_department_reporters_changes_reporter :
  exists d',
    set_department_reporters Sample.any_schema Sample.running 1 [(2, true)] = Ok d'
    /\ primary_reporter Sample.running 1 = Some Sample.alice
    /\ primary_reporter d' 1 = Some Sample.bob
    /\ get_section d' 1 = Some Sample.section_1.
Proof. eexists. repeat split. Qed.

(** ** Ordering *)

Lemma insert_by_perm {A : Type} (key : A -> Z) (x : A) (l : list A) :
  Permutation (insert_by key x l) (x :: l).
Proof.
  induction l as [|y l IH]; simpl; [reflexivity|].
  destruct (key x <=? key y); [reflexivity|].
  rewrite IH. apply perm_swap.
Qed.

Lemma order_by_perm {A : Type} (key : A -> Z) (l : list A) :
  Permutation (order_by key l) l.
Proof.
  induction l as [|x l IH]; simpl; [reflexivity|].
  rewrite insert_by_perm. now constructor.
Qed.

Lemma order_by_in {A : Type} (key : A -> Z) (l : list A) (x : A) :
  In x (order_by key l) <-> In x l.
Proof.
  split; apply Permutation_in; [|symmetry]; apply order_by_perm.
Qed.

Lemma insert_by_sorted {A : Type} (key : A -> Z) (x : A) (l : list A) :
  StronglySorted (fun a b => key a <= key b) l ->
  StronglySorted (fun a b => key a <= key b) (insert_by key x l).
Proof.
  induction l as [|y l IH]; simpl; intros Hs.
  - constructor; [constructor | constructor].
  - inversion Hs as [|? ? Hs' Hall]; subst.
    destruct (Z.leb_spec (key x) (key y)) as [Hle|Hgt].
    + constructor; [exact Hs|]. constructor; [exact Hle|].
      eapply Forall_impl; [|exact Hall]. intros a Ha. simpl in Ha. lia.
    + constructor; [auto|].
      apply Forall_forall. intros a Ha.
      apply (Permutation_in _ (insert_by_perm key x l)) in Ha.
      destruct Ha as [<-|Ha]; [lia|].
      rewrite Forall_forall in Hall. now apply Hall.
Qed.

Lemma order_by_sorted {A : Type} (key : A -> Z) (l : list A) :
  StronglySorted (fun a b => key a <= key b) (order_by key l).
Proof.
  induction l as [|x l IH]; simpl; [constructor | now apply insert_by_sorted].
Qed.

(** A list has one sorted arrangement when its keys are distinct. *)
Lemma sorted_permutation_unique {A : Type} (key : A -> Z) (l1 l2 : list A) :
  sorted_by key l1 -> sorted_by key l2 ->
  Permutation l1 l2 -> NoDup (map key l2) -> l1 = l2.
Proof.
  unfold sorted_by. revert l2.
  induction l1 as [|a l1 IH]; intros l2 H1 H2 Hp Hnd.
  - apply Permutation_nil in Hp. now subst.
  - destruct l2 as [|b l2];
      [apply Permutation_sym, Permutation_nil in Hp; discriminate|].
    inversion H1 as [|? ? H1' Ha]; subst.
    inversion H2 as [|? ? H2' Hb]; subst.
    simpl in Hnd. inversion Hnd as [|? ? Hnotin Hnd']; subst.
    rewrite Forall_forall in Ha, Hb.
    assert (Heq : a = b).
    { assert (Hina : In a (b :: l2)) by (apply (Permutation_in _ Hp); now left).
      assert (Hinb : In b (a :: l1))
        by (apply (Permutation_in _ (Permutation_sym Hp)); now left).
      destruct Hina as [->|Hina]; [reflexivity|].
      destruct Hinb as [->|Hinb]; [reflexivity|].
      specialize (Ha b Hinb). specialize (Hb a Hina).
      elim Hnotin. replace (key b) with (key a) by lia. now apply in_map. }
    subst b. f_equal. apply IH; try assumption.
    now apply Permutation_cons_inv in Hp.
Qed.

Lemma list_departments_in (d : db) (dept : department) :
  In dept (list_departments d) <-> In dept (departments d) /\ d_is_archived dept = 0.
Proof.
  unfold list_departments. rewrite order_by_in, filter_In, Z.eqb_eq. tauto.
Qed.

(** ** Runs of section inserts *)

Lemma set_section_rows_self (d : db) :
  set_section_rows (sections d) (seq_section d) d = d.
Proof. now destruct d. Qed.

Lemma insert_section_frame (sc : schema) (d d1 : db) (row : Z -> section) :
  insert_section sc d row = Ok d1 ->
  let id := next_rowid (seq_section d) (map s_id (sections d)) in
  d1 = set_section_rows (sections d ++ [row id]) id d.
Proof.
  unfold insert_section. destruct (section_accepted sc d _); [|discriminate].
  now intros [= <-].
Qed.

Lemma insert_rows_ok (sc : schema) (d0 : db) (rows : list (Z -> section)) :
  (forall row id, In row rows ->
                  section_accepted sc d0 (row id) = true /\ s_id (row id) = id) ->
  forall l s, exists s',
    insert_rows sc (set_section_rows l s d0) rows
    = Ok (set_section_rows (l ++ assign_ids (next_rowid s (map s_id l)) rows) s' d0).
Proof.
  induction rows as [|row rest IH]; intros Hrows l s.
  - exists s. simpl. now rewrite app_nil_r.
  - simpl. unfold insert_section at 1.
    change (sections (set_section_rows l s d0)) with l.
    change (seq_section (set_section_rows l s d0)) with s.
    set (id := next_rowid s (map s_id l)).
    destruct (Hrows row id (or_introl eq_refl)) as [Hacc Hid].
    change (section_accepted sc (set_section_rows l s d0) (row id))
      with (section_accepted sc d0 (row id)).
    rewrite Hacc. simpl bind.
    change (set_section_rows (l ++ [row id]) id (set_section_rows l s d0))
      with (set_section_rows (l ++ [row id]) id d0).
    destruct (IH (fun r i H => Hrows r i (or_intror H)) (l ++ [row id]) id)
      as [s' Hs'].
    exists s'. rewrite Hs'. rewrite map_app. simpl map. rewrite Hid.
    unfold id at 2 3. rewrite next_rowid_succ. fold id.
    now rewrite <- app_assoc.
Qed.

Lemma insert_rows_from (sc : schema) (d : db) (rows : list (Z -> section)) :
  (forall row id, In row rows ->
                  section_accepted sc d (row id) = true /\ s_id (row id) = id) ->
  exists s',
    insert_rows sc d rows
    = Ok (set_section_rows
            (sections d ++ assign_ids (next_rowid (seq_section d) (map s_id (sections d)))
                                      rows)
            s' d).
Proof.
  intros H.
  destruct (insert_rows_ok sc d rows H (sections d) (seq_section d)) as [s' Hs'].
  exists s'. now rewrite set_section_rows_self in Hs'.
Qed.

Lemma department_sections_as_rows (sc : schema) (meeting_id : Z)
    (depts : list department) :
  forall d, department_sections sc d meeting_id depts
            = insert_rows sc d (department_rows d meeting_id depts).
Proof.
  induction depts as [|dept rest IH]; intros d; simpl; [reflexivity|].
  destruct (insert_section sc d _) as [d1|e] eqn:H1; simpl; [|reflexivity].
  rewrite IH. apply insert_section_frame in H1. now rewrite H1.
Qed.

Lemma default_sections_as_rows (sc : schema) (meeting_id : Z)
    (entries : list (string * string * bool)) :
  forall d i, default_sections sc d meeting_id i entries
              = insert_rows sc d (default_rows meeting_id i entries).
Proof.
  induction entries as [|entry rest IH]; intros d i; simpl; [reflexivity|].
  destruct (insert_section sc d _) as [d1|e]; simpl; [apply IH | reflexivity].
Qed.

Lemma template_sections_loop_as_rows (sc : schema) (meeting_id : Z)
    (tss : list template_section) :
  forall d, template_sections_loop sc d meeting_id tss
            = insert_rows sc d (template_rows d meeting_id tss).
Proof.
  induction tss as [|ts rest IH]; intros d; simpl; [reflexivity|].
  unfold live_department.
  destruct (get_department d (ts_department_id ts)) as [dept|]; [|apply IH].
  destruct (d_is_archived dept =? 0); simpl; [|apply IH].
  destruct (insert_section sc d _) as [d1|e] eqn:H1; simpl; [|reflexivity].
  rewrite IH. apply insert_section_frame in H1. now rewrite H1.
Qed.

Lemma assign_ids_length (rows : list (Z -> section)) :
  forall first, List.length (assign_ids first rows) = List.length rows.
Proof. induction rows as [|row rest IH]; intros first; simpl; auto. Qed.

Lemma assign_ids_in (rows : list (Z -> section)) (s : section) :
  forall first, In s (assign_ids first rows) ->
                exists row id, In row rows /\ s = row id.
Proof.
  induction rows as [|row rest IH]; intros first; simpl; [tauto|].
  intros [<-|H].
  - exists row, first. auto.
  - destruct (IH _ H) as [r [id [Hr Hs]]]. exists r, id. auto.
Qed.


(** ** The primary reporter *)

Lemma primary_reporter_some (d : db) (dept_id : Z) (u : user) :
  primary_reporter d dept_id = Some u ->
  In u (users d)
  /\ exists r, In r (department_reporters d)
               /\ dr_department_id r = dept_id
               /\ dr_is_primary r = 1
               /\ dr_user_id r = u_id u.
Proof.
  unfold primary_reporter. intros H.
  assert (Hin : In u (flat_map
                        (fun r =>
                           if (dr_department_id r =? dept_id) && (dr_is_primary r =? 1)
                           then filter (fun u0 => u_id u0 =? dr_user_id r) (users d)
                           else [])
                        (department_reporters d))).
  { destruct (flat_map _ _) as [|x l]; [discriminate|].
    injection H as ->. now left. }
  apply in_flat_map in Hin. destruct Hin as [r [Hr Hu]].
  destruct ((dr_department_id r =? dept_id) && (dr_is_primary r =? 1)) eqn:Hc;
    [|contradiction].
  apply andb_true_iff in Hc. destruct Hc as [H1 H2].
  apply Z.eqb_eq in H1, H2.
  apply filter_In in Hu. destruct Hu as [Hu Hid]. apply Z.eqb_eq in Hid.
  split; [assumption|]. exists r. auto.
Qed.

Lemma primary_reporter_none (d : db) (dept_id : Z) :
  primary_reporter d dept_id = None ->
  forall r u, In r (department_reporters d) -> In u (users d) ->
              dr_department_id r = dept_id -> dr_is_primary r = 1 ->
              u_id u <> dr_user_id r.
Proof.
  unfold primary_reporter. intros H r u Hr Hu H1 H2 Hid.
  assert (Hin : In u (flat_map
                        (fun r =>
                           if (dr_department_id r =? dept_id) && (dr_is_primary r =? 1)
                           then filter (fun u0 => u_id u0 =? dr_user_id r) (users d)
                           else [])
                        (department_reporters d))).
  { apply in_flat_map. exists r. split; [assumption|].
    rewrite (proj2 (Z.eqb_eq _ _) H1), (proj2 (Z.eqb_eq _ _) H2). simpl.
    apply filter_In. split; [assumption | now apply Z.eqb_eq]. }
  destruct (flat_map _ _); [contradiction | discriminate].
Qed.

Lemma has_user_primary_reporter (declared : bool) (d : db) (dept_id : Z) :
  fk_ok declared (has_user d) (reporter_id (primary_reporter d dept_id)) = true.
Proof.
  destruct (primary_reporter d dept_id) as [u|] eqn:H; simpl; [|reflexivity].
  apply primary_reporter_some in H. destruct H as [Hu _].
  apply orb_true_iff. right. unfold has_user. apply existsb_exists.
  exists u. split; [assumption | apply Z.eqb_refl].
Qed.

Lemma has_department_in (d : db) (dept : department) :
  In dept (departments d) -> has_department d (d_id dept) = true.
Proof.
  intros H. unfold has_department. apply existsb_exists.
  exists dept. split; [assumption | apply Z.eqb_refl].
Qed.

Lemma department_section_accepted (sc : schema) (d : db) (meeting_id : Z)
    (dept : department) (sort_order : Z) (content : string) (id : Z) :
  has_meeting d meeting_id = true ->
  In dept (departments d) ->
  section_accepted sc d (department_section d meeting_id dept sort_order content id)
  = true.
Proof.
  intros Hm Hd. unfold section_accepted, department_section. simpl.
  rewrite Hm, (has_department_in d dept Hd), orb_true_r. simpl.
  apply has_user_primary_reporter.
Qed.

Lemma default_rows_in (meeting_id : Z) (entries : list (string * string * bool))
    (row : Z -> section) :
  forall i, In row (default_rows meeting_id i entries) ->
            exists j entry, row = default_section meeting_id j entry.
Proof.
  induction entries as [|entry rest IH]; intros i; simpl; [tauto|].
  intros [<-|H]; [now exists i, entry | eauto].
Qed.

Lemma default_section_accepted (sc : schema) (d : db) (meeting_id i : Z)
    (entry : string * string * bool) (id : Z) :
  has_meeting d meeting_id = true ->
  section_accepted sc d (default_section meeting_id i entry id) = true
  /\ s_id (default_section meeting_id i entry id) = id.
Proof.
  intros Hm. destruct entry as [[name reporter] is_special].
  unfold section_accepted. simpl. now rewrite Hm.
Qed.

Lemma get_department_some (d : db) (dept_id : Z) (dept : department) :
  get_department d dept_id = Some dept -> In dept (departments d) /\ d_id dept = dept_id.
Proof.
  intros H. apply find_some in H. destruct H as [Hin Hid].
  apply Z.eqb_eq in Hid. auto.
Qed.

Lemma template_rows_in (d : db) (meeting_id : Z) (tss : list template_section)
    (row : Z -> section) :
  In row (template_rows d meeting_id tss) ->
  exists ts dept,
    In ts tss
    /\ live_department d (ts_department_id ts) = Some dept
    /\ row = department_section d meeting_id dept (ts_sort_order ts)
                                (ts_default_content ts).
Proof.
  unfold template_rows. intros H. apply in_flat_map in H.
  destruct H as [ts [Hts Hrow]].
  destruct (live_department d (ts_department_id ts)) as [dept|] eqn:Hl;
    [|contradiction].
  destruct Hrow as [<-|[]]. now exists ts, dept.
Qed.

Lemma live_department_some (d : db) (dept_id : Z) (dept : department) :
  live_department d dept_id = Some dept ->
  In dept (departments d) /\ d_id dept = dept_id /\ d_is_archived dept = 0.
Proof.
  unfold live_department.
  destruct (get_department d dept_id) as [x|] eqn:H; [|discriminate].
  destruct (Z.eqb_spec (d_is_archived x) 0) as [Ha|]; [|discriminate].
  intros [= <-]. apply get_department_some in H. tauto.
Qed.

(** ** Creating the meeting row *)

Lemma insert_meeting_fresh (sc : schema) (d : db) (meeting_date created_at : string)
    (template_id : option Z) :
  get_meeting_by_date d meeting_date = None ->
  fk_ok (fk_meeting_template sc) (has_template d) template_id = true ->
  let id := next_rowid (seq_meeting d) (map m_id (meetings d)) in
  let m := mk_meeting id meeting_date created_at default_status None None template_id in
  let d1 := set_meeting_rows (meetings d ++ [m]) id d in
  insert_meeting sc d meeting_date created_at template_id = Ok (id, d1)
  /\ get_meeting_by_date d1 meeting_date = Some m
  /\ has_meeting d1 id = true.
Proof.
  intros Hfresh Hfk id m d1. unfold insert_meeting.
  rewrite (proj1 (find_none_existsb _ _) Hfresh), Hfk. simpl.
  split; [reflexivity|]. split.
  - unfold get_meeting_by_date, d1. simpl. apply find_app_fresh; [assumption|].
    simpl. apply String.eqb_refl.
  - unfold has_meeting, d1. simpl. rewrite existsb_app. simpl.
    rewrite Z.eqb_refl. now rewrite orb_true_r.
Qed.

(** A date that no stored meeting has is not found. *)
Lemma get_meeting_by_date_fresh (d : db) (meeting_date : string) :
  (forall m, In m (meetings d) -> m_date m <> meeting_date) ->
  get_meeting_by_date d meeting_date = None.
Proof.
  intros H. unfold get_meeting_by_date. apply find_all_false.
  intros m Hm. apply String.eqb_neq. now apply H.
Qed.

(** ** Blank creation *)

Lemma blank_rows_accepted (sc : schema) (d : db) (meeting_id : Z)
    (row : Z -> section) (id : Z) :
  has_meeting d meeting_id = true ->
  In row (blank_rows d meeting_id) ->
  section_accepted sc d (row id) = true /\ s_id (row id) = id.
Proof.
  intros Hm. unfold blank_rows.
  destruct (list_departments d) as [|x l] eqn:Hl.
  - intros H. apply default_rows_in in H. destruct H as [j [entry ->]].
    now apply default_section_accepted.
  - rewrite <- Hl. unfold department_rows. intros H.
    apply in_map_iff in H. destruct H as [dept [<- Hdept]].
    split; [|reflexivity].
    apply department_section_accepted; [assumption|].
    now apply list_departments_in in Hdept.
Qed.

Lemma create_meeting_try_blank (sc : schema) (now : string) (d : db)
    (meeting_date : string) :
  get_meeting_by_date d meeting_date = None ->
  let mid := next_rowid (seq_meeting d) (map m_id (meetings d)) in
  let first := next_rowid (seq_section d) (map s_id (sections d)) in
  exists d',
    create_meeting_try sc now d meeting_date None = Ok (mid, d')
    /\ meetings d' = meetings d ++
         [mk_meeting mid meeting_date now default_status None None None]
    /\ sections d' = sections d ++ assign_ids first (blank_rows d mid)
    /\ todos d' = todos d
    /\ departments d' = departments d
    /\ department_reporters d' = department_reporters d
    /\ users d' = users d.
Proof.
  intros Hfresh mid first.
  destruct (insert_meeting_fresh sc d meeting_date now None Hfresh eq_refl)
    as [Hins [Hget Hhas]].
  fold mid in Hins, Hget, Hhas.
  set (m := mk_meeting mid meeting_date now default_status None None None) in *.
  set (d1 := set_meeting_rows (meetings d ++ [m]) mid d) in *.
  destruct (insert_rows_from sc d1 (blank_rows d1 mid)
              (fun row id H => blank_rows_accepted sc d1 mid row id Hhas H))
    as [s' Hrows].
  exists (set_section_rows
            (sections d1 ++ assign_ids (next_rowid (seq_section d1)
                                                   (map s_id (sections d1)))
                                       (blank_rows d1 mid)) s' d1).
  split; [|repeat split].
  unfold create_meeting_try. rewrite Hins. cbn [bind snd].
  rewrite Hget. cbv zeta. change (m_id m) with mid.
  replace (match list_departments d1 with
           | [] => default_sections sc d1 mid 0 DEFAULT_SECTIONS
           | _ :: _ => department_sections sc d1 mid (list_departments d1)
           end) with (insert_rows sc d1 (blank_rows d1 mid)).
  - rewrite Hrows. reflexivity.
  - unfold blank_rows. destruct (list_departments d1) as [|x l] eqn:Hl.
    + now rewrite default_sections_as_rows.
    + now rewrite department_sections_as_rows.
Qed.

Lemma nodup_map_filter {A : Type} (f : A -> Z) (p : A -> bool) (l : list A) :
  NoDup (map f l) -> NoDup (map f (filter p l)).
Proof.
  induction l as [|a l IH]; simpl; intros H; [constructor|].
  inversion H as [|? ? Hnotin Hnd]; subst.
  destruct (p a); simpl; [|auto].
  constructor; [|auto].
  intros Hin. apply Hnotin. apply in_map_iff in Hin.
  destruct Hin as [x [Hx Hin]]. apply filter_In in Hin.
  apply in_map_iff. exists x. tauto.
Qed.

(** A fresh install: no department, so the first meeting gets the nine
    built-in sections. *)
Example create_meeting_fresh_install :
  exists d',
    create_meeting Sample.any_schema "T1" empty_db "2026-03-01" None
    = Ok (Some 1, d')
    /\ sections d' = assign_ids 1 (default_rows 1 0 DEFAULT_SECTIONS)
    /\ map s_sort_order (sections d') = [0; 1; 2; 3; 4; 5; 6; 7; 8]
    /\ map s_is_special (sections d') = [0; 0; 0; 0; 0; 0; 0; 1; 1].
Proof. eexists. split; [vm_compute; reflexivity | repeat split]. Qed.

(** *** The reporter snapshot *)

Lemma primary_reporter_snapshot (d : db) (dept_id : Z) :
  reporter_snapshot d dept_id (reporter_name (primary_reporter d dept_id))
                    (reporter_id (primary_reporter d dept_id)).
Proof.
  destruct (primary_reporter d dept_id) as [u|] eqn:H; simpl.
  - left. exists u. split; [|split; reflexivity].
    now apply primary_reporter_some.
  - right. split; [|split; reflexivity].
    intros u [Hu [r [Hr [Hd [Hp Hid]]]]].
    now apply (primary_reporter_none d dept_id H r u).
Qed.

Lemma reporter_snapshot_unique (d : db) (dept_id : Z) (name name' : string)
    (rid rid' : option Z) :
  primary_unique d ->
  reporter_snapshot d dept_id name rid ->
  reporter_snapshot d dept_id name' rid' ->
  name = name' /\ rid = rid'.
Proof.
  intros Hu [[u [Hp [-> ->]]]|[Hn [-> ->]]] [[u' [Hp' [-> ->]]]|[Hn' [-> ->]]].
  - now rewrite (Hu dept_id u u' Hp Hp').
  - now elim (Hn' u).
  - now elim (Hn u').
  - auto.
Qed.

(** The primary reporters of the sample data: Alice for Engineering, nobody
    for the other departments. *)
Lemma sample_primary_unique (d : db) :
  users d = users Sample.seeded ->
  department_reporters d = department_reporters Sample.seeded ->
  primary_unique d.
Proof.
  intros Husers Hreps dept_id u u'
         [Hu [r [Hr [_ [Hp Hid]]]]] [Hu' [r' [Hr' [_ [Hp' Hid']]]]].
  rewrite Husers in Hu, Hu'. rewrite Hreps in Hr, Hr'.
  simpl in Hu, Hu', Hr, Hr'.
  destruct Hr as [<-|[<-|[]]]; [|discriminate].
  destruct Hr' as [<-|[<-|[]]]; [|discriminate].
  simpl in Hid, Hid'.
  destruct Hu as [<-|[<-|[<-|[]]]]; try discriminate.
  destruct Hu' as [<-|[<-|[<-|[]]]]; try discriminate.
  reflexivity.
Qed.

(** The rows of a blank meeting are the sections the departments yield. *)
Lemma department_rows_yield (d : db) (meeting_id : Z) (depts : list department) :
  forall first,
    department_yields d meeting_id first depts
                      (assign_ids first (department_rows d meeting_id depts)).
Proof.
  induction depts as [|dept rest IH]; intros first; simpl.
  - constructor.
  - apply department_yields_cons; [apply primary_reporter_snapshot | apply IH].
Qed.

Lemma department_yields_rows (d : db) (meeting_id : Z) :
  primary_unique d ->
  forall first depts news,
    department_yields d meeting_id first depts news ->
    news = assign_ids first (department_rows d meeting_id depts).
Proof.
  intros Hu first depts news H.
  induction H as [first | first dept rest news name rid Hsnap _ IH].
  - reflexivity.
  - simpl. rewrite <- IH. unfold department_section.
    destruct (reporter_snapshot_unique d (d_id dept) _ _ _ _ Hu Hsnap
                (primary_reporter_snapshot d (d_id dept))) as [-> ->].
    reflexivity.
Qed.

(** X29. On a date that has no meeting, when the department table holds at
    least one department that is not archived, [create_meeting] without
    [copy_from] returns the new meeting's id and appends exactly one section
    per department that is not archived, in [sort_order]: each carries the
    department's name, sort order, special flag and id, empty content, and
    the display name and id of a primary reporter of the department (empty
    name and [NULL] id when it has none).  Archived departments get no
    section and the built-in list is not used. *)
Theorem create_meeting_blank_sections :
  forall (sc : schema) (now : string) (d : db) (meeting_date : string),
    (forall m, In m (meetings d) -> m_date m <> meeting_date) ->
    (exists dept, In dept (departments d) /\ d_is_archived dept = 0) ->
    exists (d' : db) (depts : list department) (new : list section),
      let mid := next_rowid (seq_meeting d) (map m_id (meetings d)) in
      let first := next_rowid (seq_section d) (map s_id (sections d)) in
      create_meeting sc now d meeting_date None = Ok (Some mid, d')
      /\ meetings d' = meetings d ++
           [mk_meeting mid meeting_date now default_status None None None]
      /\ sections d' = sections d ++ new
      /\ Permutation depts (filter (fun x => d_is_archived x =? 0) (departments d))
      /\ sorted_by d_sort_order depts
      /\ department_yields d mid first depts new.
Proof.
  intros sc now d meeting_date Hdates [dept [Hdept Harch]].
  pose proof (get_meeting_by_date_fresh d meeting_date Hdates) as Hfresh.
  destruct (create_meeting_try_blank sc now d meeting_date Hfresh)
    as [d' [Htry [Hmeet [Hsec _]]]].
  set (mid := next_rowid (seq_meeting d) (map m_id (meetings d))) in *.
  set (first := next_rowid (seq_section d) (map s_id (sections d))) in *.
  assert (Hrows : blank_rows d mid = department_rows d mid (list_departments d)).
  { unfold blank_rows.
    destruct (list_departments d) as [|x l] eqn:Hl; [|reflexivity].
    assert (Hin : In dept (list_departments d)) by now apply list_departments_in.
    rewrite Hl in Hin. contradiction. }
  exists d', (list_departments d),
         (assign_ids first (department_rows d mid (list_departments d))).
  cbv zeta. fold mid first.
  split; [unfold create_meeting; now rewrite Htry|].
  split; [exact Hmeet|].
  split; [now rewrite <- Hrows|].
  split; [apply order_by_perm|].
  split; [apply order_by_sorted | apply department_rows_yield].
Qed.

(** [Sample.running] after the departments were put in the order Shoutouts,
    Legacy, Engineering: the table still stores Engineering first, and the
    new meeting gets Shoutouts, without reporter, and then Engineering, with
    Alice, after the sections that were there; the archived Legacy gets
    nothing. *)
Lemma create_meeting_blank_sections_witness :
  (forall m, In m (meetings (reorder_departments Sample.running [2; 3; 1])) ->
             m_date m <> "2026-03-22")
  /\ (exists dept, In dept (departments (reorder_departments Sample.running [2; 3; 1]))
                   /\ d_is_archived dept = 0)
  /\ map d_name (departments (reorder_departments Sample.running [2; 3; 1]))
     = ["Engineering"; "Shoutouts"; "Legacy"]
  /\ exists d',
       create_meeting Sample.any_schema "T1"
                      (reorder_departments Sample.running [2; 3; 1]) "2026-03-22" None
       = Ok (Some 4, d')
       /\ sections d'
          = [Sample.section_1; Sample.section_2; Sample.section_3;
             mk_section 4 4 "Shoutouts" "" 0 1 "" None (Some 2) None;
             mk_section 5 4 "Engineering" "Alice" 2 0 "" None (Some 1) (Some 1)].
Proof.
  set (d := reorder_departments Sample.running [2; 3; 1]).
  assert (H1 : forall m, In m (meetings d) -> m_date m <> "2026-03-22").
  { simpl. intros m [<-|[<-|[<-|[]]]]; discriminate. }
  assert (H2 : exists dept, In dept (departments d) /\ d_is_archived dept = 0).
  { exists (mk_department 1 "Engineering" 2 0 0). split; [now left | reflexivity]. }
  split; [exact H1 | split; [exact H2 | split; [reflexivity|]]].
  destruct (create_meeting_blank_sections Sample.any_schema "T1" d "2026-03-22" H1 H2)
    as [d' [depts [new [Hr [_ [Hs [Hperm [Hsorted Hy]]]]]]]].
  exists d'. split; [exact Hr|].
  assert (Hdepts : depts = [mk_department 2 "Shoutouts" 0 1 0;
                            mk_department 1 "Engineering" 2 0 0]).
  { apply (sorted_permutation_unique d_sort_order); [exact Hsorted | | |].
    - repeat constructor; simpl; lia.
    - rewrite Hperm. simpl. apply perm_swap.
    - simpl. repeat constructor; simpl; intuition lia. }
  rewrite Hs.
  rewrite (department_yields_rows d _ (sample_primary_unique d eq_refl eq_refl)
             _ _ _ Hy).
  rewrite Hdepts. reflexivity.
Defined.

(** X30. On a date that has no meeting, when the department table is empty,
    [create_meeting] without [copy_from] returns the new meeting's id and
    appends the nine built-in sections, in the order of [DEFAULT_SECTIONS]:
    sort orders 0 to 8, the last two special, each with empty reporter and
    content and neither department nor reporter id. *)
Theorem create_meeting_empty_table_fallback :
  forall (sc : schema) (now : string) (d : db) (meeting_date : string),
    (forall m, In m (meetings d) -> m_date m <> meeting_date) ->
    departments d = [] ->
    exists (d' : db),
      let mid := next_rowid (seq_meeting d) (map m_id (meetings d)) in
      let first := next_rowid (seq_section d) (map s_id (sections d)) in
      create_meeting sc now d meeting_date None = Ok (Some mid, d')
      /\ meetings d' = meetings d ++
           [mk_meeting mid meeting_date now default_status None None None]
      /\ sections d' = sections d ++
           [mk_section first mid "Engineering" "" 0 0 "" None None None;
            mk_section (first + 1) mid "Design" "" 1 0 "" None None None;
            mk_section (first + 2) mid "Product" "" 2 0 "" None None None;
            mk_section (first + 3) mid "QA" "" 3 0 "" None None None;
            mk_section (first + 4) mid "Infrastructure" "" 4 0 "" None None None;
            mk_section (first + 5) mid "Support" "" 5 0 "" None None None;
            mk_section (first + 6) mid "Operations" "" 6 0 "" None None None;
            mk_section (first + 7) mid "PTO / Out of Office" "" 7 1 "" None None None;
            mk_section (first + 8) mid "Shoutouts" "" 8 1 "" None None None].
Proof.
  intros sc now d meeting_date Hdates Hempty.
  pose proof (get_meeting_by_date_fresh d meeting_date Hdates) as Hfresh.
  destruct (create_meeting_try_blank sc now d meeting_date Hfresh)
    as [d' [Htry [Hmeet [Hsec _]]]].
  set (mid := next_rowid (seq_meeting d) (map m_id (meetings d))) in *.
  set (first := next_rowid (seq_section d) (map s_id (sections d))) in *.
  exists d'. cbv zeta. fold mid first.
  split; [unfold create_meeting; now rewrite Htry|].
  split; [exact Hmeet|].
  rewrite Hsec. f_equal.
  unfold blank_rows, list_departments. rewrite Hempty. simpl.
  repeat (f_equal; try lia).
Qed.

(** The second meeting of a fresh install: the department table is still
    empty, and the meeting gets the built-in sections, numbered on from the
    nine of the first meeting. *)
Lemma create_meeting_empty_table_fallback_witness :
  (forall m, In m (meetings first_meeting) -> m_date m <> "2026-03-08")
  /\ departments first_meeting = []
  /\ map m_date (meetings first_meeting) = ["2026-03-01"]
  /\ exists d',
       create_meeting Sample.any_schema "T1" first_meeting "2026-03-08" None
       = Ok (Some 2, d')
       /\ filter (fun s => s_meeting_id s =? 2) (sections d')
          = [mk_section 10 2 "Engineering" "" 0 0 "" None None None;
             mk_section 11 2 "Design" "" 1 0 "" None None None;
             mk_section 12 2 "Product" "" 2 0 "" None None None;
             mk_section 13 2 "QA" "" 3 0 "" None None None;
             mk_section 14 2 "Infrastructure" "" 4 0 "" None None None;
             mk_section 15 2 "Support" "" 5 0 "" None None None;
             mk_section 16 2 "Operations" "" 6 0 "" None None None;
             mk_section 17 2 "PTO / Out of Office" "" 7 1 "" None None None;
             mk_section 18 2 "Shoutouts" "" 8 1 "" None None None].
Proof.
  assert (H1 : forall m, In m (meetings first_meeting) -> m_date m <> "2026-03-08").
  { intros m Hm. vm_compute in Hm. destruct Hm as [<-|[]]. discriminate. }
  assert (H2 : departments first_meeting = []) by reflexivity.
  split; [exact H1 | split; [exact H2 | split; [reflexivity|]]].
  destruct (create_meeting_empty_table_fallback Sample.any_schema "T1" first_meeting
              "2026-03-08" H1 H2) as [d' [Hr [_ Hs]]].
  exists d'. split; [exact Hr|]. rewrite Hs. reflexivity.
Defined.

(** C5.  Where the code leaves the claim.  The department table of
    [Sample.all_archived] is not empty: it holds one department, which is
    archived.  Blank creation on a fresh date succeeds there and gives the
    meeting the nine built-in sections, none of them tied to a department,
    where one section per department that is not archived is no section at
    all.  The comment at [DEFAULT_SECTIONS] and the one at the fallback branch
    of [create_meeting] keep the built-in list for an empty department table;
    the branch tests the list of departments that are not archived. *)
Theorem create_meeting_all_archived_fallback :
  departments Sample.all_archived <> []
  /\ filter (fun x => d_is_archived x =? 0) (departments Sample.all_archived) = []
  /\ get_meeting_by_date Sample.all_archived "2026-03-01" = None
  /\ exists d',
       create_meeting Sample.any_schema "T1" Sample.all_archived "2026-03-01" None
       = Ok (Some 1, d')
       /\ map s_name (sections d')
          = ["Engineering"; "Design"; "Product"; "QA"; "Infrastructure"; "Support";
             "Operations"; "PTO / Out of Office"; "Shoutouts"]
       /\ map s_department_id (sections d') = repeat None 9
       /\ List.length (sections d')
          <> List.length (filter (fun x => d_is_archived x =? 0)
                                 (departments Sample.all_archived)).
Proof.
  split; [discriminate|]. split; [reflexivity|]. split; [reflexivity|].
  eexists. split; [vm_compute; reflexivity|].
  split; [reflexivity|]. split; [reflexivity|]. discriminate.
Qed.

(** On [Sample.seeded]: Engineering with Alice as reporter, Shoutouts without
    one, nothing for the archived department. *)
Example create_meeting_blank_sample :
  exists d',
    create_meeting Sample.any_schema "T1" Sample.seeded "2026-03-01" None
    = Ok (Some 1, d')
    /\ sections d'
       = [mk_section 1 1 "Engineering" "Alice" 0 0 "" None (Some 1) (Some 1);
          mk_section 2 1 "Shoutouts" "" 1 1 "" None (Some 2) None].
Proof. eexists. split; [vm_compute; reflexivity | reflexivity]. Qed.

(** ** Creation from a template *)

Lemma template_rows_accepted (sc : schema) (d : db) (meeting_id : Z)
    (tss : list template_section) (row : Z -> section) (id : Z) :
  has_meeting d meeting_id = true ->
  In row (template_rows d meeting_id tss) ->
  section_accepted sc d (row id) = true /\ s_id (row id) = id.
Proof.
  intros Hm H. apply template_rows_in in H.
  destruct H as [ts [dept [_ [Hlive ->]]]].
  apply live_department_some in Hlive. destruct Hlive as [Hin _].
  split; [|reflexivity]. now apply department_section_accepted.
Qed.

(** *** Live departments, on the table *)

Lemma live_department_in (d : db) (dept : department) :
  NoDup (map d_id (departments d)) ->
  In dept (departments d) -> d_is_archived dept = 0 ->
  live_department d (d_id dept) = Some dept.
Proof.
  intros Hnd Hin Ha. unfold live_department, get_department.
  rewrite (find_unique_key d_id (departments d) dept Hnd Hin).
  now rewrite Ha.
Qed.

Lemma live_department_none (d : db) (dept_id : Z) :
  NoDup (map d_id (departments d)) ->
  live_department d dept_id = None ->
  forall dept, In dept (departments d) -> d_id dept = dept_id ->
               d_is_archived dept <> 0.
Proof.
  intros Hnd Hnone dept Hin Hid Ha.
  rewrite <- Hid in Hnone.
  now rewrite (live_department_in d dept Hnd Hin Ha) in Hnone.
Qed.

(** The rows the loop inserts are the sections the template yields. *)
Lemma template_rows_yield (d : db) (meeting_id : Z) (tss : list template_section) :
  NoDup (map d_id (departments d)) ->
  forall first,
    template_yields d meeting_id first tss
                    (assign_ids first (template_rows d meeting_id tss)).
Proof.
  intros Hnd. induction tss as [|ts rest IH]; intros first.
  - constructor.
  - unfold template_rows. simpl flat_map. fold (template_rows d meeting_id rest).
    destruct (live_department d (ts_department_id ts)) as [dept|] eqn:Hl.
    + apply live_department_some in Hl. destruct Hl as [Hin [Hid Ha]].
      simpl. apply template_yields_section; try assumption.
      * apply primary_reporter_snapshot.
      * apply IH.
    + simpl. apply template_yields_skip; [|apply IH].
      now apply live_department_none.
Qed.

(** With one primary reporter per department at most, the template decides
    the sections. *)
Lemma template_yields_rows (d : db) (meeting_id : Z) :
  NoDup (map d_id (departments d)) ->
  primary_unique d ->
  forall first tss news,
    template_yields d meeting_id first tss news ->
    news = assign_ids first (template_rows d meeting_id tss).
Proof.
  intros Hnd Hu first tss news H.
  induction H as [first | first ts rest news Harch _ IH
                  | first ts rest news dept name rid Hin Hid Ha Hsnap _ IH].
  - reflexivity.
  - unfold template_rows. simpl flat_map. fold (template_rows d meeting_id rest).
    destruct (live_department d (ts_department_id ts)) as [dept|] eqn:Hl;
      [|exact IH].
    apply live_department_some in Hl. destruct Hl as [Hin [Hid Ha]].
    now elim (Harch dept Hin Hid).
  - unfold template_rows. simpl flat_map. fold (template_rows d meeting_id rest).
    rewrite <- Hid. rewrite (live_department_in d dept Hnd Hin Ha).
    simpl. rewrite <- IH. unfold department_section.
    destruct (reporter_snapshot_unique d (d_id dept) _ _ _ _ Hu Hsnap
                (primary_reporter_snapshot d (d_id dept))) as [-> ->].
    reflexivity.
Qed.

(** C8. On a date that no stored meeting has, [create_meeting_from_template]
    for a template of the template table returns the new meeting's id, stores the meeting with
    the template's id, and appends sections only.  The template sections of
    that template, taken in [sort_order], decide the new sections: a template
    section whose department is in the department table and not archived
    yields one section, with the department's name, special flag and id, the
    template section's sort order and [default_content], and the display name
    and id of a primary reporter of the department (empty name and [NULL] id
    when it has none); a template section whose department is missing or
    archived yields no section, and the call still succeeds.
    [department.id] is the primary key. *)
Theorem create_meeting_from_template_sections :
  forall (sc : schema) (now : string) (d : db) (meeting_date : string)
         (template_id : Z) (tmpl : meeting_template),
    In tmpl (meeting_templates d) ->
    mt_id tmpl = template_id ->
    (forall m, In m (meetings d) -> m_date m <> meeting_date) ->
    NoDup (map d_id (departments d)) ->
    exists (d' : db) (tss : list template_section) (new : list section),
      let mid := next_rowid (seq_meeting d) (map m_id (meetings d)) in
      let first := next_rowid (seq_section d) (map s_id (sections d)) in
      create_meeting_from_template sc now d meeting_date template_id
      = Ok (Some mid, d')
      /\ meetings d' = meetings d ++
           [mk_meeting mid meeting_date now default_status None None
                       (Some template_id)]
      /\ sections d' = sections d ++ new
      /\ Permutation tss
           (filter (fun ts => ts_template_id ts =? template_id) (template_sections d))
      /\ sorted_by ts_sort_order tss
      /\ template_yields d mid first tss new.
Proof.
  intros sc now d meeting_date template_id tmpl Htmpl Htid Hdates Hnd.
  pose proof (get_meeting_by_date_fresh d meeting_date Hdates) as Hfresh.
  assert (Hfk : fk_ok (fk_meeting_template sc) (has_template d) (Some template_id)
                = true).
  { simpl. apply orb_true_iff. right. unfold has_template. apply existsb_exists.
    exists tmpl. split; [exact Htmpl | now apply Z.eqb_eq]. }
  destruct (insert_meeting_fresh sc d meeting_date now (Some template_id) Hfresh Hfk)
    as [Hins [Hget Hhas]].
  set (mid := next_rowid (seq_meeting d) (map m_id (meetings d))) in *.
  set (first := next_rowid (seq_section d) (map s_id (sections d))) in *.
  set (m := mk_meeting mid meeting_date now default_status None None
                       (Some template_id)) in *.
  set (d1 := set_meeting_rows (meetings d ++ [m]) mid d) in *.
  set (rows := template_rows d mid (sections_of_template d template_id)).
  destruct (insert_rows_from sc d1 rows
              (fun row id H =>
                 template_rows_accepted sc d1 mid
                   (sections_of_template d1 template_id) row id Hhas H))
    as [s' Hrows].
  exists (set_section_rows (sections d ++ assign_ids first rows) s' d1),
         (sections_of_template d template_id),
         (assign_ids first rows).
  cbv zeta. split.
  { unfold create_meeting_from_template, create_meeting_from_template_try.
    rewrite Hins. cbn [bind snd]. rewrite Hget. cbv zeta.
    change (m_id m) with mid.
    rewrite template_sections_loop_as_rows.
    change (template_rows d1 mid (sections_of_template d1 template_id)) with rows.
    rewrite Hrows. reflexivity. }
  split; [reflexivity|]. split; [reflexivity|]. split; [|split].
  - apply order_by_perm.
  - apply order_by_sorted.
  - now apply template_rows_yield.
Qed.

(** Template 1 of [templated] on a fresh date: the template sections are
    stored as Shoutouts (5), Legacy (0), Engineering (2) and a missing
    department (3); the new meeting gets Engineering, with Alice as reporter,
    and then Shoutouts, without one, after the section that was there. *)
Lemma create_meeting_from_template_sections_witness :
  In (mk_meeting_template 1 "Weekly") (meeting_templates templated)
  /\ (forall m, In m (meetings templated) -> m_date m <> "2026-04-01")
  /\ NoDup (map d_id (departments templated))
  /\ exists d',
       create_meeting_from_template Sample.any_schema "T1" templated
                                    "2026-04-01" 1 = Ok (Some 2, d')
       /\ sections d'
          = [Sample.section_1;
             mk_section 2 2 "Engineering" "Alice" 2 0 "agenda" None (Some 1) (Some 1);
             mk_section 3 2 "Shoutouts" "" 5 1 "kudos" None (Some 2) None].
Proof.
  assert (H1 : In (mk_meeting_template 1 "Weekly") (meeting_templates templated))
    by (now left).
  assert (H2 : forall m, In m (meetings templated) -> m_date m <> "2026-04-01").
  { simpl. intros m [<-|[]]. discriminate. }
  assert (H3 : NoDup (map d_id (departments templated))).
  { simpl. repeat constructor; simpl; intuition lia. }
  split; [exact H1 | split; [exact H2 | split; [exact H3 |]]].
  destruct (create_meeting_from_template_sections Sample.any_schema "T1"
              templated "2026-04-01" 1 _ H1 eq_refl H2 H3)
    as [d' [tss [new [Hr [_ [Hs [Hperm [Hsorted Hy]]]]]]]].
  exists d'. split; [exact Hr|].
  assert (Htss : tss = [mk_template_section 1 3 0 "old notes";
                        mk_template_section 1 1 2 "agenda";
                        mk_template_section 1 9 3 "gone";
                        mk_template_section 1 2 5 "kudos"]).
  { apply (sorted_permutation_unique ts_sort_order); [exact Hsorted | | |].
    - repeat constructor; simpl; lia.
    - rewrite Hperm. simpl.
      exact (Permutation_sym
               (order_by_perm ts_sort_order
                  [mk_template_section 1 2 5 "kudos";
                   mk_template_section 1 3 0 "old notes";
                   mk_template_section 1 1 2 "agenda";
                   mk_template_section 1 9 3 "gone"])).
    - simpl. repeat constructor; simpl; intuition lia. }
  rewrite Hs.
  rewrite (template_yields_rows templated _ H3
             (sample_primary_unique templated eq_refl eq_refl) _ _ _ Hy).
  rewrite Htss. reflexivity.
Defined.

(** On [Sample.seeded] the template lists an archived department, then
    Engineering, then a department that does not exist; only Engineering gets
    a section. *)
Example create_meeting_from_template_sample :
  exists d',
    create_meeting_from_template Sample.any_schema "T1" Sample.seeded "2026-04-01" 1
    = Ok (Some 1, d')
    /\ sections d'
       = [mk_section 1 1 "Engineering" "Alice" 1 0 "agenda" None (Some 1) (Some 1)].
Proof. eexists. split; [vm_compute; reflexivity | reflexivity]. Qed.

(** ** [copy_from] that names no earlier meeting *)

Lemma find_app_none {A : Type} (f : A -> bool) (l : list A) (x : A) :
  find f l = None -> f x = false -> find f (l ++ [x]) = None.
Proof.
  intros Hl Hx. apply find_all_false. intros y Hy.
  apply in_app_or in Hy. destruct Hy as [Hy|[<-|[]]]; [|assumption].
  exact (find_none _ _ Hl y Hy).
Qed.

(** A [copy_from] date that differs from the new date and has no meeting
    makes no difference: the call is the blank creation. *)
Lemma create_meeting_copy_from_unknown (sc : schema) (now : string) (d : db)
    (meeting_date copy_from : string) :
  get_meeting_by_date d copy_from = None ->
  copy_from <> meeting_date ->
  create_meeting sc now d meeting_date (Some copy_from)
  = create_meeting sc now d meeting_date None.
Proof.
  intros Hnone Hne. unfold create_meeting. f_equal.
  unfold create_meeting_try, insert_meeting.
  destruct (existsb _ (meetings d)); [reflexivity|].
  cbn [fk_ok negb bind snd].
  set (mid := next_rowid (seq_meeting d) (map m_id (meetings d))).
  set (m := mk_meeting mid meeting_date now default_status None None None).
  set (d1 := set_meeting_rows (meetings d ++ [m]) mid d).
  destruct (get_meeting_by_date d1 meeting_date) as [mtg|]; [|reflexivity].
  destruct (nonempty_string copy_from); [|reflexivity].
  replace (get_meeting_by_date d1 copy_from) with (@None meeting); [reflexivity|].
  symmetry. unfold get_meeting_by_date, d1. simpl.
  apply find_app_none; [exact Hnone|].
  simpl. apply String.eqb_neq. congruence.
Qed.

(** With [copy_from] equal to the new date, the lookup of the source meeting
    runs after the new meeting is inserted and finds that meeting itself,
    which has no section yet: the meeting is created with no section. *)
Lemma create_meeting_copy_from_own_date (sc : schema) (now : string) (d : db)
    (meeting_date : string) :
  get_meeting_by_date d meeting_date = None ->
  meeting_date <> "" ->
  (forall s, In s (sections d) -> has_meeting d (s_meeting_id s) = true) ->
  exists d',
    create_meeting sc now d meeting_date (Some meeting_date)
    = Ok (Some (next_rowid (seq_meeting d) (map m_id (meetings d))), d')
    /\ sections d' = sections d.
Proof.
  intros Hfresh Hne Hfk.
  destruct (insert_meeting_fresh sc d meeting_date now None Hfresh eq_refl)
    as [Hins [Hget _]].
  set (mid := next_rowid (seq_meeting d) (map m_id (meetings d))) in *.
  set (m := mk_meeting mid meeting_date now default_status None None None) in *.
  set (d1 := set_meeting_rows (meetings d ++ [m]) mid d) in *.
  exists d1. split; [|reflexivity].
  unfold create_meeting, create_meeting_try.
  rewrite Hins. cbn [bind snd]. rewrite Hget. cbv zeta.
  replace (nonempty_string meeting_date) with true
    by (symmetry; apply negb_true_iff, String.eqb_neq; exact Hne).
  change (m_id m) with mid.
  replace (get_sections d1 mid) with (@nil section); [reflexivity|].
  unfold get_sections. change (sections d1) with (sections d).
  replace (filter (fun s => s_meeting_id s =? mid) (sections d)) with (@nil section);
    [reflexivity|].
  symmetry. induction (sections d) as [|s l IH]; simpl; [reflexivity|].
  assert (Hs : s_meeting_id s <> mid).
  { specialize (Hfk s (or_introl eq_refl)). unfold has_meeting in Hfk.
    apply existsb_exists in Hfk. destruct Hfk as [x [Hx Heq]].
    apply Z.eqb_eq in Heq. intros Hmid.
    apply (next_rowid_not_in (seq_meeting d) (map m_id (meetings d))).
    fold mid. rewrite <- Hmid, <- Heq. now apply in_map. }
  rewrite (proj2 (Z.eqb_neq _ _) Hs). apply IH.
  intros x Hx. apply Hfk. now right.
Qed.

(** C10, at the input where the code departs from it.  The date 2026-03-01
    has no meeting, so as [copy_from] it matches no existing meeting; still
    [create_meeting "2026-03-01" copy_from="2026-03-01"] creates the meeting
    with no section at all, where the blank creation on the same database
    builds the Engineering and Shoutouts sections. *)
Theorem create_meeting_copy_from_own_date_sample :
  get_meeting_by_date Sample.seeded "2026-03-01" = None
  /\ (exists d',
        create_meeting Sample.any_schema "T1" Sample.seeded "2026-03-01"
                       (Some "2026-03-01") = Ok (Some 1, d')
        /\ sections d' = [])
  /\ (exists d',
        create_meeting Sample.any_schema "T1" Sample.seeded "2026-03-01" None
        = Ok (Some 1, d')
        /\ map s_name (sections d') = ["Engineering"; "Shoutouts"]).
Proof.
  split; [reflexivity|].
  split; eexists; (split; [vm_compute; reflexivity | reflexivity]).
Qed.

(** * Further properties *)

(** ** Locking and unlocking *)

Lemma get_meeting_update_same (d : db) (id : Z) (status : string)
    (locked_by : option Z) (locked_at : option string) (m : meeting) :
  get_meeting d id = Some m ->
  get_meeting (update_meeting_lock d id status locked_by locked_at) id
  = Some (set_lock status locked_by locked_at m).
Proof.
  unfold get_meeting, update_meeting_lock. simpl.
  induction (meetings d) as [|a l IH]; simpl; [discriminate|].
  destruct (m_id a =? id) eqn:Ha; simpl; rewrite Ha; [now intros [= ->] | exact IH].
Qed.

Lemma get_meeting_update_other (d : db) (id id' : Z) (status : string)
    (locked_by : option Z) (locked_at : option string) :
  id' <> id ->
  get_meeting (update_meeting_lock d id status locked_by locked_at) id'
  = get_meeting d id'.
Proof.
  intros Hne. unfold get_meeting, update_meeting_lock. simpl.
  induction (meetings d) as [|a l IH]; simpl; [reflexivity|].
  destruct (Z.eqb_spec (m_id a) id) as [Ha|Ha]; simpl.
  - replace (m_id a =? id') with false by (symmetry; apply Z.eqb_neq; lia).
    exact IH.
  - now rewrite IH.
Qed.

Lemma can_edit_section_ext (d d' : db) (u : user) (s : section) :
  is_meeting_locked d' (s_meeting_id s) = is_meeting_locked d (s_meeting_id s) ->
  department_reporters d' = department_reporters d ->
  can_edit_section d' u s = can_edit_section d u s.
Proof.
  intros Hl Hr. unfold can_edit_section, is_reporter. now rewrite Hl, Hr.
Qed.

(** X1. Locking an existing meeting that is not locked returns [True] and
    records the locker and the time; from then on no user, admin included,
    may edit any section of that meeting, while the other meetings, the
    sections and the todos are untouched. *)
Theorem lock_meeting_denies_edits :
  forall (fk : bool) (now : string) (d : db) (meeting_id user_id : Z) (m : meeting),
    get_meeting d meeting_id = Some m ->
    m_status m <> "locked" ->
    fk_ok fk (has_user d) (Some user_id) = true ->
    exists d',
      lock_meeting fk now d meeting_id user_id = Ok (true, d')
      /\ get_meeting d' meeting_id
         = Some (mk_meeting (m_id m) (m_date m) (m_created_at m) "locked"
                            (Some user_id) (Some now) (m_template_id m))
      /\ (forall u s, s_meeting_id s = meeting_id -> can_edit_section d' u s = false)
      /\ (forall id, id <> meeting_id -> get_meeting d' id = get_meeting d id)
      /\ sections d' = sections d
      /\ todos d' = todos d.
Proof.
  intros fk now d meeting_id user_id m Hm Hst Hfk.
  exists (update_meeting_lock d meeting_id "locked" (Some user_id) (Some now)).
  split.
  { unfold lock_meeting. rewrite Hm, (proj2 (String.eqb_neq _ _) Hst), Hfk.
    reflexivity. }
  pose proof (get_meeting_update_same d meeting_id "locked" (Some user_id)
                (Some now) m Hm) as Hget.
  split; [exact Hget|]. split.
  { intros u s Hs. unfold can_edit_section, is_meeting_locked.
    rewrite Hs, Hget. reflexivity. }
  split; [intros id Hid; now apply get_meeting_update_other|].
  split; reflexivity.
Qed.

Lemma lock_meeting_denies_edits_witness :
  get_meeting Sample.running 1
  = Some (mk_meeting 1 "2026-03-01" "2026-03-01T08:00:00" "open" None None None)
  /\ fk_ok true (has_user Sample.running) (Some 3) = true
  /\ exists d',
       lock_meeting true "T1" Sample.running 1 3 = Ok (true, d')
       /\ can_edit_section d' Sample.root Sample.section_1 = false
       /\ can_edit_section Sample.running Sample.root Sample.section_1 = true.
Proof.
  assert (H1 : get_meeting Sample.running 1
               = Some (mk_meeting 1 "2026-03-01" "2026-03-01T08:00:00" "open"
                                  None None None)) by reflexivity.
  assert (H2 : m_status (mk_meeting 1 "2026-03-01" "2026-03-01T08:00:00" "open"
                                    None None None) <> "locked")
    by (simpl; discriminate).
  assert (H3 : fk_ok true (has_user Sample.running) (Some 3) = true) by reflexivity.
  split; [exact H1 | split; [exact H3 |]].
  destruct (lock_meeting_denies_edits true "T1" Sample.running 1 3 _ H1 H2 H3)
    as [d' [Hr [_ [Hedit _]]]].
  exists d'. split; [exact Hr | split; [|reflexivity]].
  apply Hedit. reflexivity.
Defined.

(** X2. Locking is idempotent and keeps the first locker: once a meeting has
    been locked, a second [lock_meeting], by whoever and whenever, returns
    [True] and changes nothing, so [locked_by] and [locked_at] still name the
    first call. *)
Theorem lock_meeting_twice_keeps_first :
  forall (fk fk' : bool) (now now' : string) (d d1 : db)
         (meeting_id user_id user_id' : Z),
    lock_meeting fk now d meeting_id user_id = Ok (true, d1) ->
    lock_meeting fk' now' d1 meeting_id user_id' = Ok (true, d1).
Proof.
  intros fk fk' now now' d d1 meeting_id user_id user_id' H.
  unfold lock_meeting in H.
  destruct (get_meeting d meeting_id) as [m|] eqn:Hm; [|discriminate].
  destruct (String.eqb (m_status m) "locked") eqn:Hst.
  - injection H as <-. unfold lock_meeting. now rewrite Hm, Hst.
  - destruct (fk_ok fk (has_user d) (Some user_id)); [|discriminate].
    injection H as <-. unfold lock_meeting.
    rewrite (get_meeting_update_same d meeting_id _ _ _ m Hm). reflexivity.
Qed.

Lemma lock_meeting_twice_keeps_first_witness :
  exists d1,
    lock_meeting true "T1" Sample.running 1 3 = Ok (true, d1)
    /\ lock_meeting true "T2" d1 1 1 = Ok (true, d1)
    /\ option_map m_locked_by (get_meeting d1 1) = Some (Some 3).
Proof.
  eexists. split; [reflexivity|]. split; [|reflexivity].
  exact (lock_meeting_twice_keeps_first true true "T1" "T2" Sample.running _ 1 3 1
           eq_refl).
Defined.

(** [lock_meeting] returns [False] exactly when no meeting has the id,
    and then the database is the one it was given. *)
Theorem lock_meeting_false_iff_missing :
  forall (fk : bool) (now : string) (d d' : db) (meeting_id user_id : Z),
    lock_meeting fk now d meeting_id user_id = Ok (false, d') <->
    get_meeting d meeting_id = None /\ d' = d.
Proof.
  intros fk now d d' meeting_id user_id. unfold lock_meeting.
  destruct (get_meeting d meeting_id) as [m|].
  - split; [|intros [H _]; discriminate].
    destruct (String.eqb (m_status m) "locked"); [discriminate|].
    destruct (fk_ok fk (has_user d) (Some user_id)); discriminate.
  - split; [intros [= <-]; auto | intros [_ ->]; reflexivity].
Qed.

Lemma update_meeting_lock_undo (d : db) (id : Z) (status : string)
    (locked_by : option Z) (locked_at : option string) (m : meeting) :
  NoDup (map m_id (meetings d)) ->
  get_meeting d id = Some m ->
  update_meeting_lock (update_meeting_lock d id status locked_by locked_at) id
                      (m_status m) (m_locked_by m) (m_locked_at m) = d.
Proof.
  intros Hnd Hm. unfold update_meeting_lock, set_meeting_rows, get_meeting in *.
  destruct d; simpl in *.
  f_equal. rewrite map_map. rewrite <- (map_id meetings0) at 2.
  apply map_ext_in. intros r Hr.
  destruct (Z.eqb_spec (m_id r) id) as [Hid|Hid]; simpl.
  - rewrite (proj2 (Z.eqb_eq _ _) Hid).
    assert (r = m) as ->.
    { clear - Hnd Hm Hr Hid.
      induction meetings0 as [|a l IH]; simpl in *; [contradiction|].
      inversion Hnd as [|? ? Hnotin Hnd']; subst.
      destruct (Z.eqb_spec (m_id a) (m_id r)) as [Heq|Hne].
      - injection Hm as <-. destruct Hr as [->|Hr]; [reflexivity|].
        elim Hnotin. rewrite Heq. now apply in_map.
      - destruct Hr as [->|Hr]; [congruence | auto]. }
    now destruct m.
  - now rewrite (proj2 (Z.eqb_neq _ _) Hid).
Qed.

(** X3. Unlocking undoes locking: for a meeting that is open and was never
    locked ([locked_by] and [locked_at] are [NULL]), [lock_meeting] followed
    by [unlock_meeting] gives back the database exactly.  [meeting.id] is the
    primary key. *)
Theorem lock_then_unlock_restores :
  forall (fk : bool) (now : string) (d d1 : db) (meeting_id user_id : Z) (m : meeting),
    NoDup (map m_id (meetings d)) ->
    get_meeting d meeting_id = Some m ->
    m_status m = "open" ->
    m_locked_by m = None ->
    m_locked_at m = None ->
    lock_meeting fk now d meeting_id user_id = Ok (true, d1) ->
    unlock_meeting d1 meeting_id = (true, d).
Proof.
  intros fk now d d1 meeting_id user_id m Hnd Hm Hst Hby Hat Hlock.
  unfold lock_meeting in Hlock. rewrite Hm, Hst in Hlock. simpl in Hlock.
  destruct (negb fk || has_user d user_id); [|discriminate].
  injection Hlock as <-. unfold unlock_meeting.
  rewrite (get_meeting_update_same d meeting_id _ _ _ m Hm).
  f_equal. rewrite <- Hst, <- Hby, <- Hat at 1.
  rewrite Hst at 1. rewrite <- Hst.
  now apply update_meeting_lock_undo.
Qed.

Lemma lock_then_unlock_restores_witness :
  exists d1,
    NoDup (map m_id (meetings Sample.running))
    /\ lock_meeting true "T1" Sample.running 1 3 = Ok (true, d1)
    /\ is_meeting_locked d1 1 = true
    /\ unlock_meeting d1 1 = (true, Sample.running).
Proof.
  assert (H0 : NoDup (map m_id (meetings Sample.running))).
  { simpl. repeat constructor; simpl; intuition lia. }
  eexists. split; [exact H0|]. split; [reflexivity|]. split; [reflexivity|].
  exact (lock_then_unlock_restores true "T1" Sample.running _ 1 3
           (mk_meeting 1 "2026-03-01" "2026-03-01T08:00:00" "open" None None None)
           H0 eq_refl eq_refl eq_refl eq_refl eq_refl).
Defined.

(** X4. Unlocking an existing meeting returns [True], sets it to [open] with
    no locker, whatever its state was; an admin may then edit each of its
    sections again, and the other meetings are untouched. *)
Theorem unlock_meeting_reopens :
  forall (d : db) (meeting_id : Z) (m : meeting),
    get_meeting d meeting_id = Some m ->
    exists d',
      unlock_meeting d meeting_id = (true, d')
      /\ get_meeting d' meeting_id
         = Some (mk_meeting (m_id m) (m_date m) (m_created_at m) "open" None None
                            (m_template_id m))
      /\ is_meeting_locked d' meeting_id = false
      /\ (forall u s, s_meeting_id s = meeting_id -> u_role u = "admin" ->
                      can_edit_section d' u s = true)
      /\ (forall id, id <> meeting_id -> get_meeting d' id = get_meeting d id)
      /\ sections d' = sections d.
Proof.
  intros d meeting_id m Hm.
  exists (update_meeting_lock d meeting_id "open" None None).
  pose proof (get_meeting_update_same d meeting_id "open" None None m Hm) as Hget.
  assert (Hl : is_meeting_locked (update_meeting_lock d meeting_id "open" None None)
                                 meeting_id = false).
  { unfold is_meeting_locked. now rewrite Hget. }
  split; [unfold unlock_meeting; now rewrite Hm|].
  split; [exact Hget|]. split; [exact Hl|]. split.
  { intros u s Hs Hrole. unfold can_edit_section.
    now rewrite Hs, Hl, Hrole. }
  split; [intros id Hid; now apply get_meeting_update_other | reflexivity].
Qed.

Lemma unlock_meeting_reopens_witness :
  get_meeting Sample.running 2
  = Some (mk_meeting 2 "2026-03-08" "2026-03-08T08:00:00" "open" None None None)
  /\ exists d', unlock_meeting Sample.running 2 = (true, d')
                /\ is_meeting_locked d' 2 = false.
Proof.
  assert (H : get_meeting Sample.running 2
              = Some (mk_meeting 2 "2026-03-08" "2026-03-08T08:00:00" "open"
                                 None None None)) by reflexivity.
  split; [exact H|].
  destruct (unlock_meeting_reopens Sample.running 2 _ H) as [d' [Hr [_ [Hl _]]]].
  exists d'. split; [exact Hr | exact Hl].
Defined.

(** ** Reordering departments *)

Lemma reorder_rows_spec (dept_ids : list Z) :
  forall i rows,
    reorder_rows i dept_ids rows
    = map (fun x => match last_position i (d_id x) dept_ids with
                    | Some n => set_sort_order n x
                    | None => x
                    end) rows.
Proof.
  induction dept_ids as [|y rest IH]; intros i rows; simpl.
  - now rewrite map_id.
  - rewrite IH, map_map. apply map_ext. intros x.
    destruct (Z.eqb_spec (d_id x) y) as [Hy|Hy]; simpl.
    + destruct (last_position (i + 1) (d_id x) rest); [reflexivity|].
      now rewrite (proj2 (Z.eqb_eq _ _) (eq_sym Hy)).
    + destruct (last_position (i + 1) (d_id x) rest); [reflexivity|].
      now replace (y =? d_id x) with false by (symmetry; apply Z.eqb_neq; lia).
Qed.

Lemma last_position_not_in (dept_ids : list Z) (dept_id : Z) :
  forall i, ~ In dept_id dept_ids -> last_position i dept_id dept_ids = None.
Proof.
  induction dept_ids as [|y rest IH]; intros i Hnot; simpl; [reflexivity|].
  rewrite IH by (intros H; apply Hnot; now right).
  replace (y =? dept_id) with false; [reflexivity|].
  symmetry. apply Z.eqb_neq. intros ->. apply Hnot. now left.
Qed.

Lemma last_position_nth (dept_ids : list Z) (dept_id : Z) :
  NoDup dept_ids ->
  forall n i, nth_error dept_ids n = Some dept_id ->
              last_position i dept_id dept_ids = Some (i + Z.of_nat n).
Proof.
  induction dept_ids as [|y rest IH]; intros Hnd n i Hn.
  - destruct n; discriminate.
  - inversion Hnd as [|? ? Hnotin Hnd']; subst. destruct n as [|n]; simpl in *.
    + injection Hn as ->.
      rewrite (last_position_not_in rest dept_id (i + 1) Hnotin), Z.eqb_refl.
      f_equal. lia.
    + rewrite (IH Hnd' n (i + 1) Hn). f_equal. lia.
Qed.

Lemma get_department_map (f : department -> department) (l : list department)
    (dept_id : Z) :
  (forall x, d_id (f x) = d_id x) ->
  find (fun x => d_id x =? dept_id) (map f l)
  = option_map f (find (fun x => d_id x =? dept_id) l).
Proof.
  intros Hf. induction l as [|a l IH]; simpl; [reflexivity|].
  rewrite Hf. destruct (d_id a =? dept_id); [reflexivity | exact IH].
Qed.

(** X5. [reorder_departments] with a duplicate-free list gives the
    department listed at position [n] the sort order [n] and changes nothing
    else of it; a department that is not listed is left as it was; no
    department is added or removed. *)
Theorem reorder_departments_positions :
  forall (d : db) (dept_ids : list Z),
    NoDup dept_ids ->
    let d' := reorder_departments d dept_ids in
    (forall n dept_id x,
        nth_error dept_ids n = Some dept_id ->
        get_department d dept_id = Some x ->
        get_department d' dept_id
        = Some (mk_department (d_id x) (d_name x) (Z.of_nat n) (d_is_special x)
                              (d_is_archived x)))
    /\ (forall dept_id, ~ In dept_id dept_ids ->
                        get_department d' dept_id = get_department d dept_id)
    /\ map d_id (departments d') = map d_id (departments d)
    /\ sections d' = sections d.
Proof.
  intros d dept_ids Hnd d'.
  assert (Hrows : departments d'
                  = map (fun x => match last_position 0 (d_id x) dept_ids with
                                  | Some n => set_sort_order n x
                                  | None => x
                                  end) (departments d)).
  { unfold d', reorder_departments. simpl. apply reorder_rows_spec. }
  assert (Hid : forall x,
             d_id (match last_position 0 (d_id x) dept_ids with
                   | Some n => set_sort_order n x
                   | None => x
                   end) = d_id x).
  { intros x. now destruct (last_position 0 (d_id x) dept_ids). }
  split; [|split; [|split]].
  - intros n dept_id x Hn Hx. unfold get_department in *.
    rewrite Hrows, get_department_map, Hx by exact Hid. simpl.
    apply find_some in Hx. destruct Hx as [_ Hx]. apply Z.eqb_eq in Hx.
    subst dept_id.
    rewrite (last_position_nth dept_ids (d_id x) Hnd n 0 Hn). reflexivity.
  - intros dept_id Hnot. unfold get_department.
    rewrite Hrows, get_department_map by exact Hid.
    destruct (find _ (departments d)) as [x|] eqn:Hx; [|reflexivity]. simpl.
    apply find_some in Hx. destruct Hx as [_ Hx]. apply Z.eqb_eq in Hx.
    subst dept_id.
    now rewrite (last_position_not_in dept_ids (d_id x) 0 Hnot).
  - rewrite Hrows, map_map. apply map_ext. exact Hid.
  - reflexivity.
Qed.

Lemma reorder_departments_positions_witness :
  NoDup [2; 3; 1]
  /\ map (fun x => (d_name x, d_sort_order x))
         (departments (reorder_departments Sample.seeded [2; 3; 1]))
     = [("Engineering", 2); ("Shoutouts", 0); ("Legacy", 1)]
  /\ get_department (reorder_departments Sample.seeded [2; 3; 1]) 3
     = Some (mk_department 3 "Legacy" 1 0 1).
Proof.
  assert (H : NoDup [2; 3; 1]) by (repeat constructor; simpl; intuition lia).
  split; [exact H | split; [reflexivity|]].
  exact (proj1 (reorder_departments_positions Sample.seeded [2; 3; 1] H)
           1%nat 3 Sample.legacy eq_refl eq_refl).
Defined.


(** ** Deleting todos *)

Lemma find_filter_other {A : Type} (f g : A -> bool) (l : list A) :
  (forall x, f x = true -> g x = true) ->
  find f (filter g l) = find f l.
Proof.
  intros H. induction l as [|a l IH]; simpl; [reflexivity|].
  destruct (g a) eqn:Hg; simpl.
  - destruct (f a); [reflexivity | exact IH].
  - destruct (f a) eqn:Hf; [|exact IH].
    rewrite (H a Hf) in Hg. discriminate.
Qed.

(** X7. [delete_todo] removes the todo and nothing else from the tables: the
    id is no longer found, every other todo is found as before, and sections
    and meetings are untouched.  From the search index it removes exactly the
    [todo] rows whose [source_id] is the text [str(todo_id)], the rows that
    [_update_todo_index] writes.  Every other row is kept: the rows of other
    ids, and also a row that holds an id as an integer, as
    [rebuild_search_index] writes it. *)
Theorem delete_todo_removes_only_it :
  forall (d : db) (todo_id : Z),
    let d' := delete_todo d todo_id in
    get_todo d' todo_id = None
    /\ (forall id, id <> todo_id -> get_todo d' id = get_todo d id)
    /\ (forall r, In r (search_index d') <->
                  In r (search_index d)
                  /\ ~ (si_type r = "todo" /\ si_source_id r = SqlText (str todo_id)))
    /\ (forall r n, In r (search_index d) -> si_source_id r = SqlInteger n ->
                    In r (search_index d'))
    /\ (forall r id, In r (search_index d) -> si_source_id r = SqlText (str id) ->
                     id <> todo_id -> In r (search_index d'))
    /\ sections d' = sections d
    /\ meetings d' = meetings d.
Proof.
  intros d todo_id d'.
  assert (Hidx : forall r, In r (search_index d') <->
                           In r (search_index d)
                           /\ ~ (si_type r = "todo"
                                 /\ si_source_id r = SqlText (str todo_id))).
  { intros r. unfold d', delete_todo. simpl. rewrite filter_In.
    rewrite negb_true_iff, andb_false_iff, <- !not_true_iff_false.
    rewrite String.eqb_eq, sql_eqb_eq.
    destruct (String.eqb_spec (si_type r) "todo") as [Ht|Ht]; intuition congruence. }
  split; [|split; [|split; [exact Hidx|split; [|split; [|split; reflexivity]]]]].
  - unfold d', delete_todo, get_todo. simpl. apply find_all_false.
    intros x Hx. apply filter_In in Hx. destruct Hx as [_ Hx].
    now apply negb_true_iff in Hx.
  - intros id Hne. unfold d', delete_todo, get_todo. simpl.
    apply find_filter_other. intros x Hx. apply Z.eqb_eq in Hx.
    apply negb_true_iff, Z.eqb_neq. lia.
  - intros r n Hr Hn. apply Hidx. split; [exact Hr|].
    intros [_ H]. congruence.
  - intros r id Hr Hid Hne. apply Hidx. split; [exact Hr|].
    intros [_ H]. rewrite Hid in H. injection H as H. apply str_inj in H. contradiction.
Qed.

(** A todo indexed by [rebuild_search_index] keeps its index row when it is
    deleted. *)
Example delete_todo_after_rebuild_sample :
  search_index (rebuild_search_index Sample.running)
  = [mk_search_row "todo" (SqlInteger 1) (SqlInteger 1) "2026-03-01" "Engineering"
                   "Alice" "Ship v2"]
  /\ get_todo (delete_todo (rebuild_search_index Sample.running) 1) 1 = None
  /\ search_index (delete_todo (rebuild_search_index Sample.running) 1)
     = search_index (rebuild_search_index Sample.running).
Proof. repeat split. Qed.

(** X8. A todo id is not handed out twice: in a database whose todo ids are
    at most the recorded sequence value, as [AUTOINCREMENT] keeps them, the id
    of the next inserted todo after [delete_todo] is larger than the deleted
    id, even when the deleted todo was the last one. *)
Theorem deleted_todo_id_not_reused :
  forall (sc : schema) (d d' : db) (todo_id new_id section_id : Z) (t : todo)
         (text : string) (assigned_to : option Z) (due_date : option string)
         (priority : string) (created_by : option Z) (created_at : string),
    get_todo d todo_id = Some t ->
    (forall x, In x (todos d) -> t_id x <= seq_todo d) ->
    insert_todo sc (delete_todo d todo_id) section_id text assigned_to due_date
                priority created_by created_at = Ok (new_id, d') ->
    todo_id < new_id.
Proof.
  intros sc d d' todo_id new_id section_id t text assigned_to due_date priority
         created_by created_at Ht Hseq Hins.
  unfold insert_todo in Hins. destruct (_ && _); [|discriminate].
  injection Hins as <- _. simpl.
  apply find_some in Ht. destruct Ht as [Hin Hid]. apply Z.eqb_eq in Hid.
  specialize (Hseq t Hin). unfold next_rowid.
  pose proof (fold_max_lower (Z.max 0 (seq_todo d))
                (map t_id (filter (fun t0 => negb (t_id t0 =? todo_id)) (todos d)))).
  lia.
Qed.

Lemma deleted_todo_id_not_reused_witness :
  get_todo Sample.running 1 = Some Sample.todo_1
  /\ (forall x, In x (todos Sample.running) -> t_id x <= seq_todo Sample.running)
  /\ todos (delete_todo Sample.running 1) = []
  /\ exists d',
       insert_todo Sample.any_schema (delete_todo Sample.running 1) 1 "Next" None
                   None "normal" None "T1" = Ok (2, d')
       /\ 1 < 2.
Proof.
  assert (H1 : get_todo Sample.running 1 = Some Sample.todo_1) by reflexivity.
  assert (H2 : forall x, In x (todos Sample.running) ->
                         t_id x <= seq_todo Sample.running).
  { simpl. intros x [<-|[]]. simpl. lia. }
  split; [exact H1 | split; [exact H2 | split; [reflexivity|]]].
  eexists. split; [reflexivity|].
  exact (deleted_todo_id_not_reused Sample.any_schema Sample.running _ 1 2 1
           Sample.todo_1 "Next" None None "normal" None "T1" H1 H2 eq_refl).
Defined.

(** ** Editing a section *)

Lemma get_section_map_same (l : list section) (id : Z) (f : section -> section)
    (s : section) :
  (forall x, s_id (f x) = s_id x) ->
  find (fun x => s_id x =? id) l = Some s ->
  find (fun x => s_id x =? id) (map (fun x => if s_id x =? id then f x else x) l)
  = Some (f s).
Proof.
  intros Hf. induction l as [|a l IH]; simpl; [discriminate|].
  destruct (s_id a =? id) eqn:Ha; simpl.
  - rewrite Hf, Ha. now intros [= ->].
  - rewrite Ha. exact IH.
Qed.

Lemma get_section_map_other (l : list section) (id id' : Z) (f : section -> section) :
  (forall x, s_id (f x) = s_id x) ->
  id' <> id ->
  find (fun x => s_id x =? id') (map (fun x => if s_id x =? id then f x else x) l)
  = find (fun x => s_id x =? id') l.
Proof.
  intros Hf Hne. induction l as [|a l IH]; simpl; [reflexivity|].
  destruct (Z.eqb_spec (s_id a) id) as [Ha|Ha]; simpl.
  - rewrite Hf. replace (s_id a =? id') with false by (symmetry; apply Z.eqb_neq; lia).
    exact IH.
  - now rewrite IH.
Qed.

Lemma sections_update_section_index (d : db) (section_id : Z) :
  sections (_update_section_index d section_id) = sections d
  /\ meetings (_update_section_index d section_id) = meetings d
  /\ todos (_update_section_index d section_id) = todos d.
Proof.
  unfold _update_section_index.
  repeat match goal with
         | |- context [match ?x with _ => _ end] => destruct x
         end; auto.
Qed.

Lemma filter_neg_none {A : Type} (p : A -> bool) (l : list A) :
  filter p (filter (fun x => negb (p x)) l) = [].
Proof.
  induction l as [|a l IH]; simpl; [reflexivity|].
  destruct (p a) eqn:Hp; simpl; [exact IH | now rewrite Hp].
Qed.

Lemma filter_idem {A : Type} (p : A -> bool) (l : list A) :
  filter p (filter p l) = filter p l.
Proof.
  induction l as [|a l IH]; simpl; [reflexivity|].
  destruct (p a) eqn:Hp; simpl; [rewrite Hp; now f_equal | exact IH].
Qed.

(** X9. [update_section] stores the new content and the time of the call in
    the section with that id and keeps its other columns, among them the
    reporter snapshot, the department and the sort order; every other section
    is found as before, and meetings and todos are untouched. *)
Theorem update_section_sets_content :
  forall (now : string) (d : db) (section_id : Z) (content : string) (s : section),
    get_section d section_id = Some s ->
    let d' := update_section now d section_id content in
    get_section d' section_id
    = Some (mk_section (s_id s) (s_meeting_id s) (s_name s) (s_reporter s)
                       (s_sort_order s) (s_is_special s) content (Some now)
                       (s_department_id s) (s_reporter_id s))
    /\ (forall id, id <> section_id -> get_section d' id = get_section d id)
    /\ meetings d' = meetings d
    /\ todos d' = todos d.
Proof.
  intros now d section_id content s Hs d'.
  unfold d', update_section.
  set (d1 := set_section_rows _ (seq_section d) d).
  destruct (sections_update_section_index d1 section_id) as [Hsec [Hm Ht]].
  unfold get_section. rewrite Hsec, Hm, Ht.
  split; [|split; [|split; reflexivity]].
  - unfold d1. simpl.
    apply (get_section_map_same (sections d) section_id
             (set_content content (Some now)) s); [reflexivity | exact Hs].
  - intros id Hne. unfold d1. simpl.
    apply (get_section_map_other (sections d) section_id id
             (set_content content (Some now))); [reflexivity | exact Hne].
Qed.

Lemma update_section_sets_content_witness :
  get_section Sample.running 1 = Some Sample.section_1
  /\ get_section (update_section "T1" Sample.running 1 "Shipped v2") 1
     = Some (mk_section 1 1 "Engineering" "Alice" 0 0 "Shipped v2" (Some "T1")
                        (Some 1) (Some 1)).
Proof.
  assert (H : get_section Sample.running 1 = Some Sample.section_1) by reflexivity.
  split; [exact H|].
  exact (proj1 (update_section_sets_content "T1" Sample.running 1 "Shipped v2"
                  Sample.section_1 H)).
Defined.

(** X10. [update_section] rewrites the index rows of the section that are
    keyed by text: afterwards the [section] rows whose [source_id] is the text
    [str(section_id)] are exactly one row with the new content when the
    content is not empty, and none when it is empty.  Every other row is
    kept, among them a row that holds the section's id as an integer, as
    [rebuild_search_index] writes it: after a rebuild the earlier row of the
    section stays in the index beside the new one. *)
Theorem update_section_index_text_rows :
  forall (now : string) (d : db) (section_id : Z) (content : string)
         (s : section) (m : meeting),
    get_section d section_id = Some s ->
    get_meeting d (s_meeting_id s) = Some m ->
    let d' := update_section now d section_id content in
    let mine := fun r => String.eqb (si_type r) "section"
                         && sql_eqb (si_source_id r) (SqlText (str section_id)) in
    filter mine (search_index d')
    = (if String.eqb content "" then []
       else [mk_search_row "section" (SqlText (str section_id))
                           (SqlText (str (m_id m))) (m_date m) (s_name s)
                           (s_reporter s) content])
    /\ filter (fun r => negb (mine r)) (search_index d')
       = filter (fun r => negb (mine r)) (search_index d)
    /\ (forall r n, In r (search_index d) -> si_source_id r = SqlInteger n ->
                    In r (search_index d'))
    /\ (forall r id, In r (search_index d) -> si_source_id r = SqlText (str id) ->
                     id <> section_id -> In r (search_index d')).
Proof.
  intros now d section_id content s m Hs Hm d' mine.
  assert (Hparts :
            filter mine (search_index d')
            = (if String.eqb content "" then []
               else [mk_search_row "section" (SqlText (str section_id))
                                   (SqlText (str (m_id m))) (m_date m) (s_name s)
                                   (s_reporter s) content])
            /\ filter (fun r => negb (mine r)) (search_index d')
               = filter (fun r => negb (mine r)) (search_index d)).
  { unfold d', update_section.
    set (d1 := set_section_rows _ (seq_section d) d).
    assert (Hs1 : get_section d1 section_id = Some (set_content content (Some now) s)).
    { unfold get_section, d1. simpl.
      apply (get_section_map_same (sections d) section_id
               (set_content content (Some now)) s); [reflexivity | exact Hs]. }
    pose proof (filter_neg_none mine (search_index d)) as Hnone.
    pose proof (filter_idem (fun r => negb (mine r)) (search_index d)) as Hkeep.
    unfold mine in *. clear mine. cbv beta in Hnone, Hkeep.
    unfold _update_section_index.
    change (get_section (set_search_rows _ d1) section_id)
      with (get_section d1 section_id).
    rewrite Hs1. simpl s_content. simpl s_meeting_id.
    change (get_meeting (set_search_rows _ d1) (s_meeting_id s))
      with (get_meeting d (s_meeting_id s)).
    rewrite Hm. unfold nonempty_string.
    destruct (String.eqb content "") eqn:Hc; simpl negb; cbv iota.
    - split; [exact Hnone | exact Hkeep].
    - simpl search_index. rewrite !filter_app.
      rewrite Hnone, Hkeep. cbn [filter si_type si_source_id sql_eqb].
      rewrite !String.eqb_refl. simpl. split; [reflexivity | now rewrite app_nil_r]. }
  destruct Hparts as [Hmine Hrest].
  assert (Hkept : forall r, In r (search_index d) -> mine r = false ->
                            In r (search_index d')).
  { intros r Hr Hf.
    assert (H : In r (filter (fun r => negb (mine r)) (search_index d'))).
    { rewrite Hrest. apply filter_In. split; [exact Hr | now rewrite Hf]. }
    now apply filter_In in H. }
  split; [exact Hmine | split; [exact Hrest | split]].
  - intros r n Hr Hn. apply Hkept; [exact Hr|].
    unfold mine. rewrite Hn. simpl. apply andb_false_r.
  - intros r id Hr Hid Hne. apply Hkept; [exact Hr|].
    unfold mine. rewrite Hid. simpl.
    replace (String.eqb (str id) (str section_id)) with false; [apply andb_false_r|].
    symmetry. apply String.eqb_neq. intros H. apply str_inj in H. contradiction.
Qed.

Lemma update_section_index_text_rows_witness :
  get_section rebuilt_draft 1
  = Some (mk_section 1 1 "Engineering" "Alice" 0 0 "Draft" (Some "T1") (Some 1) (Some 1))
  /\ get_meeting rebuilt_draft 1
     = Some (mk_meeting 1 "2026-03-01" "2026-03-01T08:00:00" "open" None None None)
  /\ filter (fun r => String.eqb (si_type r) "section"
                      && sql_eqb (si_source_id r) (SqlText "1"))
            (search_index (update_section "T2" rebuilt_draft 1 "Final"))
     = [mk_search_row "section" (SqlText "1") (SqlText "1") "2026-03-01"
                      "Engineering" "Alice" "Final"]
  /\ In (mk_search_row "section" (SqlInteger 1) (SqlInteger 1) "2026-03-01"
                       "Engineering" "Alice" "Draft")
        (search_index (update_section "T2" rebuilt_draft 1 "Final")).
Proof.
  assert (H1 : get_section rebuilt_draft 1
               = Some (mk_section 1 1 "Engineering" "Alice" 0 0 "Draft" (Some "T1")
                                  (Some 1) (Some 1))) by reflexivity.
  assert (H2 : get_meeting rebuilt_draft 1
               = Some (mk_meeting 1 "2026-03-01" "2026-03-01T08:00:00" "open"
                                  None None None)) by reflexivity.
  split; [exact H1 | split; [exact H2 |]].
  destruct (update_section_index_text_rows "T2" rebuilt_draft 1 "Final" _ _ H1 H2)
    as [Hmine [_ [Hint _]]].
  split; [exact Hmine|].
  apply (Hint _ 1); [|reflexivity].
  left. reflexivity.
Defined.

(** What the witness leaves in the index: the row of the rebuild with the
    earlier content, the row of the todo, and the new row of the section. *)
Example update_section_after_rebuild_sample :
  search_index (update_section "T2" rebuilt_draft 1 "Final")
  = [mk_search_row "section" (SqlInteger 1) (SqlInteger 1) "2026-03-01"
                   "Engineering" "Alice" "Draft";
     mk_search_row "todo" (SqlInteger 1) (SqlInteger 1) "2026-03-01" "Engineering"
                   "Alice" "Ship v2";
     mk_search_row "section" (SqlText "1") (SqlText "1") "2026-03-01" "Engineering"
                   "Alice" "Final"].
Proof. reflexivity. Qed.

(** ** Saving a section through the route *)

Lemma lock_meeting_true_locked (fk : bool) (now : string) (d d1 : db)
    (meeting_id user_id : Z) :
  lock_meeting fk now d meeting_id user_id = Ok (true, d1) ->
  is_meeting_locked d1 meeting_id = true.
Proof.
  unfold lock_meeting.
  destruct (get_meeting d meeting_id) as [m|] eqn:Hm; [|discriminate].
  destruct (String.eqb (m_status m) "locked") eqn:Hst.
  - intros [= <-]. unfold is_meeting_locked. now rewrite Hm.
  - destruct (fk_ok fk (has_user d) (Some user_id)); [|discriminate].
    intros [= <-]. unfold is_meeting_locked.
    now rewrite (get_meeting_update_same d meeting_id _ _ _ m Hm).
Qed.

Lemma get_section_after_update (now : string) (d : db) (section_id : Z)
    (content : string) (s : section) :
  get_section d section_id = Some s ->
  get_section (update_section now d section_id content) section_id
  = Some (set_content content (Some now) s).
Proof.
  intros Hs. unfold update_section, get_section.
  rewrite (proj1 (sections_update_section_index _ section_id)). simpl.
  apply (get_section_map_same (sections d) section_id
           (set_content content (Some now)) s); [reflexivity | exact Hs].
Qed.

(** X11. Once [lock_meeting] has returned [True], the save route refuses
    every user, admin included, on every section of that meeting: it answers
    403 and the database stays as it is. *)
Theorem section_save_refused_after_lock :
  forall (fk : bool) (now now' : string) (d d1 : db) (meeting_id user_id : Z)
         (u : user) (section_id : Z) (content : string) (s : section),
    lock_meeting fk now d meeting_id user_id = Ok (true, d1) ->
    get_section d1 section_id = Some s ->
    s_meeting_id s = meeting_id ->
    section_save now' d1 u section_id content = (Aborted 403, d1).
Proof.
  intros fk now now' d d1 meeting_id user_id u section_id content s Hlock Hs Hm.
  apply lock_meeting_true_locked in Hlock.
  unfold section_save. rewrite Hs. unfold can_edit_section.
  now rewrite Hm, Hlock.
Qed.

Lemma section_save_refused_after_lock_witness :
  exists d1,
    lock_meeting true "T1" Sample.running 1 3 = Ok (true, d1)
    /\ get_section d1 1 = Some Sample.section_1
    /\ section_save "T2" d1 Sample.root 1 "late edit" = (Aborted 403, d1)
    /\ fst (section_save "T2" Sample.running Sample.root 1 "edit") = Rendered.
Proof.
  eexists. split; [reflexivity|]. split; [reflexivity|]. split; [|reflexivity].
  exact (section_save_refused_after_lock true "T1" "T2" Sample.running _ 1 3
           Sample.root 1 "late edit" Sample.section_1 eq_refl eq_refl eq_refl).
Defined.

(** X12. The save route writes only for a user who may edit: it renders
    exactly when the section exists and [can_edit_section] holds, and then the
    section carries the submitted content; in every other case it answers 404
    or 403 and returns the database it was given. *)
Theorem section_save_writes_iff_permitted :
  forall (now : string) (d d' : db) (u : user) (section_id : Z) (content : string)
         (r : response),
    section_save now d u section_id content = (r, d') ->
    (r = Rendered <->
       exists s, get_section d section_id = Some s /\ can_edit_section d u s = true)
    /\ (r = Rendered ->
        option_map s_content (get_section d' section_id) = Some content)
    /\ (r <> Rendered -> d' = d /\ (r = Aborted 404 \/ r = Aborted 403)).
Proof.
  intros now d d' u section_id content r. unfold section_save.
  destruct (get_section d section_id) as [s|] eqn:Hs.
  - destruct (can_edit_section d u s) eqn:Hc; simpl; intros [= <- <-].
    + split; [split; [intros _; now exists s | reflexivity]|].
      split; [|intros H; now elim H].
      intros _. now rewrite (get_section_after_update now d section_id content s Hs).
    + split; [split; [discriminate | intros [x [[= <-] Hx]]; congruence]|].
      split; [discriminate | auto].
  - intros [= <- <-].
    split; [split; [discriminate | intros [x [Hx _]]; discriminate]|].
    split; [discriminate | auto].
Qed.

Lemma section_save_writes_iff_permitted_witness :
  exists d',
    section_save "T1" Sample.running Sample.bob 1 "Bob was here" = (Rendered, d')
    /\ option_map s_content (get_section d' 1) = Some "Bob was here"
    /\ section_save "T1" Sample.running Sample.bob 2 "no" = (Aborted 403, Sample.running).
Proof.
  eexists. split; [reflexivity|]. split; [|reflexivity].
  exact (proj1 (proj2 (section_save_writes_iff_permitted "T1" Sample.running _
                         Sample.bob 1 "Bob was here" Rendered eq_refl))
           eq_refl).
Defined.



(** ** Fill status *)

Lemma blank_rows_shape (d : db) (meeting_id : Z) (row : Z -> section) (id : Z) :
  In row (blank_rows d meeting_id) ->
  s_meeting_id (row id) = meeting_id /\ s_content (row id) = "".
Proof.
  unfold blank_rows. destruct (list_departments d) as [|x l] eqn:Hl.
  - intros H. apply default_rows_in in H. destruct H as [j [entry ->]].
    now destruct entry as [[name reporter] is_special].
  - rewrite <- Hl. unfold department_rows. intros H.
    apply in_map_iff in H. destruct H as [dept [<- _]]. split; reflexivity.
Qed.

Lemma blank_rows_nonempty (d : db) (meeting_id : Z) : blank_rows d meeting_id <> [].
Proof.
  unfold blank_rows. destruct (list_departments d) as [|x l]; simpl; discriminate.
Qed.

Lemma filter_all_false {A : Type} (f : A -> bool) (l : list A) :
  (forall x, In x l -> f x = false) -> filter f l = [].
Proof.
  induction l as [|a l IH]; simpl; intros H; [reflexivity|].
  rewrite (H a (or_introl eq_refl)). auto.
Qed.

Lemma filter_all_true {A : Type} (f : A -> bool) (l : list A) :
  (forall x, In x l -> f x = true) -> filter f l = l.
Proof.
  induction l as [|a l IH]; simpl; intros H; [reflexivity|].
  rewrite (H a (or_introl eq_refl)). f_equal. auto.
Qed.

Lemma sections_of_fresh_meeting (d : db) (s : section) :
  (forall x, In x (sections d) -> has_meeting d (s_meeting_id x) = true) ->
  In s (sections d) ->
  s_meeting_id s <> next_rowid (seq_meeting d) (map m_id (meetings d)).
Proof.
  intros Hfk Hs Heq. specialize (Hfk s Hs). unfold has_meeting in Hfk.
  apply existsb_exists in Hfk. destruct Hfk as [x [Hx Hid]].
  apply Z.eqb_eq in Hid.
  apply (next_rowid_not_in (seq_meeting d) (map m_id (meetings d))).
  rewrite <- Heq, <- Hid. now apply in_map.
Qed.

(** X14. A meeting created without a source starts empty and never without
    sections: right after [create_meeting], [get_meeting_fill_status] of the
    new meeting is [(0, total)] with [total] the number of sections built, at
    least one.  Every stored section refers to an existing meeting. *)
Theorem new_meeting_fill_status :
  forall (sc : schema) (now : string) (d : db) (meeting_date : string),
    get_meeting_by_date d meeting_date = None ->
    (forall s, In s (sections d) -> has_meeting d (s_meeting_id s) = true) ->
    exists (mid : Z) (d' : db) (total : Z),
      create_meeting sc now d meeting_date None = Ok (Some mid, d')
      /\ get_meeting_fill_status d' mid = (0, total)
      /\ total = Z.of_nat (List.length (blank_rows d mid))
      /\ 0 < total.
Proof.
  intros sc now d meeting_date Hfresh Hfk.
  destruct (create_meeting_try_blank sc now d meeting_date Hfresh)
    as [d' [Htry [_ [Hsec _]]]].
  set (mid := next_rowid (seq_meeting d) (map m_id (meetings d))) in *.
  set (first := next_rowid (seq_section d) (map s_id (sections d))) in *.
  exists mid, d', (Z.of_nat (List.length (blank_rows d mid))).
  split; [unfold create_meeting; now rewrite Htry|].
  assert (Hnew : forall s, In s (assign_ids first (blank_rows d mid)) ->
                           s_meeting_id s = mid /\ s_content s = "").
  { intros s Hs. apply assign_ids_in in Hs. destruct Hs as [row [id [Hrow ->]]].
    exact (blank_rows_shape d mid row id Hrow). }
  split; [|split; [reflexivity|]].
  - unfold get_meeting_fill_status. rewrite Hsec, !filter_app.
    rewrite (filter_all_false _ (sections d)).
    2:{ intros x Hx. apply andb_false_iff. left. apply Z.eqb_neq.
        exact (sections_of_fresh_meeting d x Hfk Hx). }
    rewrite (filter_all_false (fun s => s_meeting_id s =? mid) (sections d)).
    2:{ intros x Hx. apply Z.eqb_neq.
        exact (sections_of_fresh_meeting d x Hfk Hx). }
    rewrite (filter_all_false _ (assign_ids first (blank_rows d mid))).
    2:{ intros x Hx. destruct (Hnew x Hx) as [_ Hc]. unfold nonempty_string.
        rewrite Hc. apply andb_false_r. }
    rewrite (filter_all_true _ (assign_ids first (blank_rows d mid))).
    2:{ intros x Hx. destruct (Hnew x Hx) as [Hm _]. now apply Z.eqb_eq. }
    simpl. now rewrite assign_ids_length.
  - pose proof (blank_rows_nonempty d mid) as Hne.
    destruct (blank_rows d mid); [now elim Hne | simpl; lia].
Qed.

Lemma new_meeting_fill_status_witness :
  get_meeting_by_date Sample.running "2026-03-22" = None
  /\ (forall s, In s (sections Sample.running) ->
                has_meeting Sample.running (s_meeting_id s) = true)
  /\ exists (mid : Z) (d' : db) (total : Z),
       create_meeting Sample.any_schema "T1" Sample.running "2026-03-22" None
       = Ok (Some mid, d')
       /\ get_meeting_fill_status d' mid = (0, total)
       /\ 0 < total.
Proof.
  assert (H1 : get_meeting_by_date Sample.running "2026-03-22" = None) by reflexivity.
  assert (H2 : forall s, In s (sections Sample.running) ->
                         has_meeting Sample.running (s_meeting_id s) = true).
  { simpl. intros s [<-|[<-|[<-|[]]]]; reflexivity. }
  split; [exact H1 | split; [exact H2 |]].
  destruct (new_meeting_fill_status Sample.any_schema "T1" Sample.running
              "2026-03-22" H1 H2) as [mid [d' [total [Hr [Hf [_ Hpos]]]]]].
  exists mid, d', total. auto.
Defined.

(** ** Replacing reporters *)

Lemma insert_reporters_shape (sc : schema) (dept_id : Z)
    (reporter_entries : list (Z * bool)) :
  forall d d',
    insert_reporters sc d dept_id reporter_entries = Ok d' ->
    d' = set_department_reporter_rows
           (department_reporters d ++ map (reporter_row dept_id) reporter_entries) d.
Proof.
  induction reporter_entries as [|[user_id is_primary] rest IH]; simpl; intros d d' H.
  - injection H as <-. rewrite app_nil_r. now destruct d.
  - destruct (accepts_reporter sc d _); [|discriminate].
    apply IH in H. rewrite H. simpl. unfold set_department_reporter_rows. simpl.
    now rewrite <- app_assoc.
Qed.

Lemma existsb_filter_other_department (l : list department_reporter)
    (dept_id other user_id : Z) :
  other <> dept_id ->
  existsb (fun r => (dr_department_id r =? other) && (dr_user_id r =? user_id))
          (filter (fun r => negb (dr_department_id r =? dept_id)) l)
  = existsb (fun r => (dr_department_id r =? other) && (dr_user_id r =? user_id)) l.
Proof.
  intros Hne. induction l as [|r l IH]; simpl; [reflexivity|].
  destruct (Z.eqb_spec (dr_department_id r) dept_id) as [Hd|Hd]; simpl.
  - rewrite IH.
    replace (dr_department_id r =? other) with false
      by (symmetry; apply Z.eqb_neq; congruence).
    reflexivity.
  - now rewrite IH.
Qed.

(** X15. [set_department_reporters] replaces, it does not add: when it
    commits, the department's reporters are exactly the given entries, in
    order, so a user who is not among them is no longer listed for it, and the
    reporters of every other department are as before. *)
Theorem set_department_reporters_replaces :
  forall (sc : schema) (d d' : db) (dept_id : Z) (reporter_entries : list (Z * bool)),
    set_department_reporters sc d dept_id reporter_entries = Ok d' ->
    filter (fun r => dr_department_id r =? dept_id) (department_reporters d')
    = map (reporter_row dept_id) reporter_entries
    /\ (forall user_id,
           is_reporter d' dept_id user_id = true <-> In user_id (map fst reporter_entries))
    /\ (forall other user_id, other <> dept_id ->
                              is_reporter d' other user_id = is_reporter d other user_id).
Proof.
  intros sc d d' dept_id reporter_entries H.
  unfold set_department_reporters in H. apply insert_reporters_shape in H.
  simpl in H.
  set (kept := filter (fun r => negb (dr_department_id r =? dept_id))
                      (department_reporters d)) in *.
  set (new := map (reporter_row dept_id) reporter_entries) in *.
  assert (Hrows : department_reporters d' = kept ++ new) by (now rewrite H).
  assert (Hkept : forall r, In r kept -> dr_department_id r <> dept_id).
  { intros r Hr. apply filter_In in Hr. destruct Hr as [_ Hr].
    now apply negb_true_iff, Z.eqb_neq in Hr. }
  assert (Hnew : forall r, In r new -> dr_department_id r = dept_id).
  { intros r Hr. apply in_map_iff in Hr. now destruct Hr as [e [<- _]]. }
  split; [|split].
  - rewrite Hrows, filter_app.
    rewrite (filter_all_false _ kept)
      by (intros r Hr; apply Z.eqb_neq; now apply Hkept).
    rewrite (filter_all_true _ new)
      by (intros r Hr; apply Z.eqb_eq; now apply Hnew).
    reflexivity.
  - intros user_id. rewrite is_reporter_spec. unfold listed_reporter.
    rewrite Hrows. split.
    + intros [r [Hr [Hd Hu]]]. apply in_app_or in Hr. destruct Hr as [Hr|Hr].
      * now elim (Hkept r Hr).
      * apply in_map_iff in Hr. destruct Hr as [e [<- He]]. simpl in Hu.
        rewrite <- Hu. now apply in_map.
    + intros Hin. apply in_map_iff in Hin. destruct Hin as [e [<- He]].
      exists (reporter_row dept_id e). split; [|split; reflexivity].
      apply in_or_app. right. now apply in_map.
  - intros other user_id Hne. unfold is_reporter. rewrite Hrows, existsb_app.
    replace (existsb _ new) with false.
    2:{ symmetry. apply not_true_iff_false. intros Hex.
        apply existsb_exists in Hex. destruct Hex as [r [Hr Hc]].
        apply andb_true_iff in Hc. destruct Hc as [Hc _]. apply Z.eqb_eq in Hc.
        rewrite (Hnew r Hr) in Hc. congruence. }
    rewrite orb_false_r. unfold kept.
    now apply existsb_filter_other_department.
Qed.

Lemma set_department_reporters_replaces_witness :
  exists d',
    set_department_reporters Sample.any_schema Sample.running 1 [(2, true)] = Ok d'
    /\ is_reporter Sample.running 1 1 = true
    /\ (is_reporter d' 1 1 = true <-> In 1 (map fst [(2, true)])).
Proof.
  eexists. split; [reflexivity|]. split; [reflexivity|].
  exact (proj1 (proj2 (set_department_reporters_replaces Sample.any_schema
                         Sample.running _ 1 [(2, true)] eq_refl)) 1).
Defined.






(** ** Copying a meeting *)

Lemma copy_sections_as_rows (sc : schema) (meeting_id : Z) (prev : list section) :
  forall d, copy_sections sc d meeting_id prev
            = insert_rows sc d (map (copied_section meeting_id) prev).
Proof.
  induction prev as [|s rest IH]; intros d; simpl; [reflexivity|].
  destruct (insert_section sc d _) as [d1|e]; simpl; [apply IH | reflexivity].
Qed.

Lemma copied_columns_kept (meeting_id : Z) (l : list section) :
  forall first,
    map copied_columns (assign_ids first (map (copied_section meeting_id) l))
    = map copied_columns l.
Proof.
  induction l as [|s l IH]; intros first; simpl; [reflexivity|].
  now rewrite IH.
Qed.

(** X17. With [copy_from] naming an existing meeting, [create_meeting] on a
    fresh date copies that meeting's sections verbatim, in [sort_order]: the
    sections of the source meeting, arranged by ascending sort order, are
    appended one by one with name, reporter, sort order, special flag,
    content, department and reporter id unchanged, each under a new id and
    the new meeting; the department table plays no part.  The source sections
    satisfy the foreign keys the schema declares on their department and
    reporter. *)
Theorem create_meeting_copies_sections :
  forall (sc : schema) (now : string) (d : db) (meeting_date copy_from : string)
         (prev : meeting),
    get_meeting_by_date d meeting_date = None ->
    copy_from <> "" ->
    get_meeting_by_date d copy_from = Some prev ->
    (forall s, In s (sections d) ->
               fk_ok (fk_section_department sc) (has_department d) (s_department_id s)
               = true
               /\ fk_ok (fk_section_reporter sc) (has_user d) (s_reporter_id s) = true) ->
    exists (d' : db) (src : list section),
      let mid := next_rowid (seq_meeting d) (map m_id (meetings d)) in
      let first := next_rowid (seq_section d) (map s_id (sections d)) in
      create_meeting sc now d meeting_date (Some copy_from) = Ok (Some mid, d')
      /\ Permutation src (filter (fun s => s_meeting_id s =? m_id prev) (sections d))
      /\ sorted_by s_sort_order src
      /\ sections d' = sections d ++ assign_ids first (map (copied_section mid) src)
      /\ map copied_columns (filter (fun s => s_meeting_id s =? mid) (sections d'))
         = map copied_columns
               (filter (fun s => s_meeting_id s =? mid) (sections d) ++ src).
Proof.
  intros sc now d meeting_date copy_from prev Hfresh Hne Hprev Hfk.
  destruct (insert_meeting_fresh sc d meeting_date now None Hfresh eq_refl)
    as [Hins [Hget Hhas]].
  set (mid := next_rowid (seq_meeting d) (map m_id (meetings d))) in *.
  set (first := next_rowid (seq_section d) (map s_id (sections d))) in *.
  set (m := mk_meeting mid meeting_date now default_status None None None) in *.
  set (d1 := set_meeting_rows (meetings d ++ [m]) mid d) in *.
  set (rows := map (copied_section mid) (get_sections d (m_id prev))).
  assert (Hrows_ok : forall row id, In row rows ->
                       section_accepted sc d1 (row id) = true /\ s_id (row id) = id).
  { intros row id Hrow. unfold rows in Hrow. apply in_map_iff in Hrow.
    destruct Hrow as [s [<- Hs]]. split; [|reflexivity].
    unfold get_sections in Hs. apply order_by_in, filter_In in Hs.
    destruct (Hfk s (proj1 Hs)) as [Hd Hr].
    unfold section_accepted. simpl.
    change (has_department d1) with (has_department d).
    change (has_user d1) with (has_user d).
    now rewrite Hhas, Hd, Hr. }
  destruct (insert_rows_from sc d1 rows Hrows_ok) as [s' Hins_rows].
  exists (set_section_rows (sections d ++ assign_ids first rows) s' d1),
         (get_sections d (m_id prev)).
  cbv zeta.
  assert (Hprev1 : get_meeting_by_date d1 copy_from = Some prev).
  { unfold get_meeting_by_date, d1. simpl. now apply find_app_keep. }
  split; [|split; [|split; [|split; [reflexivity|]]]].
  - unfold create_meeting, create_meeting_try.
    rewrite Hins. cbn [bind snd]. rewrite Hget. cbv zeta.
    replace (nonempty_string copy_from) with true
      by (symmetry; apply negb_true_iff, String.eqb_neq; exact Hne).
    rewrite Hprev1. change (m_id m) with mid.
    rewrite copy_sections_as_rows.
    change (get_sections d1 (m_id prev)) with (get_sections d (m_id prev)).
    fold rows. rewrite Hins_rows. reflexivity.
  - apply order_by_perm.
  - apply order_by_sorted.
  - simpl sections. rewrite filter_app, !map_app. f_equal.
    rewrite filter_all_true.
    2:{ intros x Hx. apply assign_ids_in in Hx. destruct Hx as [row [id [Hrow ->]]].
        unfold rows in Hrow. apply in_map_iff in Hrow. destruct Hrow as [s [<- _]].
        simpl. apply Z.eqb_refl. }
    apply copied_columns_kept.
Qed.

(** The first meeting of [unsorted_meeting] stores Shoutouts (sort order 1)
    before Engineering (sort order 0); the copy has Engineering first. *)
Lemma create_meeting_copies_sections_witness :
  get_meeting_by_date unsorted_meeting "2026-03-22" = None
  /\ "2026-03-01" <> ""
  /\ map s_name (sections unsorted_meeting) = ["Shoutouts"; "Engineering"]
  /\ exists d',
       create_meeting Sample.any_schema "T1" unsorted_meeting "2026-03-22"
                      (Some "2026-03-01") = Ok (Some 2, d')
       /\ filter (fun s => s_meeting_id s =? 2) (sections d')
          = [mk_section 3 2 "Engineering" "Alice" 0 0 "Draft notes" None (Some 1)
                        (Some 1);
             mk_section 4 2 "Shoutouts" "" 1 1 "Thanks all" None (Some 2) None].
Proof.
  set (d := unsorted_meeting).
  assert (H1 : get_meeting_by_date d "2026-03-22" = None) by reflexivity.
  assert (H2 : "2026-03-01" <> "") by discriminate.
  assert (H3 : get_meeting_by_date d "2026-03-01"
               = Some (mk_meeting 1 "2026-03-01" "2026-03-01T08:00:00" "open"
                                  None None None)) by reflexivity.
  assert (H4 : forall s, In s (sections d) ->
               fk_ok (fk_section_department Sample.any_schema) (has_department d)
                     (s_department_id s) = true
               /\ fk_ok (fk_section_reporter Sample.any_schema) (has_user d)
                        (s_reporter_id s) = true).
  { simpl. intros s [<-|[<-|[]]]; split; reflexivity. }
  split; [exact H1 | split; [exact H2 | split; [reflexivity|]]].
  destruct (create_meeting_copies_sections Sample.any_schema "T1" d "2026-03-22"
              "2026-03-01" _ H1 H2 H3 H4) as [d' [src [Hr [Hperm [Hsorted [Hs _]]]]]].
  exists d'. split; [exact Hr|].
  assert (Hsrc : src = [mk_section 2 1 "Engineering" "Alice" 0 0 "Draft notes"
                                   (Some "T0") (Some 1) (Some 1);
                        mk_section 1 1 "Shoutouts" "" 1 1 "Thanks all" (Some "T0")
                                   (Some 2) None]).
  { apply (sorted_permutation_unique s_sort_order); [exact Hsorted | | |].
    - repeat constructor; simpl; lia.
    - rewrite Hperm. simpl. apply perm_swap.
    - simpl. repeat constructor; simpl; intuition lia. }
  rewrite Hs, Hsrc. reflexivity.
Defined.



Lemma create_meeting_copy_from_unknown_witness :
  get_meeting_by_date Sample.seeded "2026-02-01" = None
  /\ "2026-02-01" <> "2026-03-01"
  /\ create_meeting Sample.any_schema "T1" Sample.seeded "2026-03-01"
                    (Some "2026-02-01")
     = create_meeting Sample.any_schema "T1" Sample.seeded "2026-03-01" None.
Proof.
  assert (H1 : get_meeting_by_date Sample.seeded "2026-02-01" = None) by reflexivity.
  assert (H2 : "2026-02-01" <> "2026-03-01") by discriminate.
  split; [exact H1 | split; [exact H2 |]].
  exact (create_meeting_copy_from_unknown Sample.any_schema "T1" Sample.seeded
           "2026-03-01" "2026-02-01" H1 H2).
Defined.

(** ** Integrity is kept *)

Lemma map_key_kept {A : Type} (key : A -> Z) (f : A -> A) (l : list A) :
  (forall x, key (f x) = key x) -> map key (map f l) = map key l.
Proof. intros H. rewrite map_map. apply map_ext. exact H. Qed.

Lemma existsb_key_kept {A : Type} (key : A -> Z) (f : A -> A) (l : list A) (v : Z) :
  (forall x, key (f x) = key x) ->
  existsb (fun x => key x =? v) (map f l) = existsb (fun x => key x =? v) l.
Proof.
  intros H. induction l as [|a l IH]; simpl; [reflexivity|]. now rewrite H, IH.
Qed.

Lemma existsb_app_keep {A : Type} (p : A -> bool) (l : list A) (x : A) :
  existsb p l = true -> existsb p (l ++ [x]) = true.
Proof. intros H. rewrite existsb_app, H. reflexivity. Qed.

Lemma nodup_app_fresh {A B : Type} (key : A -> B) (l : list A) (x : A) :
  NoDup (map key l) -> ~ In (key x) (map key l) -> NoDup (map key (l ++ [x])).
Proof.
  intros Hnd Hnot. rewrite map_app. simpl.
  apply NoDup_app; [exact Hnd | repeat constructor; intros [] |].
  intros b Hb [<-|[]]. contradiction.
Qed.

Lemma nodup_filter_key {A : Type} (key : A -> Z) (p : A -> bool) (l : list A) :
  NoDup (map key l) -> NoDup (map key (filter p l)).
Proof. apply nodup_map_filter. Qed.

Lemma insert_meeting_keeps_ok (sc : schema) (d d' : db)
    (meeting_date created_at : string) (template_id : option Z) (id : Z) :
  db_ok d ->
  insert_meeting sc d meeting_date created_at template_id = Ok (id, d') ->
  db_ok d'.
Proof.
  intros [[Hmid [Hmdate Hmb]] [[Hsid Hsb] [Htid Htb]]]. unfold insert_meeting.
  destruct (existsb _ (meetings d)) eqn:Hdate; [discriminate|].
  destruct (negb _); [discriminate|].
  intros [= <- <-].
  set (nid := next_rowid (seq_meeting d) (map m_id (meetings d))).
  split; [|split].
  - split; [|split]; simpl.
    + apply nodup_app_fresh; [exact Hmid | apply next_rowid_not_in].
    + apply nodup_app_fresh; [exact Hmdate|]. simpl. intros Hin.
      apply in_map_iff in Hin. destruct Hin as [m [Hm Hin]].
      apply not_true_iff_false in Hdate. apply Hdate.
      apply existsb_exists. exists m. split; [exact Hin | now apply String.eqb_eq].
    + intros m Hm. apply in_app_or in Hm. destruct Hm as [Hm|[<-|[]]]; simpl.
      * pose proof (next_rowid_fresh (seq_meeting d) _ _ (in_map m_id _ _ Hm)).
        fold nid in H. specialize (Hmb m Hm). lia.
      * pose proof (next_rowid_positive (seq_meeting d) (map m_id (meetings d))).
        fold nid in H. lia.
  - split; [exact Hsid|]. simpl. intros s Hs. destruct (Hsb s Hs) as [Hb Hm].
    split; [exact Hb|]. unfold has_meeting. simpl. now apply existsb_app_keep.
  - split; [exact Htid | exact Htb].
Qed.

Lemma insert_section_keeps_ok (sc : schema) (d d' : db) (row : Z -> section) :
  db_ok d ->
  (forall id, s_id (row id) = id) ->
  insert_section sc d row = Ok d' ->
  db_ok d'.
Proof.
  intros [Hm [[Hsid Hsb] [Htid Htb]]] Hrow. unfold insert_section.
  set (id := next_rowid (seq_section d) (map s_id (sections d))).
  destruct (section_accepted sc d (row id)) eqn:Hacc; [|discriminate].
  intros [= <-]. split; [exact Hm|]. split.
  - split; simpl.
    + apply nodup_app_fresh; [exact Hsid|]. rewrite Hrow. apply next_rowid_not_in.
    + intros s Hs. apply in_app_or in Hs. destruct Hs as [Hs|[<-|[]]].
      * destruct (Hsb s Hs) as [Hb Hmeet]. split; [|exact Hmeet].
        pose proof (next_rowid_fresh (seq_section d) _ _ (in_map s_id _ _ Hs)).
        fold id in H. lia.
      * rewrite Hrow. split.
        -- pose proof (next_rowid_positive (seq_section d) (map s_id (sections d))).
           fold id in H. lia.
        -- unfold section_accepted in Hacc.
           apply andb_true_iff in Hacc. destruct Hacc as [Hacc _].
           apply andb_true_iff in Hacc. now destruct Hacc as [Hacc _].
  - split; [exact Htid|]. simpl. intros t Ht. destruct (Htb t Ht) as [Hb Hs].
    split; [exact Hb|]. unfold has_section. simpl. now apply existsb_app_keep.
Qed.

Lemma insert_rows_keeps_ok (sc : schema) (rows : list (Z -> section)) :
  (forall row id, In row rows -> s_id (row id) = id) ->
  forall d d', db_ok d -> insert_rows sc d rows = Ok d' -> db_ok d'.
Proof.
  induction rows as [|row rest IH]; intros Hrows d d' Hok; simpl.
  - now intros [= <-].
  - destruct (insert_section sc d row) as [d1|e] eqn:H1; simpl; [|discriminate].
    apply IH; [intros r id Hr; apply Hrows; now right|].
    apply (insert_section_keeps_ok sc d d1 row Hok); [|exact H1].
    intros id. apply Hrows. now left.
Qed.

Lemma department_rows_ids (d : db) (meeting_id : Z) (depts : list department)
    (row : Z -> section) (id : Z) :
  In row (department_rows d meeting_id depts) -> s_id (row id) = id.
Proof.
  unfold department_rows. intros H. apply in_map_iff in H.
  now destruct H as [dept [<- _]].
Qed.

Lemma default_rows_ids (meeting_id : Z) (entries : list (string * string * bool))
    (i : Z) (row : Z -> section) (id : Z) :
  In row (default_rows meeting_id i entries) -> s_id (row id) = id.
Proof.
  intros H. apply default_rows_in in H. destruct H as [j [entry ->]].
  now destruct entry as [[name reporter] is_special].
Qed.

Lemma template_rows_ids (d : db) (meeting_id : Z) (tss : list template_section)
    (row : Z -> section) (id : Z) :
  In row (template_rows d meeting_id tss) -> s_id (row id) = id.
Proof.
  intros H. apply template_rows_in in H. now destruct H as [ts [dept [_ [_ ->]]]].
Qed.

Lemma create_meeting_try_keeps_ok (sc : schema) (now : string) (d d' : db)
    (meeting_date : string) (copy_from : option string) (mid : Z) :
  db_ok d ->
  create_meeting_try sc now d meeting_date copy_from = Ok (mid, d') ->
  db_ok d'.
Proof.
  intros Hok. unfold create_meeting_try.
  destruct (insert_meeting sc d meeting_date now None) as [[id d1]|e] eqn:Hins;
    [|discriminate].
  apply (insert_meeting_keeps_ok sc d d1 _ _ _ id Hok) in Hins.
  cbn [bind snd].
  destruct (get_meeting_by_date d1 meeting_date) as [meeting|]; [|discriminate].
  cbv zeta.
  assert (Hblank : forall r,
             (d2 <- match list_departments d1 with
                    | [] => default_sections sc d1 (m_id meeting) 0 DEFAULT_SECTIONS
                    | _ :: _ => department_sections sc d1 (m_id meeting)
                                                    (list_departments d1)
                    end ;; Ok (m_id meeting, d2)) = Ok r -> db_ok (snd r)).
  { intros r. destruct (list_departments d1) as [|x l] eqn:Hl.
    - rewrite default_sections_as_rows.
      destruct (insert_rows sc d1 _) as [d2|e] eqn:Hrows; simpl; [|discriminate].
      intros [= <-]. simpl.
      eapply insert_rows_keeps_ok; [|exact Hins | exact Hrows].
      intros row k. apply default_rows_ids.
    - rewrite department_sections_as_rows.
      destruct (insert_rows sc d1 _) as [d2|e] eqn:Hrows; simpl; [|discriminate].
      intros [= <-]. simpl.
      eapply insert_rows_keeps_ok; [|exact Hins | exact Hrows].
      intros row k. apply department_rows_ids. }
  destruct copy_from as [date|]; [|intros H; exact (Hblank _ H)].
  destruct (nonempty_string date); [|intros H; exact (Hblank _ H)].
  destruct (get_meeting_by_date d1 date) as [prev|]; [|intros H; exact (Hblank _ H)].
  rewrite copy_sections_as_rows.
  destruct (insert_rows sc d1 _) as [d2|e] eqn:Hrows; simpl; [|discriminate].
  intros [= _ <-].
  eapply insert_rows_keeps_ok; [|exact Hins | exact Hrows].
  intros row k Hrow. apply in_map_iff in Hrow. now destruct Hrow as [s [<- _]].
Qed.

Lemma create_meeting_from_template_try_keeps_ok (sc : schema) (now : string)
    (d d' : db) (meeting_date : string) (template_id mid : Z) :
  db_ok d ->
  create_meeting_from_template_try sc now d meeting_date template_id = Ok (mid, d') ->
  db_ok d'.
Proof.
  intros Hok. unfold create_meeting_from_template_try.
  destruct (insert_meeting sc d meeting_date now (Some template_id))
    as [[id d1]|e] eqn:Hins; [|discriminate].
  apply (insert_meeting_keeps_ok sc d d1 _ _ _ id Hok) in Hins.
  cbn [bind snd].
  destruct (get_meeting_by_date d1 meeting_date) as [meeting|]; [|discriminate].
  cbv zeta. rewrite template_sections_loop_as_rows.
  destruct (insert_rows sc d1 _) as [d2|e] eqn:Hrows; simpl; [|discriminate].
  intros [= _ <-].
  eapply insert_rows_keeps_ok; [|exact Hins | exact Hrows].
  intros row k. apply template_rows_ids.
Qed.

Lemma catch_integrity_keeps_ok (d d' : db) (r : result (Z * db)) (mid : option Z) :
  db_ok d ->
  (forall id d1, r = Ok (id, d1) -> db_ok d1) ->
  catch_integrity d r = Ok (mid, d') ->
  db_ok d'.
Proof.
  intros Hok Hr. unfold catch_integrity.
  destruct r as [[id d1]|[|]]; [| |discriminate].
  - intros [= _ <-]. now apply (Hr id).
  - now intros [= _ <-].
Qed.

Lemma insert_todo_keeps_ok (sc : schema) (d d' : db) (section_id : Z) (text : string)
    (assigned_to : option Z) (due_date : option string) (priority : string)
    (created_by : option Z) (created_at : string) (id : Z) :
  db_ok d ->
  insert_todo sc d section_id text assigned_to due_date priority created_by created_at
  = Ok (id, d') ->
  db_ok d'.
Proof.
  intros [Hm [Hs [Htid Htb]]]. unfold insert_todo.
  destruct (has_section d section_id) eqn:Hsec; [|discriminate].
  destruct (_ && _); [|discriminate].
  intros [= <- <-].
  set (nid := next_rowid (seq_todo d) (map t_id (todos d))).
  split; [exact Hm|]. split; [exact Hs|]. split; simpl.
  - apply nodup_app_fresh; [exact Htid | apply next_rowid_not_in].
  - intros t Ht. apply in_app_or in Ht. destruct Ht as [Ht|[<-|[]]]; simpl.
    + destruct (Htb t Ht) as [Hb Hx]. split; [|exact Hx].
      pose proof (next_rowid_fresh (seq_todo d) _ _ (in_map t_id _ _ Ht)).
      fold nid in H. lia.
    + split; [|exact Hsec].
      pose proof (next_rowid_positive (seq_todo d) (map t_id (todos d))).
      fold nid in H. lia.
Qed.

Lemma update_todo_index_keeps_ok (d : db) (todo_id : Z) :
  db_ok d -> db_ok (_update_todo_index d todo_id).
Proof.
  intros H. unfold _update_todo_index.
  repeat match goal with
         | |- context [match ?x with _ => _ end] => destruct x
         end; exact H.
Qed.

Lemma update_todo_done_keeps_ok (d : db) (todo_id done : Z) (c : option string) :
  db_ok d -> db_ok (update_todo_done d todo_id done c).
Proof.
  intros [Hm [Hs [Htid Htb]]]. split; [exact Hm|]. split; [exact Hs|].
  unfold update_todo_done. split; simpl.
  - rewrite map_key_kept; [exact Htid|]. intros x. now destruct (t_id x =? todo_id).
  - intros t Ht. apply in_map_iff in Ht. destruct Ht as [x [<- Hx]].
    specialize (Htb x Hx). now destruct (t_id x =? todo_id).
Qed.

Lemma delete_todo_keeps_ok (d : db) (todo_id : Z) :
  db_ok d -> db_ok (delete_todo d todo_id).
Proof.
  intros [Hm [Hs [Htid Htb]]]. split; [exact Hm|]. split; [exact Hs|].
  unfold delete_todo. split; simpl.
  - now apply nodup_filter_key.
  - intros t Ht. apply filter_In in Ht. now apply Htb.
Qed.

Lemma update_section_keeps_ok (now : string) (d : db) (section_id : Z)
    (content : string) :
  db_ok d -> db_ok (update_section now d section_id content).
Proof.
  intros [Hm [[Hsid Hsb] [Htid Htb]]]. unfold update_section.
  set (f := fun s => if s_id s =? section_id
                     then set_content content (Some now) s else s).
  assert (Hf : forall x, s_id (f x) = s_id x).
  { intros x. unfold f. now destruct (s_id x =? section_id). }
  assert (Hok1 : db_ok (set_section_rows (map f (sections d)) (seq_section d) d)).
  { split; [exact Hm|]. split; split; simpl.
    - rewrite map_key_kept; [exact Hsid | exact Hf].
    - intros s Hs. apply in_map_iff in Hs. destruct Hs as [x [<- Hx]].
      specialize (Hsb x Hx). unfold f. now destruct (s_id x =? section_id).
    - exact Htid.
    - intros t Ht. destruct (Htb t Ht) as [Hb Hx]. split; [exact Hb|].
      unfold has_section. simpl.
      rewrite (existsb_key_kept s_id f); [exact Hx | exact Hf]. }
  revert Hok1. generalize (set_section_rows (map f (sections d)) (seq_section d) d).
  intros d1 H. unfold _update_section_index.
  repeat match goal with
         | |- context [match ?x with _ => _ end] => destruct x
         end; exact H.
Qed.

Lemma update_meeting_lock_keeps_ok (d : db) (meeting_id : Z) (status : string)
    (locked_by : option Z) (locked_at : option string) :
  db_ok d -> db_ok (update_meeting_lock d meeting_id status locked_by locked_at).
Proof.
  intros [[Hmid [Hmdate Hmb]] [[Hsid Hsb] Ht]]. unfold update_meeting_lock.
  set (f := fun m => if m_id m =? meeting_id
                     then set_lock status locked_by locked_at m else m).
  assert (Hf : forall x, m_id (f x) = m_id x).
  { intros x. unfold f. now destruct (m_id x =? meeting_id). }
  split; [|split; [|exact Ht]].
  - split; [|split]; simpl.
    + rewrite map_key_kept; [exact Hmid | exact Hf].
    + rewrite map_map.
      replace (map (fun x => m_date (f x)) (meetings d)) with (map m_date (meetings d));
        [exact Hmdate|].
      apply map_ext. intros x. unfold f. now destruct (m_id x =? meeting_id).
    + intros m Hm. apply in_map_iff in Hm. destruct Hm as [x [<- Hx]].
      rewrite Hf. now apply Hmb.
  - split; [exact Hsid|]. simpl. intros s Hs. destruct (Hsb s Hs) as [Hb Hx].
    split; [exact Hb|]. unfold has_meeting. simpl.
    rewrite (existsb_key_kept m_id f); [exact Hx | exact Hf].
Qed.

Lemma step_keeps_ok (sc : schema) (d d' : db) :
  db_ok d -> step sc d d' -> db_ok d'.
Proof.
  intros Hok Hstep. destruct Hstep.
  - unfold create_meeting in H.
    refine (catch_integrity_keeps_ok d d' _ mid Hok _ H).
    intros id d1 Htry.
    exact (create_meeting_try_keeps_ok sc now d d1 _ _ id Hok Htry).
  - unfold create_meeting_from_template in H.
    refine (catch_integrity_keeps_ok d d' _ mid Hok _ H).
    intros id d1 Htry.
    exact (create_meeting_from_template_try_keeps_ok sc now d d1 _ _ id Hok Htry).
  - unfold add_todo in H.
    destruct (insert_todo _ _ _ _ _ _ _ _ _) as [[id d1]|e] eqn:Hins;
      [|discriminate].
    simpl in H. injection H as <-.
    apply update_todo_index_keeps_ok.
    exact (insert_todo_keeps_ok sc d d1 _ _ _ _ _ _ _ id Hok Hins).
  - unfold toggle_todo. destruct (get_todo d todo_id); [|exact Hok].
    destruct (negb _); now apply update_todo_done_keeps_ok.
  - unfold carry_forward_todo in H.
    destruct (get_todo d todo_id) as [t|]; [|injection H as _ <-; exact Hok].
    destruct (get_section d (t_section_id t)) as [orig|];
      [|injection H as _ <-; exact Hok].
    destruct (find_target_section d orig target) as [ts|];
      [|injection H as _ <-; exact Hok].
    destruct (insert_todo _ _ _ _ _ _ _ _ _) as [[id d1]|e] eqn:Hins;
      [|discriminate].
    simpl in H. injection H as _ <-.
    apply update_todo_done_keeps_ok.
    exact (insert_todo_keeps_ok sc d d1 _ _ _ _ _ _ _ id Hok Hins).
  - now apply delete_todo_keeps_ok.
  - now apply update_section_keeps_ok.
  - unfold lock_meeting in H.
    destruct (get_meeting d meeting_id) as [m|]; [|injection H as _ <-; exact Hok].
    destruct (String.eqb (m_status m) "locked"); [injection H as _ <-; exact Hok|].
    destruct (fk_ok _ _ _); [|discriminate].
    injection H as _ <-. now apply update_meeting_lock_keeps_ok.
  - unfold unlock_meeting. destruct (get_meeting d meeting_id); [|exact Hok].
    now apply update_meeting_lock_keeps_ok.
  - exact Hok.
  - unfold set_department_reporters in H. apply insert_reporters_shape in H.
    rewrite H. exact Hok.
Qed.

(** X19. Every committed operation keeps the integrity of the stored rows,
    so it holds in every database a run of operations reaches from one that
    has it: meeting, section and todo ids stay unique, positive and within the
    recorded sequence, meeting dates stay unique, every section still refers
    to a meeting and every todo to a section. *)
Theorem reachable_db_ok :
  forall (sc : schema) (d0 d : db),
    db_ok d0 -> reachable sc d0 d -> db_ok d.
Proof.
  intros sc d0 d H0 Hreach. induction Hreach as [|d d' _ IH Hstep].
  - exact H0.
  - exact (step_keeps_ok sc d d' IH Hstep).
Qed.

Lemma reachable_db_ok_witness :
  exists d,
    db_ok empty_db
    /\ reachable Sample.any_schema empty_db d
    /\ List.length (sections d) = 9%nat
    /\ List.length (todos d) = 1%nat
    /\ db_ok d.
Proof.
  assert (H0 : db_ok empty_db).
  { unfold db_ok, meetings_ok, sections_ok, todos_ok. simpl.
    repeat match goal with
           | |- _ /\ _ => split
           | |- NoDup [] => apply NoDup_nil
           | |- forall x, False -> _ => intros x []
           end. }
  assert (H1 : step Sample.any_schema empty_db
                 (match create_meeting Sample.any_schema "T1" empty_db "2026-03-01" None
                  with Ok (_, d) => d | Raise _ => empty_db end)).
  { apply (step_create_meeting Sample.any_schema "T1" empty_db "2026-03-01" None
             (Some 1)).
    vm_compute. reflexivity. }
  set (d1 := match create_meeting Sample.any_schema "T1" empty_db "2026-03-01" None
             with Ok (_, d) => d | Raise _ => empty_db end) in *.
  assert (H2 : step Sample.any_schema d1
                 (match add_todo Sample.any_schema "T2" d1 1 "Ship v2" None None
                                 "high" None
                  with Ok d => d | Raise _ => d1 end)).
  { apply (step_add_todo Sample.any_schema "T2" d1 1 "Ship v2" None None "high" None).
    vm_compute. reflexivity. }
  set (d2 := match add_todo Sample.any_schema "T2" d1 1 "Ship v2" None None "high" None
             with Ok d => d | Raise _ => d1 end) in *.
  assert (Hreach : reachable Sample.any_schema empty_db d2).
  { eapply reachable_step; [eapply reachable_step; [apply reachable_start|]|];
      eassumption. }
  exists d2. split; [exact H0|]. split; [exact Hreach|].
  split; [reflexivity|]. split; [reflexivity|].
  exact (reachable_db_ok Sample.any_schema empty_db d2 H0 Hreach).
Defined.

(** ** Settings *)

Lemma find_map_keyed {A : Type} (p : A -> bool) (f : A -> A) (l : list A) :
  (forall x, p (f x) = p x) ->
  find p (map (fun x => if p x then f x else x) l) = option_map f (find p l).
Proof.
  intros Hp. induction l as [|a l IH]; simpl; [reflexivity|].
  destruct (p a) eqn:Ha; simpl.
  - now rewrite Hp, Ha.
  - now rewrite Ha.
Qed.

(** X20. A setting reads back what was last written: after [set_setting key
    value], [get_setting key] returns [value] whatever the default, whether
    the key existed or not, and every other key reads as before. *)
Theorem get_setting_after_set :
  forall (now : string) (settings : list setting) (key value : string)
         (default : option string),
    get_setting (set_setting now settings key value) key default = Some value
    /\ forall other, other <> key ->
         get_setting (set_setting now settings key value) other default
         = get_setting settings other default.
Proof.
  intros now settings key value default. unfold get_setting, set_setting.
  destruct (existsb (fun r => String.eqb (st_key r) key) settings) eqn:Hex.
  - split.
    + rewrite (find_map_keyed (fun r => String.eqb (st_key r) key)
                 (fun r => mk_setting (st_key r) value now)) by reflexivity.
      apply existsb_find in Hex. destruct Hex as [x ->]. reflexivity.
    + intros other Hne. f_equal.
      induction settings as [|a l IH]; simpl in *; [reflexivity|].
      destruct (String.eqb_spec (st_key a) key) as [Ha|Ha]; simpl.
      * replace (String.eqb (st_key a) other) with false
          by (symmetry; apply String.eqb_neq; congruence).
        destruct (existsb (fun r => String.eqb (st_key r) key) l) eqn:Hl.
        -- now apply IH.
        -- apply find_none_existsb in Hl.
           clear IH Hex. induction l as [|b l IHl]; simpl in *; [reflexivity|].
           destruct (String.eqb (st_key b) key); [discriminate|].
           destruct (String.eqb (st_key b) other); [reflexivity | now apply IHl].
      * destruct (String.eqb (st_key a) other); [reflexivity | now apply IH].
  - apply find_none_existsb in Hex. split.
    + rewrite (find_app_fresh _ settings (mk_setting key value now) Hex);
        [reflexivity | simpl; apply String.eqb_refl].
    + intros other Hne.
      destruct (find (fun r => String.eqb (st_key r) other) settings) as [x|] eqn:Hx.
      * now rewrite (find_app_keep _ settings _ x Hx).
      * rewrite find_app_none; [reflexivity | exact Hx |].
        simpl. apply String.eqb_neq. congruence.
Qed.

(** X21. [set_setting] is an upsert: it keeps the keys unique, adds exactly
    one row when the key is new and none when it exists. *)
Theorem set_setting_upsert :
  forall (now : string) (settings : list setting) (key value : string),
    NoDup (map st_key settings) ->
    NoDup (map st_key (set_setting now settings key value))
    /\ (In key (map st_key settings) ->
        map st_key (set_setting now settings key value) = map st_key settings)
    /\ (~ In key (map st_key settings) ->
        map st_key (set_setting now settings key value) = map st_key settings ++ [key]).
Proof.
  intros now settings key value Hnd. unfold set_setting.
  assert (Hmap : map st_key
                     (map (fun r => if String.eqb (st_key r) key
                                    then mk_setting (st_key r) value now else r)
                          settings)
                 = map st_key settings).
  { rewrite map_map. apply map_ext. intros r.
    now destruct (String.eqb (st_key r) key). }
  destruct (existsb (fun r => String.eqb (st_key r) key) settings) eqn:Hex.
  - rewrite Hmap. split; [exact Hnd|]. split; [reflexivity|].
    intros Hnot. elim Hnot. apply existsb_exists in Hex.
    destruct Hex as [r [Hr Hk]]. apply String.eqb_eq in Hk. rewrite <- Hk.
    now apply in_map.
  - assert (Hnot : ~ In key (map st_key settings)).
    { intros Hin. apply in_map_iff in Hin. destruct Hin as [r [Hk Hr]].
      apply not_true_iff_false in Hex. apply Hex. apply existsb_exists.
      exists r. split; [exact Hr | now apply String.eqb_eq]. }
    split; [now apply nodup_app_fresh|].
    split; [intros Hin; contradiction | intros _; now rewrite map_app].
Qed.

Lemma set_setting_upsert_witness :
  NoDup (map st_key [mk_setting "presenter.confetti" "on" "T0"])
  /\ set_setting "T2" (set_setting "T1" [mk_setting "presenter.confetti" "on" "T0"]
                                   "test.key" "val1") "test.key" "val2"
     = [mk_setting "presenter.confetti" "on" "T0"; mk_setting "test.key" "val2" "T2"]
  /\ NoDup (map st_key
              (set_setting "T1" [mk_setting "presenter.confetti" "on" "T0"]
                           "test.key" "val1")).
Proof.
  assert (H : NoDup (map st_key [mk_setting "presenter.confetti" "on" "T0"])).
  { simpl. repeat constructor. intros []. }
  split; [exact H | split; [reflexivity|]].
  exact (proj1 (set_setting_upsert "T1" [mk_setting "presenter.confetti" "on" "T0"]
                  "test.key" "val1" H)).
Defined.

(** ** Attendance *)

Lemma valid_status_spec (status : string) :
  valid_status status = true <->
  status = "present" \/ status = "absent" \/ status = "remote".
Proof.
  unfold valid_status. simpl. rewrite !orb_true_iff, !String.eqb_eq.
  intuition discriminate.
Qed.

(** X22. [set_attendance] records one status per meeting and user: when it
    commits, [get_attendance_for_user] returns that user's row with the given
    status, or [present] when the status is none of [present], [absent],
    [remote]; a second call for the same pair replaces the status instead of
    adding a row; every other pair reads as before. *)
Theorem set_attendance_records_status :
  forall (fk_meeting fk_user : bool) (d : db) (attendance attendance' : list meeting_attendance)
         (meeting_id user_id : Z) (status : string),
    set_attendance fk_meeting fk_user d attendance meeting_id user_id status
    = Ok attendance' ->
    get_attendance_for_user attendance' meeting_id user_id
    = Some (mk_meeting_attendance meeting_id user_id
              (if valid_status status then status else "present"))
    /\ (forall m u, (m, u) <> (meeting_id, user_id) ->
                    get_attendance_for_user attendance' m u
                    = get_attendance_for_user attendance m u)
    /\ List.length attendance'
       = (if existsb (same_attendee meeting_id user_id) attendance
          then List.length attendance else S (List.length attendance)).
Proof.
  intros fk_meeting fk_user d attendance attendance' meeting_id user_id status.
  unfold set_attendance, get_attendance_for_user.
  set (stored := if negb (valid_status status) then "present" else status).
  assert (Hstored : stored = if valid_status status then status else "present").
  { unfold stored. now destruct (valid_status status). }
  assert (Hother : forall m u r, (m, u) <> (meeting_id, user_id) ->
                     same_attendee meeting_id user_id r = true ->
                     same_attendee m u r = false).
  { intros m u r Hne Hr. unfold same_attendee in *.
    apply andb_true_iff in Hr. destruct Hr as [H1 H2].
    apply Z.eqb_eq in H1, H2. apply andb_false_iff.
    destruct (Z.eqb_spec (ma_meeting_id r) m) as [Hm|Hm]; [|now left].
    right. apply Z.eqb_neq. intros Hu. apply Hne. congruence. }
  destruct (existsb (same_attendee meeting_id user_id) attendance) eqn:Hex.
  - intros [= <-]. split; [|split].
    + rewrite (find_map_keyed (same_attendee meeting_id user_id)
                 (fun r => mk_meeting_attendance (ma_meeting_id r) (ma_user_id r)
                                                 stored)) by reflexivity.
      apply existsb_find in Hex. destruct Hex as [x Hx]. rewrite Hx. simpl.
      apply find_some in Hx. destruct Hx as [_ Hx]. unfold same_attendee in Hx.
      apply andb_true_iff in Hx. destruct Hx as [H1 H2].
      apply Z.eqb_eq in H1, H2. now rewrite H1, H2, Hstored.
    + intros m u Hne. clear Hex.
      induction attendance as [|a l IH]; simpl; [reflexivity|].
      destruct (same_attendee meeting_id user_id a) eqn:Ha.
      * replace (same_attendee m u (mk_meeting_attendance (ma_meeting_id a)
                                      (ma_user_id a) stored))
          with (same_attendee m u a) by reflexivity.
        rewrite (Hother m u a Hne Ha). exact IH.
      * destruct (same_attendee m u a); [reflexivity | exact IH].
    + now rewrite length_map.
  - destruct (_ && _); [|discriminate]. intros [= <-].
    apply find_none_existsb in Hex. split; [|split].
    + rewrite (find_app_fresh _ attendance _ Hex); [now rewrite Hstored|].
      unfold same_attendee. simpl. now rewrite !Z.eqb_refl.
    + intros m u Hne.
      destruct (find (same_attendee m u) attendance) as [x|] eqn:Hx.
      * now rewrite (find_app_keep _ attendance _ x Hx).
      * rewrite find_app_none; [reflexivity | exact Hx |].
        apply (Hother m u _ Hne). unfold same_attendee. simpl.
        now rewrite !Z.eqb_refl.
    + rewrite length_app. simpl. lia.
Qed.

Lemma set_attendance_records_status_witness :
  exists a1 a2,
    set_attendance true true Sample.running [] 1 3 "invalid" = Ok a1
    /\ set_attendance true true Sample.running a1 1 3 "remote" = Ok a2
    /\ a2 = [mk_meeting_attendance 1 3 "remote"]
    /\ get_attendance_for_user a1 1 3 = Some (mk_meeting_attendance 1 3 "present").
Proof.
  eexists. eexists. split; [reflexivity|]. split; [reflexivity|].
  split; [reflexivity|].
  exact (proj1 (set_attendance_records_status true true Sample.running [] _ 1 3
                  "invalid" eq_refl)).
Defined.

(** X23. [remove_attendance] makes the pair untracked again:
    [get_attendance_for_user] returns [None] for it, which is not one of the
    three statuses, and every other pair reads as before. *)
Theorem remove_attendance_untracks :
  forall (attendance : list meeting_attendance) (meeting_id user_id : Z),
    get_attendance_for_user (remove_attendance attendance meeting_id user_id)
                            meeting_id user_id = None
    /\ forall m u, (m, u) <> (meeting_id, user_id) ->
         get_attendance_for_user (remove_attendance attendance meeting_id user_id) m u
         = get_attendance_for_user attendance m u.
Proof.
  intros attendance meeting_id user_id.
  unfold get_attendance_for_user, remove_attendance. split.
  - apply find_all_false. intros x Hx. apply filter_In in Hx.
    destruct Hx as [_ Hx]. now apply negb_true_iff in Hx.
  - intros m u Hne. apply find_filter_other. intros x Hx.
    apply negb_true_iff. unfold same_attendee in *.
    apply andb_true_iff in Hx. destruct Hx as [H1 H2]. apply Z.eqb_eq in H1, H2.
    apply andb_false_iff.
    destruct (Z.eqb_spec (ma_meeting_id x) meeting_id) as [Hm|Hm]; [|now left].
    right. apply Z.eqb_neq. intros Hu. apply Hne. congruence.
Qed.

(** ** Display order after a reorder *)

Lemma sorted_before {A : Type} (R : A -> A -> Prop) (l1 l2 l3 : list A) (a b : A) :
  StronglySorted R (l1 ++ a :: l2 ++ b :: l3) -> R a b.
Proof.
  induction l1 as [|x l1 IH]; simpl; intros Hs.
  - inversion Hs as [|? ? _ Hall]; subst. rewrite Forall_forall in Hall.
    apply Hall. apply in_or_app. right. now left.
  - inversion Hs; subst. auto.
Qed.

(** X24. After [reorder_departments] with a duplicate-free list, the
    department list is shown in the order of that list: of two listed
    departments, [list_departments] never puts the one listed later before the
    one listed earlier. *)
Theorem reorder_departments_display_order :
  forall (d : db) (dept_ids : list Z) (l1 l2 l3 : list department)
         (a b : department) (na nb : nat),
    NoDup dept_ids ->
    list_departments (reorder_departments d dept_ids) = l1 ++ a :: l2 ++ b :: l3 ->
    nth_error dept_ids na = Some (d_id a) ->
    nth_error dept_ids nb = Some (d_id b) ->
    (na <= nb)%nat.
Proof.
  intros d dept_ids l1 l2 l3 a b na nb Hnd Hlist Ha Hb.
  assert (Hkey : forall x n,
             In x (list_departments (reorder_departments d dept_ids)) ->
             nth_error dept_ids n = Some (d_id x) ->
             d_sort_order x = Z.of_nat n).
  { intros x n Hx Hn. apply list_departments_in in Hx. destruct Hx as [Hx _].
    unfold reorder_departments in Hx. simpl in Hx.
    rewrite reorder_rows_spec in Hx. apply in_map_iff in Hx.
    destruct Hx as [y [Hy _]].
    assert (Hid : d_id x = d_id y).
    { rewrite <- Hy. now destruct (last_position 0 (d_id y) dept_ids). }
    rewrite Hid in Hn.
    rewrite (last_position_nth dept_ids (d_id y) Hnd n 0 Hn) in Hy.
    rewrite <- Hy. simpl. reflexivity. }
  pose proof (order_by_sorted d_sort_order
                (filter (fun x => d_is_archived x =? 0)
                        (departments (reorder_departments d dept_ids)))) as Hsorted.
  fold (list_departments (reorder_departments d dept_ids)) in Hsorted.
  assert (Hina : In a (list_departments (reorder_departments d dept_ids))).
  { rewrite Hlist. apply in_or_app. right. now left. }
  assert (Hinb : In b (list_departments (reorder_departments d dept_ids))).
  { rewrite Hlist. apply in_or_app. right. right. apply in_or_app. right. now left. }
  rewrite Hlist in Hsorted. apply sorted_before in Hsorted.
  rewrite (Hkey a na Hina Ha), (Hkey b nb Hinb Hb) in Hsorted. lia.
Qed.

Lemma reorder_departments_display_order_witness :
  NoDup [2; 3; 1]
  /\ map d_name (list_departments (reorder_departments Sample.seeded [2; 3; 1]))
     = ["Shoutouts"; "Engineering"]
  /\ (0 <= 2)%nat.
Proof.
  assert (H : NoDup [2; 3; 1]) by (repeat constructor; simpl; intuition lia).
  split; [exact H | split; [reflexivity|]].
  exact (reorder_departments_display_order Sample.seeded [2; 3; 1] []
           [] [] (mk_department 2 "Shoutouts" 0 1 0)
           (mk_department 1 "Engineering" 2 0 0) 0 2 H eq_refl eq_refl eq_refl).
Defined.

(** ** Open todos of a meeting *)

Lemma filter_by_key_unique (l : list section) (v : Z) :
  NoDup (map s_id l) ->
  filter (fun s => s_id s =? v) l
  = match find (fun s => s_id s =? v) l with
    | Some s => [s]
    | None => []
    end.
Proof.
  induction l as [|a l IH]; simpl; intros Hnd; [reflexivity|].
  inversion Hnd as [|? ? Hnotin Hnd']; subst.
  destruct (Z.eqb_spec (s_id a) v) as [Ha|Ha].
  - f_equal. apply filter_all_false. intros x Hx. apply Z.eqb_neq.
    intros Hxv. apply Hnotin. rewrite Ha, <- Hxv. now apply in_map.
  - now apply IH.
Qed.

Lemma open_todo_count_spec (d : db) (meeting_id : Z) :
  NoDup (map s_id (sections d)) ->
  get_meeting_open_todo_count d meeting_id
  = Z.of_nat (List.length (filter (open_in_meeting d meeting_id) (todos d))).
Proof.
  intros Hnd. unfold get_meeting_open_todo_count, todo_sections. f_equal.
  induction (todos d) as [|t l IH]; simpl; [reflexivity|].
  rewrite filter_app, length_app, IH.
  rewrite (filter_by_key_unique (sections d) (t_section_id t) Hnd).
  unfold open_in_meeting, get_section.
  destruct (find (fun s => s_id s =? t_section_id t) (sections d)) as [s|]; simpl.
  - rewrite andb_comm.
    destruct ((t_done t =? 0) && (s_meeting_id s =? meeting_id)); reflexivity.
  - rewrite andb_false_r. reflexivity.
Qed.

Lemma split_by_id (l : list todo) (id : Z) (t : todo) :
  NoDup (map t_id l) ->
  find (fun x => t_id x =? id) l = Some t ->
  exists l1 l2,
    l = l1 ++ t :: l2
    /\ (forall x, In x l1 -> t_id x <> id)
    /\ (forall x, In x l2 -> t_id x <> id).
Proof.
  induction l as [|a l IH]; simpl; intros Hnd Hf; [discriminate|].
  inversion Hnd as [|? ? Hnotin Hnd']; subst.
  destruct (Z.eqb_spec (t_id a) id) as [Ha|Ha].
  - injection Hf as <-. exists [], l. split; [reflexivity|].
    split; [intros x []|]. intros x Hx Hid. apply Hnotin.
    rewrite Ha, <- Hid. now apply in_map.
  - destruct (IH Hnd' Hf) as [l1 [l2 [-> [H1 H2]]]].
    exists (a :: l1), l2. split; [reflexivity|]. split; [|exact H2].
    intros x [<-|Hx]; auto.
Qed.

Lemma map_close_other (todo_id : Z) (now : string) (l : list todo) :
  (forall x, In x l -> t_id x <> todo_id) -> map (close_row todo_id now) l = l.
Proof.
  intros H. rewrite <- (map_id l) at 2. apply map_ext_in. intros x Hx.
  unfold close_row. now rewrite (proj2 (Z.eqb_neq _ _) (H x Hx)).
Qed.

(** X25. Carry-forward moves one open item: when [carry_forward_todo]
    succeeds on an open todo, the open-todo count of the meeting the todo was
    in goes down by one and that of the target meeting goes up by one (so it
    is unchanged when they are the same meeting); the count of every other
    meeting is unchanged.  Section and todo ids are primary keys. *)
Theorem carry_forward_moves_open_count :
  forall (sc : schema) (now : string) (d d' : db) (todo_id target new_id : Z)
         (t : todo) (orig : section) (m : Z),
    NoDup (map s_id (sections d)) ->
    NoDup (map t_id (todos d)) ->
    get_todo d todo_id = Some t ->
    t_done t = 0 ->
    get_section d (t_section_id t) = Some orig ->
    carry_forward_todo sc now d todo_id target = Ok (Some new_id, d') ->
    get_meeting_open_todo_count d' m + (if m =? s_meeting_id orig then 1 else 0)
    = get_meeting_open_todo_count d m + (if m =? target then 1 else 0).
Proof.
  intros sc now d d' todo_id target new_id t orig m Hsid Htid Ht Hopen Horig Hcf.
  unfold carry_forward_todo in Hcf. rewrite Ht, Horig in Hcf.
  destruct (find_target_section d orig target) as [ts|] eqn:Hts; [|discriminate].
  destruct (find_target_section_sound d orig ts target Hts) as [Hin [Hmt _]].
  unfold insert_todo in Hcf.
  destruct (_ && _); [|discriminate]. simpl in Hcf. injection Hcf as _ <-.
  set (nid := next_rowid (seq_todo d) (map t_id (todos d))) in *.
  set (new := mk_todo nid (s_id ts) (t_text t) 0 now (t_assigned_to t)
                      (t_due_date t) (t_priority t) (t_created_by t) None).
  assert (Hts_get : get_section d (s_id ts) = Some ts).
  { unfold get_section.
    pose proof (filter_by_key_unique (sections d) (s_id ts) Hsid) as Hf.
    destruct (find (fun s => s_id s =? s_id ts) (sections d)) as [x|] eqn:Hx.
    - assert (Hmem : In ts (filter (fun s => s_id s =? s_id ts) (sections d))).
      { apply filter_In. split; [exact Hin | apply Z.eqb_refl]. }
      rewrite Hf in Hmem. destruct Hmem as [->|[]]. reflexivity.
    - pose proof (find_none _ _ Hx ts Hin) as Hc. simpl in Hc.
      now rewrite Z.eqb_refl in Hc. }
  rewrite !open_todo_count_spec by exact Hsid.
  assert (Hopen_same : forall x,
             open_in_meeting (update_todo_done
                                (set_todo_rows (todos d ++ [new]) nid d)
                                todo_id 1 (Some now)) m x
             = open_in_meeting d m x) by reflexivity.
  rewrite (filter_ext _ _ Hopen_same).
  change (todos (update_todo_done (set_todo_rows (todos d ++ [new]) nid d)
                                  todo_id 1 (Some now)))
    with (map (close_row todo_id now) (todos d ++ [new])).
  assert (Hne : nid <> todo_id).
  { intros Heq. apply (next_rowid_not_in (seq_todo d) (map t_id (todos d))).
    fold nid. rewrite Heq. now destruct (get_todo_in_ids d todo_id t Ht). }
  destruct (split_by_id (todos d) todo_id t Htid Ht) as [l1 [l2 [Hl [H1 H2]]]].
  rewrite Hl. rewrite !map_app. simpl map.
  rewrite (map_close_other todo_id now l1 H1), (map_close_other todo_id now l2 H2).
  assert (Hct : close_row todo_id now t = set_done 1 (Some now) t).
  { unfold close_row. destruct (get_todo_in_ids d todo_id t Ht) as [_ Hid].
    now rewrite Hid, Z.eqb_refl. }
  assert (Hcn : close_row todo_id now new = new).
  { unfold close_row. simpl. now rewrite (proj2 (Z.eqb_neq _ _) Hne). }
  rewrite Hct, Hcn. rewrite !filter_app. cbn [filter].
  assert (Pt : open_in_meeting d m t = (s_meeting_id orig =? m)).
  { unfold open_in_meeting. now rewrite Hopen, Horig. }
  assert (Pt' : open_in_meeting d m (set_done 1 (Some now) t) = false) by reflexivity.
  assert (Pn : open_in_meeting d m new = (target =? m)).
  { unfold open_in_meeting. simpl. now rewrite Hts_get, Hmt. }
  rewrite Pt, Pt', Pn.
  rewrite (Z.eqb_sym m (s_meeting_id orig)), (Z.eqb_sym m target).
  destruct (s_meeting_id orig =? m), (target =? m);
    repeat (rewrite length_app; cbn [List.length]); lia.
Qed.

Lemma carry_forward_moves_open_count_witness :
  exists d',
    carry_forward_todo Sample.any_schema "T1" Sample.running 1 2 = Ok (Some 2, d')
    /\ get_meeting_open_todo_count Sample.running 1 = 1
    /\ get_meeting_open_todo_count d' 1 = 0
    /\ get_meeting_open_todo_count d' 2 + 0
       = get_meeting_open_todo_count Sample.running 2 + 1.
Proof.
  assert (H1 : NoDup (map s_id (sections Sample.running))).
  { simpl. repeat constructor; simpl; intuition lia. }
  assert (H2 : NoDup (map t_id (todos Sample.running))).
  { simpl. repeat constructor. intros []. }
  eexists. split; [reflexivity|]. split; [reflexivity|]. split; [reflexivity|].
  exact (carry_forward_moves_open_count Sample.any_schema "T1" Sample.running _ 1 2 2
           Sample.todo_1 Sample.section_1 2 H1 H2 eq_refl eq_refl eq_refl eq_refl).
Defined.

(** ** More on todos *)

(** X26. The round trip of [toggle_todo] holds for open todos only: on a
    todo that is done, two toggles leave it done but with the time of the
    second call as [completed_at]; the time it was first completed is not
    restored. *)
Theorem toggle_done_todo_twice :
  forall (now1 now2 : string) (d : db) (todo_id : Z) (t : todo),
    get_todo d todo_id = Some t ->
    t_done t <> 0 ->
    get_todo (toggle_todo now1 d todo_id) todo_id = Some (set_done 0 None t)
    /\ get_todo (toggle_todo now2 (toggle_todo now1 d todo_id) todo_id) todo_id
       = Some (set_done 1 (Some now2) t).
Proof.
  intros now1 now2 d todo_id t Ht Hdone.
  assert (H1 : toggle_todo now1 d todo_id = update_todo_done d todo_id 0 None).
  { unfold toggle_todo. now rewrite Ht, (proj2 (Z.eqb_neq _ _) Hdone). }
  assert (G1 : get_todo (toggle_todo now1 d todo_id) todo_id
               = Some (set_done 0 None t)).
  { rewrite H1. now apply get_todo_update_same. }
  split; [exact G1|].
  unfold toggle_todo at 1. rewrite G1. simpl.
  now rewrite (get_todo_update_same _ todo_id 1 (Some now2) _ G1).
Qed.

Lemma toggle_done_todo_twice_witness :
  get_todo (toggle_todo "T1" Sample.running 1) 1
  = Some (set_done 1 (Some "T1") Sample.todo_1)
  /\ option_map t_completed_at
       (get_todo (toggle_todo "T3" (toggle_todo "T2" (toggle_todo "T1" Sample.running 1)
                                                1) 1) 1)
     = Some (Some "T3").
Proof.
  assert (H : get_todo (toggle_todo "T1" Sample.running 1) 1
              = Some (set_done 1 (Some "T1") Sample.todo_1)) by reflexivity.
  split; [exact H|].
  now rewrite (proj2 (toggle_done_todo_twice "T2" "T3" (toggle_todo "T1" Sample.running 1)
                        1 _ H ltac:(simpl; discriminate))).
Defined.

(** X27. [add_todo] keeps the search index in step: on a section whose
    meeting exists, the index afterwards holds the rows it held, without any
    [todo] row keyed by the text of the new id, followed by one [todo] row for
    the new todo, keyed by the decimal text of its id and carrying the
    meeting's id and date, the section's name and reporter and the todo's
    text. *)
Theorem add_todo_indexes_todo :
  forall (sc : schema) (now : string) (d : db) (section_id : Z) (text : string)
         (assigned_to : option Z) (due_date : option string) (priority : string)
         (created_by : option Z) (s : section) (m : meeting),
    get_section d section_id = Some s ->
    get_meeting d (s_meeting_id s) = Some m ->
    todo_users_ok sc d assigned_to created_by ->
    exists d',
      let new_id := next_rowid (seq_todo d) (map t_id (todos d)) in
      add_todo sc now d section_id text assigned_to due_date priority created_by
      = Ok d'
      /\ search_index d'
         = filter (fun r => negb (String.eqb (si_type r) "todo"
                                  && sql_eqb (si_source_id r) (SqlText (str new_id))))
                  (search_index d)
           ++ [mk_search_row "todo" (SqlText (str new_id)) (SqlText (str (m_id m)))
                             (m_date m) (s_name s) (s_reporter s) text].
Proof.
  intros sc now d section_id text assigned_to due_date priority created_by s m
         Hs Hm Hu.
  assert (Hhas : has_section d section_id = true).
  { unfold has_section. apply existsb_find. now exists s. }
  set (stored := if negb (valid_priority priority) then "normal" else priority).
  set (new_id := next_rowid (seq_todo d) (map t_id (todos d))).
  set (new := mk_todo new_id section_id text 0 now assigned_to due_date stored
                      created_by None).
  set (d1 := set_todo_rows (todos d ++ [new]) new_id d).
  exists (_update_todo_index d1 new_id). cbv zeta. split.
  - unfold add_todo. fold stored.
    rewrite (insert_todo_ok sc d section_id text assigned_to due_date stored
               created_by now Hhas Hu). reflexivity.
  - unfold _update_todo_index.
    set (d2 := set_search_rows _ d1).
    assert (Hnew : get_todo d2 new_id = Some new).
    { unfold get_todo, d2, d1. simpl. apply find_app_fresh.
      - apply get_todo_fresh. apply next_rowid_not_in.
      - simpl. apply Z.eqb_refl. }
    rewrite Hnew. simpl t_section_id.
    change (get_section d2 section_id) with (get_section d section_id).
    rewrite Hs.
    change (get_meeting d2 (s_meeting_id s)) with (get_meeting d (s_meeting_id s)).
    rewrite Hm. reflexivity.
Qed.

Lemma add_todo_indexes_todo_witness :
  exists d',
    add_todo Sample.any_schema "T1" Sample.running 3 "Review" None None "low" None
    = Ok d'
    /\ search_index d'
       = [mk_search_row "todo" (SqlText "2") (SqlText "2") "2026-03-08" "Engineering"
                        "Alice" "Review"].
Proof.
  destruct (add_todo_indexes_todo Sample.any_schema "T1" Sample.running 3 "Review"
              None None "low" None Sample.section_3
              (mk_meeting 2 "2026-03-08" "2026-03-08T08:00:00" "open" None None None)
              eq_refl eq_refl (conj eq_refl eq_refl)) as [d' [Hr Hs]].
  exists d'. split; [exact Hr | exact Hs].
Defined.
